(** * RocKontrol output engine: ring buffer, texture pool, output sinks

    A shallow embedding of [switcher_frame.h] ([FrameRingBuffer],
    [TexturePool]) and [output_sink.h] ([OutputSink] with its per-output
    transition, crop and edge-blend state), together with a model of the
    NDI sender's bounded queue, and the properties the specification
    states about them.

    C++ [float] is IEEE-754 binary32 and is modelled by the Standard
    Library's [spec_float] at precision 24 and maximal exponent 128, so
    [<], [<=], [+] and [/] behave as they do on the machine, including
    infinities, signed zeros and NaN.  [int] and [uint32_t] values are only
    stored and compared, so they are integers in [Z]; [size_t] arithmetic
    is written with its reduction modulo [2^64]. *)

From Stdlib Require Import ZArith Bool List String Lia.
From Stdlib Require Import Floats.SpecFloat.
From stdpp Require Import base list.
Import ListNotations.

Local Open Scope Z_scope.

(* ===================================================================== *)
(** * binary32 arithmetic *)
(* ===================================================================== *)

Module F32.

Definition prec : Z := 24.
Definition emax : Z := 128.

Definition float32 : Type := spec_float.

Definition add (a b : float32) : float32 := SFadd prec emax a b.
Definition div (a b : float32) : float32 := SFdiv prec emax a b.
Definition ltb (a b : float32) : bool := SFltb a b.
Definition leb (a b : float32) : bool := SFleb a b.
Definition eqb (a b : float32) : bool := SFeqb a b.
(** [a >= b] and [a > b] are [b <= a] and [b < a]. *)
Definition geb (a b : float32) : bool := SFleb b a.
Definition gtb (a b : float32) : bool := SFltb b a.

(** An integer that fits the mantissa, as a [float]. *)
Definition of_Z (z : Z) : float32 := binary_normalize prec emax z 0 false.

(** The literal [n/d] for a decimal fraction, correctly rounded. *)
Definition of_frac (n d : Z) : float32 := div (of_Z n) (of_Z d).

Definition zero : float32 := S754_zero false.          (* 0.0f *)
Definition one : float32 := Eval cbv in of_Z 1.         (* 1.0f *)
Definition half : float32 := Eval cbv in of_frac 1 2.   (* 0.5f *)
Definition lit_2_2 : float32 := Eval cbv in of_frac 22 10. (* 2.2f *)
Definition thirty : float32 := Eval cbv in of_Z 30.     (* 30.0f *)
Definition pinf : float32 := S754_infinity false.

Definition is_zero (a : float32) : bool :=
  match a with S754_zero _ => true | _ => false end.

Definition is_nan (a : float32) : bool :=
  match a with S754_nan => true | _ => false end.

(** [std::min(a, b)] is [(b < a) ? b : a]; [std::max(a, b)] is
    [(a < b) ? b : a]. *)
Definition std_min (a b : float32) : float32 := if ltb b a then b else a.
Definition std_max (a b : float32) : float32 := if ltb a b then b else a.

(** The clamp [std::max(0.0f, std::min(1.0f, p))]. *)
Definition clamp01 (p : float32) : float32 := std_max zero (std_min one p).

#[global] Instance float32_eq_dec : EqDecision float32.
Proof. unfold float32. solve_decision. Defined.

End F32.

Abbreviation float32 := F32.float32.

(* ===================================================================== *)
(** * output_sink.h: the per-output state of [OutputSink] *)
(* ===================================================================== *)

Module Sink.

Inductive OutputMode := Program | Preview.

Inductive OutputSourceType := None_ | Screen | DirectInput | LegacyBus.

Inductive OutputTransitionType := Cut | Dissolve | Wipe | Dip.

(** [std::function] status callbacks are opaque; a handle stands for one. *)
Definition OutputStatusCallback : Type := Z.

(** [struct CropRegion]: normalised source rectangle, default full frame. *)
Record CropRegion := mkCrop {
  x : float32;
  y : float32;
  w : float32;
  h : float32
}.

Definition CropRegion_default : CropRegion :=
  mkCrop F32.zero F32.zero F32.one F32.one.

Definition isFullFrame (c : CropRegion) : bool :=
  F32.eqb (x c) F32.zero && F32.eqb (y c) F32.zero
  && F32.eqb (w c) F32.one && F32.eqb (h c) F32.one.

(** [struct EdgeBlendParams], every member in declaration order. *)
Record EdgeBlendParams := mkBlend {
  featherLeft : float32;
  featherRight : float32;
  featherTop : float32;
  featherBottom : float32;
  blendGamma : float32;
  blendPower : float32;
  blackLevel : float32;
  gammaR : float32;
  gammaG : float32;
  gammaB : float32;
  warpTopLeftX : float32;
  warpTopLeftY : float32;
  warpTopMiddleX : float32;
  warpTopMiddleY : float32;
  warpTopRightX : float32;
  warpTopRightY : float32;
  warpMiddleLeftX : float32;
  warpMiddleLeftY : float32;
  warpMiddleRightX : float32;
  warpMiddleRightY : float32;
  warpBottomLeftX : float32;
  warpBottomLeftY : float32;
  warpBottomMiddleX : float32;
  warpBottomMiddleY : float32;
  warpBottomRightX : float32;
  warpBottomRightY : float32;
  warpCurvature : float32;
  lensK1 : float32;
  lensK2 : float32;
  lensCenterX : float32;
  lensCenterY : float32;
  activeCorner : Z
}.

Definition EdgeBlendParams_default : EdgeBlendParams :=
  mkBlend
    F32.zero F32.zero F32.zero F32.zero F32.lit_2_2
    F32.one F32.zero F32.one F32.one F32.one
    F32.zero F32.zero F32.zero F32.zero F32.zero
    F32.zero F32.zero F32.zero F32.zero F32.zero
    F32.zero F32.zero F32.zero F32.zero F32.zero
    F32.zero F32.zero F32.zero F32.zero F32.half
    F32.half
    0.

Definition hasBlending (b : EdgeBlendParams) : bool :=
  F32.gtb (featherLeft b) F32.zero || F32.gtb (featherRight b) F32.zero
  || F32.gtb (featherTop b) F32.zero || F32.gtb (featherBottom b) F32.zero.

(** Brace initialisation with the first ten members given; the remaining
    members take their default member initialisers. *)
Definition EdgeBlendParams_init10
    (featherL featherR featherT featherB gamma power blackLvl gR gG gB : float32)
    : EdgeBlendParams :=
  mkBlend featherL featherR featherT featherB gamma power blackLvl gR gG gB
    F32.zero F32.zero F32.zero F32.zero F32.zero F32.zero F32.zero
    F32.zero F32.zero F32.zero F32.zero F32.zero F32.zero F32.zero
    F32.zero F32.zero F32.zero F32.zero F32.zero F32.half F32.half
    0.

(** The data members of [class OutputSink] with their initialisers. *)
Record OutputSink := mkSink {
  output_id_ : Z;
  output_mode_ : OutputMode;
  status_callback_ : option OutputStatusCallback;
  source_type_ : OutputSourceType;
  screen_index_ : Z;
  direct_input_index_ : Z;
  current_input_ : Z;
  pending_input_ : Z;
  transition_in_progress_ : bool;
  transition_progress_ : float32;
  transition_duration_frames_ : float32;
  transition_type_ : OutputTransitionType;
  current_crop_ : CropRegion;
  pending_crop_ : CropRegion;
  current_edge_blend_ : EdgeBlendParams;
  pending_edge_blend_ : EdgeBlendParams;
  intensity_ : float32
}.

Definition OutputSink_default : OutputSink :=
  mkSink (-1) Program None LegacyBus (-1) (-1) (-1) (-1)
    false F32.zero F32.thirty Dissolve
    CropRegion_default CropRegion_default
    EdgeBlendParams_default EdgeBlendParams_default F32.one.

(** Assignments to one data member. *)

Definition set_output_id_ (v : Z) (s : OutputSink) : OutputSink :=
  mkSink v (output_mode_ s) (status_callback_ s) (source_type_ s) (screen_index_ s)
    (direct_input_index_ s) (current_input_ s) (pending_input_ s)
    (transition_in_progress_ s) (transition_progress_ s) (transition_duration_frames_ s)
    (transition_type_ s) (current_crop_ s) (pending_crop_ s) (current_edge_blend_ s)
    (pending_edge_blend_ s) (intensity_ s).

Definition set_output_mode_ (v : OutputMode) (s : OutputSink) : OutputSink :=
  mkSink (output_id_ s) v (status_callback_ s) (source_type_ s) (screen_index_ s)
    (direct_input_index_ s) (current_input_ s) (pending_input_ s)
    (transition_in_progress_ s) (transition_progress_ s) (transition_duration_frames_ s)
    (transition_type_ s) (current_crop_ s) (pending_crop_ s) (current_edge_blend_ s)
    (pending_edge_blend_ s) (intensity_ s).

Definition set_status_callback_ (v : option OutputStatusCallback) (s : OutputSink)
    : OutputSink :=
  mkSink (output_id_ s) (output_mode_ s) v (source_type_ s) (screen_index_ s)
    (direct_input_index_ s) (current_input_ s) (pending_input_ s)
    (transition_in_progress_ s) (transition_progress_ s) (transition_duration_frames_ s)
    (transition_type_ s) (current_crop_ s) (pending_crop_ s) (current_edge_blend_ s)
    (pending_edge_blend_ s) (intensity_ s).

Definition set_source_type_ (v : OutputSourceType) (s : OutputSink) : OutputSink :=
  mkSink (output_id_ s) (output_mode_ s) (status_callback_ s) v (screen_index_ s)
    (direct_input_index_ s) (current_input_ s) (pending_input_ s)
    (transition_in_progress_ s) (transition_progress_ s) (transition_duration_frames_ s)
    (transition_type_ s) (current_crop_ s) (pending_crop_ s) (current_edge_blend_ s)
    (pending_edge_blend_ s) (intensity_ s).

Definition set_screen_index_ (v : Z) (s : OutputSink) : OutputSink :=
  mkSink (output_id_ s) (output_mode_ s) (status_callback_ s) (source_type_ s) v
    (direct_input_index_ s) (current_input_ s) (pending_input_ s)
    (transition_in_progress_ s) (transition_progress_ s) (transition_duration_frames_ s)
    (transition_type_ s) (current_crop_ s) (pending_crop_ s) (current_edge_blend_ s)
    (pending_edge_blend_ s) (intensity_ s).

Definition set_direct_input_index_ (v : Z) (s : OutputSink) : OutputSink :=
  mkSink (output_id_ s) (output_mode_ s) (status_callback_ s) (source_type_ s)
    (screen_index_ s) v (current_input_ s) (pending_input_ s)
    (transition_in_progress_ s) (transition_progress_ s) (transition_duration_frames_ s)
    (transition_type_ s) (current_crop_ s) (pending_crop_ s) (current_edge_blend_ s)
    (pending_edge_blend_ s) (intensity_ s).

Definition set_current_input_ (v : Z) (s : OutputSink) : OutputSink :=
  mkSink (output_id_ s) (output_mode_ s) (status_callback_ s) (source_type_ s)
    (screen_index_ s) (direct_input_index_ s) v (pending_input_ s)
    (transition_in_progress_ s) (transition_progress_ s) (transition_duration_frames_ s)
    (transition_type_ s) (current_crop_ s) (pending_crop_ s) (current_edge_blend_ s)
    (pending_edge_blend_ s) (intensity_ s).

Definition set_pending_input_ (v : Z) (s : OutputSink) : OutputSink :=
  mkSink (output_id_ s) (output_mode_ s) (status_callback_ s) (source_type_ s)
    (screen_index_ s) (direct_input_index_ s) (current_input_ s) v
    (transition_in_progress_ s) (transition_progress_ s) (transition_duration_frames_ s)
    (transition_type_ s) (current_crop_ s) (pending_crop_ s) (current_edge_blend_ s)
    (pending_edge_blend_ s) (intensity_ s).

Definition set_transition_in_progress_ (v : bool) (s : OutputSink) : OutputSink :=
  mkSink (output_id_ s) (output_mode_ s) (status_callback_ s) (source_type_ s)
    (screen_index_ s) (direct_input_index_ s) (current_input_ s) (pending_input_ s) v
    (transition_progress_ s) (transition_duration_frames_ s) (transition_type_ s)
    (current_crop_ s) (pending_crop_ s) (current_edge_blend_ s) (pending_edge_blend_ s)
    (intensity_ s).

Definition set_transition_progress_ (v : float32) (s : OutputSink) : OutputSink :=
  mkSink (output_id_ s) (output_mode_ s) (status_callback_ s) (source_type_ s)
    (screen_index_ s) (direct_input_index_ s) (current_input_ s) (pending_input_ s)
    (transition_in_progress_ s) v (transition_duration_frames_ s) (transition_type_ s)
    (current_crop_ s) (pending_crop_ s) (current_edge_blend_ s) (pending_edge_blend_ s)
    (intensity_ s).

Definition set_transition_duration_frames_ (v : float32) (s : OutputSink) : OutputSink :=
  mkSink (output_id_ s) (output_mode_ s) (status_callback_ s) (source_type_ s)
    (screen_index_ s) (direct_input_index_ s) (current_input_ s) (pending_input_ s)
    (transition_in_progress_ s) (transition_progress_ s) v (transition_type_ s)
    (current_crop_ s) (pending_crop_ s) (current_edge_blend_ s) (pending_edge_blend_ s)
    (intensity_ s).

Definition set_transition_type_ (v : OutputTransitionType) (s : OutputSink)
    : OutputSink :=
  mkSink (output_id_ s) (output_mode_ s) (status_callback_ s) (source_type_ s)
    (screen_index_ s) (direct_input_index_ s) (current_input_ s) (pending_input_ s)
    (transition_in_progress_ s) (transition_progress_ s) (transition_duration_frames_ s)
    v (current_crop_ s) (pending_crop_ s) (current_edge_blend_ s)
    (pending_edge_blend_ s) (intensity_ s).

Definition set_current_crop_ (v : CropRegion) (s : OutputSink) : OutputSink :=
  mkSink (output_id_ s) (output_mode_ s) (status_callback_ s) (source_type_ s)
    (screen_index_ s) (direct_input_index_ s) (current_input_ s) (pending_input_ s)
    (transition_in_progress_ s) (transition_progress_ s) (transition_duration_frames_ s)
    (transition_type_ s) v (pending_crop_ s) (current_edge_blend_ s)
    (pending_edge_blend_ s) (intensity_ s).

Definition set_pending_crop_ (v : CropRegion) (s : OutputSink) : OutputSink :=
  mkSink (output_id_ s) (output_mode_ s) (status_callback_ s) (source_type_ s)
    (screen_index_ s) (direct_input_index_ s) (current_input_ s) (pending_input_ s)
    (transition_in_progress_ s) (transition_progress_ s) (transition_duration_frames_ s)
    (transition_type_ s) (current_crop_ s) v (current_edge_blend_ s)
    (pending_edge_blend_ s) (intensity_ s).

Definition set_current_edge_blend_ (v : EdgeBlendParams) (s : OutputSink) : OutputSink :=
  mkSink (output_id_ s) (output_mode_ s) (status_callback_ s) (source_type_ s)
    (screen_index_ s) (direct_input_index_ s) (current_input_ s) (pending_input_ s)
    (transition_in_progress_ s) (transition_progress_ s) (transition_duration_frames_ s)
    (transition_type_ s) (current_crop_ s) (pending_crop_ s) v (pending_edge_blend_ s)
    (intensity_ s).

Definition set_pending_edge_blend_ (v : EdgeBlendParams) (s : OutputSink) : OutputSink :=
  mkSink (output_id_ s) (output_mode_ s) (status_callback_ s) (source_type_ s)
    (screen_index_ s) (direct_input_index_ s) (current_input_ s) (pending_input_ s)
    (transition_in_progress_ s) (transition_progress_ s) (transition_duration_frames_ s)
    (transition_type_ s) (current_crop_ s) (pending_crop_ s) (current_edge_blend_ s) v
    (intensity_ s).

Definition set_intensity_ (v : float32) (s : OutputSink) : OutputSink :=
  mkSink (output_id_ s) (output_mode_ s) (status_callback_ s) (source_type_ s)
    (screen_index_ s) (direct_input_index_ s) (current_input_ s) (pending_input_ s)
    (transition_in_progress_ s) (transition_progress_ s) (transition_duration_frames_ s)
    (transition_type_ s) (current_crop_ s) (pending_crop_ s) (current_edge_blend_ s)
    (pending_edge_blend_ s) v.



(** ** Member functions

    A [void] member function maps the object to the object after the call;
    a [bool] one also returns its result.  Statements are kept in source
    order, one [let] for an assignment.  The pure virtual functions
    ([start], [stop], [pushFrame], ...) belong to the concrete sinks. *)

Definition is_Cut (t : OutputTransitionType) : bool :=
  match t with Cut => true | _ => false end.

Definition setStatusCallback (callback : OutputStatusCallback) (s : OutputSink) : OutputSink :=
  set_status_callback_ (Some callback) s.

Definition outputId (s : OutputSink) : Z := output_id_ s.
Definition setOutputId (id : Z) (s : OutputSink) : OutputSink := set_output_id_ id s.

Definition outputMode (s : OutputSink) : OutputMode := output_mode_ s.
Definition setOutputMode (mode : OutputMode) (s : OutputSink) : OutputSink :=
  set_output_mode_ mode s.

Definition sourceType (s : OutputSink) : OutputSourceType := source_type_ s.
Definition setSourceType (type : OutputSourceType) (s : OutputSink) : OutputSink :=
  set_source_type_ type s.

Definition screenIndex (s : OutputSink) : Z := screen_index_ s.
Definition setScreenIndex (idx : Z) (s : OutputSink) : OutputSink :=
  let s := set_screen_index_ idx s in
  let s := set_source_type_ Screen s in
  s.

Definition directInputIndex (s : OutputSink) : Z := direct_input_index_ s.
Definition setDirectInputIndex (idx : Z) (s : OutputSink) : OutputSink :=
  let s := set_direct_input_index_ idx s in
  let s := set_source_type_ DirectInput s in
  s.

Definition setLegacyBusMode (s : OutputSink) : OutputSink :=
  let s := set_source_type_ LegacyBus s in
  let s := set_screen_index_ (-1) s in
  let s := set_direct_input_index_ (-1) s in
  s.

Definition disableSource (s : OutputSink) : OutputSink :=
  let s := set_source_type_ None_ s in
  let s := set_screen_index_ (-1) s in
  let s := set_direct_input_index_ (-1) s in
  s.

Definition currentInput (s : OutputSink) : Z := current_input_ s.
Definition setCurrentInput (idx : Z) (s : OutputSink) : OutputSink :=
  let s := set_current_input_ idx s in
  let s := set_source_type_ DirectInput s in
  let s := set_direct_input_index_ idx s in
  s.

Definition pendingInput (s : OutputSink) : Z := pending_input_ s.
Definition setPendingInput (idx : Z) (s : OutputSink) : OutputSink :=
  set_pending_input_ idx s.

Definition isTransitionInProgress (s : OutputSink) : bool := transition_in_progress_ s.
Definition transitionProgress (s : OutputSink) : float32 := transition_progress_ s.
Definition transitionDurationFrames (s : OutputSink) : float32 :=
  transition_duration_frames_ s.
Definition transitionType (s : OutputSink) : OutputTransitionType := transition_type_ s.

Definition setTransitionDuration (frames : float32) (s : OutputSink) : OutputSink :=
  set_transition_duration_frames_ frames s.
Definition setTransitionType (type : OutputTransitionType) (s : OutputSink) : OutputSink :=
  set_transition_type_ type s.

Definition startTransition (toInput : Z) (type : OutputTransitionType)
    (durationFrames : float32) (s : OutputSink) : OutputSink :=
  if is_Cut type || F32.leb durationFrames F32.zero then
    let s := set_current_input_ toInput s in
    let s := set_direct_input_index_ toInput s in
    let s := set_source_type_ DirectInput s in
    let s := set_pending_input_ (-1) s in
    let s := set_transition_in_progress_ false s in
    let s := set_transition_progress_ F32.zero s in
    s
  else
    let s := set_pending_input_ toInput s in
    let s := set_transition_type_ type s in
    let s := set_transition_duration_frames_ durationFrames s in
    let s := set_transition_in_progress_ true s in
    let s := set_transition_progress_ F32.zero s in
    s.

Definition advanceTransition (s : OutputSink) : OutputSink * bool :=
  if negb (transition_in_progress_ s) then (s, false)
  else
    let step := F32.div F32.one (transition_duration_frames_ s) in
    let s := set_transition_progress_ (F32.add (transition_progress_ s) step) s in
    if F32.geb (transition_progress_ s) F32.one then
      let s := set_current_input_ (pending_input_ s) s in
      let s := set_direct_input_index_ (pending_input_ s) s in
      let s := set_source_type_ DirectInput s in
      let s := set_current_crop_ (pending_crop_ s) s in
      let s := set_current_edge_blend_ (pending_edge_blend_ s) s in
      let s := set_pending_input_ (-1) s in
      let s := set_transition_in_progress_ false s in
      let s := set_transition_progress_ F32.zero s in
      (s, true)
    else (s, false).

Definition cancelTransition (s : OutputSink) : OutputSink :=
  let s := set_pending_input_ (-1) s in
  let s := set_transition_in_progress_ false s in
  let s := set_transition_progress_ F32.zero s in
  s.

Definition setTransitionProgress (progress : float32) (s : OutputSink)
    : OutputSink * bool :=
  if negb (transition_in_progress_ s) then (s, false)
  else
    let s :=
      set_transition_progress_ (F32.std_max F32.zero (F32.std_min F32.one progress)) s in
    let s :=
      if F32.geb (transition_progress_ s) F32.one then
        let s := set_current_input_ (pending_input_ s) s in
        let s := set_direct_input_index_ (pending_input_ s) s in
        let s := set_source_type_ DirectInput s in
        let s := set_current_crop_ (pending_crop_ s) s in
        let s := set_current_edge_blend_ (pending_edge_blend_ s) s in
        let s := set_pending_input_ (-1) s in
        let s := set_transition_in_progress_ false s in
        let s := set_transition_progress_ F32.zero s in
        s
      else s in
    (s, true).

Definition startTBarTransition (toInput : Z) (type : OutputTransitionType)
    (s : OutputSink) : OutputSink :=
  let s := set_pending_input_ toInput s in
  let s := set_transition_type_ type s in
  let s := set_transition_duration_frames_ F32.zero s in
  let s := set_transition_in_progress_ true s in
  let s := set_transition_progress_ F32.zero s in
  s.

Definition startTBarTransitionWithCropAndBlend (toInput : Z) (type : OutputTransitionType)
    (cropX cropY cropW cropH featherL featherR featherT featherB
     blendGamma_ blendPower_ blackLevel_ gammaR_ gammaG_ gammaB_ : float32)
    (s : OutputSink) : OutputSink :=
  let s := set_pending_input_ toInput s in
  let s := set_pending_crop_ (mkCrop cropX cropY cropW cropH) s in
  let s := set_pending_edge_blend_
             (EdgeBlendParams_init10 featherL featherR featherT featherB
                blendGamma_ blendPower_ blackLevel_ gammaR_ gammaG_ gammaB_) s in
  let s := set_transition_type_ type s in
  let s := set_transition_duration_frames_ F32.zero s in
  let s := set_transition_in_progress_ true s in
  let s := set_transition_progress_ F32.zero s in
  s.

Definition intensity (s : OutputSink) : float32 := intensity_ s.
Definition setIntensity (i : float32) (s : OutputSink) : OutputSink :=
  set_intensity_ (F32.std_max F32.zero (F32.std_min F32.one i)) s.

Definition currentCrop (s : OutputSink) : CropRegion := current_crop_ s.
Definition pendingCrop (s : OutputSink) : CropRegion := pending_crop_ s.

Definition setCrop (cx cy cw ch : float32) (s : OutputSink) : OutputSink :=
  set_current_crop_ (mkCrop cx cy cw ch) s.

Definition setPendingCrop (cx cy cw ch : float32) (s : OutputSink) : OutputSink :=
  set_pending_crop_ (mkCrop cx cy cw ch) s.

Definition currentEdgeBlend (s : OutputSink) : EdgeBlendParams := current_edge_blend_ s.
Definition pendingEdgeBlend (s : OutputSink) : EdgeBlendParams := pending_edge_blend_ s.

Definition setEdgeBlend
    (featherL featherR featherT featherB gamma power blackLevel_ gammaR_ gammaG_ gammaB_
     warpTLX warpTLY warpTMX warpTMY warpTRX warpTRY
     warpMLX warpMLY warpMRX warpMRY
     warpBLX warpBLY warpBMX warpBMY warpBRX warpBRY
     warpCurvature_ lensK1_ lensK2_ lensCX lensCY : float32) (activeCorner_ : Z)
    (s : OutputSink) : OutputSink :=
  set_current_edge_blend_
    (mkBlend featherL featherR featherT featherB gamma power blackLevel_
       gammaR_ gammaG_ gammaB_
       warpTLX warpTLY warpTMX warpTMY warpTRX warpTRY
       warpMLX warpMLY warpMRX warpMRY
       warpBLX warpBLY warpBMX warpBMY warpBRX warpBRY
       warpCurvature_ lensK1_ lensK2_ lensCX lensCY activeCorner_) s.

Definition setPendingEdgeBlend
    (featherL featherR featherT featherB gamma power blackLevel_ gammaR_ gammaG_ gammaB_
     : float32) (s : OutputSink) : OutputSink :=
  set_pending_edge_blend_
    (EdgeBlendParams_init10 featherL featherR featherT featherB
       gamma power blackLevel_ gammaR_ gammaG_ gammaB_) s.

Definition startTransitionWithCrop (toInput : Z) (type : OutputTransitionType)
    (durationFrames cropX cropY cropW cropH : float32) (s : OutputSink) : OutputSink :=
  let s := set_pending_crop_ (mkCrop cropX cropY cropW cropH) s in
  if is_Cut type || F32.leb durationFrames F32.zero then
    let s := set_current_input_ toInput s in
    let s := set_direct_input_index_ toInput s in
    let s := set_source_type_ DirectInput s in
    let s := set_current_crop_ (pending_crop_ s) s in
    let s := set_pending_input_ (-1) s in
    let s := set_transition_in_progress_ false s in
    let s := set_transition_progress_ F32.zero s in
    s
  else
    let s := set_pending_input_ toInput s in
    let s := set_transition_type_ type s in
    let s := set_transition_duration_frames_ durationFrames s in
    let s := set_transition_in_progress_ true s in
    let s := set_transition_progress_ F32.zero s in
    s.

Definition startTransitionWithCropAndBlend (toInput : Z) (type : OutputTransitionType)
    (durationFrames cropX cropY cropW cropH featherL featherR featherT featherB
     blendGamma_ blendPower_ blackLevel_ gammaR_ gammaG_ gammaB_ : float32)
    (s : OutputSink) : OutputSink :=
  let s := set_pending_crop_ (mkCrop cropX cropY cropW cropH) s in
  let s := set_pending_edge_blend_
             (EdgeBlendParams_init10 featherL featherR featherT featherB
                blendGamma_ blendPower_ blackLevel_ gammaR_ gammaG_ gammaB_) s in
  if is_Cut type || F32.leb durationFrames F32.zero then
    let s := set_current_input_ toInput s in
    let s := set_direct_input_index_ toInput s in
    let s := set_source_type_ DirectInput s in
    let s := set_current_crop_ (pending_crop_ s) s in
    let s := set_current_edge_blend_ (pending_edge_blend_ s) s in
    let s := set_pending_input_ (-1) s in
    let s := set_transition_in_progress_ false s in
    let s := set_transition_progress_ F32.zero s in
    s
  else
    let s := set_pending_input_ toInput s in
    let s := set_transition_type_ type s in
    let s := set_transition_duration_frames_ durationFrames s in
    let s := set_transition_in_progress_ true s in
    let s := set_transition_progress_ F32.zero s in
    s.

Definition advanceTransitionWithCrop (s : OutputSink) : OutputSink * bool :=
  if negb (transition_in_progress_ s) then (s, false)
  else
    let step := F32.div F32.one (transition_duration_frames_ s) in
    let s := set_transition_progress_ (F32.add (transition_progress_ s) step) s in
    if F32.geb (transition_progress_ s) F32.one then
      let s := set_current_input_ (pending_input_ s) s in
      let s := set_direct_input_index_ (pending_input_ s) s in
      let s := set_source_type_ DirectInput s in
      let s := set_current_crop_ (pending_crop_ s) s in
      let s := set_current_edge_blend_ (pending_edge_blend_ s) s in
      let s := set_pending_input_ (-1) s in
      let s := set_transition_in_progress_ false s in
      let s := set_transition_progress_ F32.zero s in
      (s, true)
    else (s, false).

(** ** Runs of the transition machine *)

(** The triple the render path reads, and the triple staged for the next
    commit. *)
Definition current_triple (s : OutputSink) : Z * CropRegion * EdgeBlendParams :=
  (current_input_ s, current_crop_ s, current_edge_blend_ s).

Definition pending_triple (s : OutputSink) : Z * CropRegion * EdgeBlendParams :=
  (pending_input_ s, pending_crop_ s, pending_edge_blend_ s).

(** The source assignment. *)
Definition source_assignment (s : OutputSink) : OutputSourceType * Z * Z :=
  (source_type_ s, screen_index_ s, direct_input_index_ s).

#[global] Instance CropRegion_eq_dec : EqDecision CropRegion.
Proof. solve_decision. Defined.

#[global] Instance EdgeBlendParams_eq_dec : EqDecision EdgeBlendParams.
Proof. solve_decision. Defined.

(** The two calls that move the progress of a running transition. *)
Inductive progress_call :=
| Advance
| SetProgress (p : float32).

Definition call (c : progress_call) (s : OutputSink) : OutputSink * bool :=
  match c with
  | Advance => advanceTransition s
  | SetProgress p => setTransitionProgress p s
  end.

(** The value of [transition_progress_] that a call compares with [1.0f],
    when the call gets as far as the comparison. *)
Definition tested_progress (c : progress_call) (s : OutputSink) : option float32 :=
  if negb (transition_in_progress_ s) then None
  else
    Some match c with
         | Advance =>
             F32.add (transition_progress_ s)
               (F32.div F32.one (transition_duration_frames_ s))
         | SetProgress p => F32.std_max F32.zero (F32.std_min F32.one p)
         end.

(** The call finds [transition_progress_ >= 1.0f]. *)
Definition reaches_one (c : progress_call) (s : OutputSink) : bool :=
  match tested_progress c s with
  | Some v => F32.geb v F32.one
  | None => false
  end.

Fixpoint run (cs : list progress_call) (s : OutputSink) : OutputSink :=
  match cs with
  | [] => s
  | c :: cs' => run cs' (fst (call c s))
  end.

(** The sink after each call of a run, in order. *)
Fixpoint trace (cs : list progress_call) (s : OutputSink) : list OutputSink :=
  match cs with
  | [] => []
  | c :: cs' => fst (call c s) :: trace cs' (fst (call c s))
  end.

(** How many calls of a run find the progress at one or more. *)
Fixpoint reach_count (cs : list progress_call) (s : OutputSink) : nat :=
  match cs with
  | [] => O
  | c :: cs' =>
      ((if reaches_one c s then 1 else 0) + reach_count cs' (fst (call c s)))%nat
  end.

(** How many calls of a run leave a different current triple behind. *)
Fixpoint change_count (cs : list progress_call) (s : OutputSink) : nat :=
  match cs with
  | [] => O
  | c :: cs' =>
      ((if decide (current_triple (fst (call c s)) = current_triple s) then 0 else 1)
       + change_count cs' (fst (call c s)))%nat
  end.

(** The divisor of the division in [advanceTransition], when the call gets
    as far as the division. *)
Definition advance_divisor (s : OutputSink) : option float32 :=
  if negb (transition_in_progress_ s) then None
  else Some (transition_duration_frames_ s).

Definition advance_divides_by_zero (s : OutputSink) : bool :=
  match advance_divisor s with
  | Some d => F32.is_zero d
  | None => false
  end.

(** ** Every public mutator, as one operation type *)

Inductive op :=
| OpSetStatusCallback (callback : OutputStatusCallback)
| OpSetOutputId (id : Z)
| OpSetOutputMode (mode : OutputMode)
| OpSetSourceType (type : OutputSourceType)
| OpSetScreenIndex (idx : Z)
| OpSetDirectInputIndex (idx : Z)
| OpSetLegacyBusMode
| OpDisableSource
| OpSetCurrentInput (idx : Z)
| OpSetPendingInput (idx : Z)
| OpSetTransitionDuration (frames : float32)
| OpSetTransitionType (type : OutputTransitionType)
| OpStartTransition (toInput : Z) (type : OutputTransitionType) (durationFrames : float32)
| OpAdvanceTransition
| OpCancelTransition
| OpSetTransitionProgress (progress : float32)
| OpStartTBarTransition (toInput : Z) (type : OutputTransitionType)
| OpStartTBarTransitionWithCropAndBlend (toInput : Z) (type : OutputTransitionType)
    (cropX cropY cropW cropH featherL featherR featherT featherB
     blendGamma_ blendPower_ blackLevel_ gammaR_ gammaG_ gammaB_ : float32)
| OpSetIntensity (i : float32)
| OpSetCrop (cx cy cw ch : float32)
| OpSetPendingCrop (cx cy cw ch : float32)
| OpSetEdgeBlend
    (featherL featherR featherT featherB gamma power blackLevel_ gammaR_ gammaG_ gammaB_
     warpTLX warpTLY warpTMX warpTMY warpTRX warpTRY
     warpMLX warpMLY warpMRX warpMRY
     warpBLX warpBLY warpBMX warpBMY warpBRX warpBRY
     warpCurvature_ lensK1_ lensK2_ lensCX lensCY : float32) (activeCorner_ : Z)
| OpSetPendingEdgeBlend
    (featherL featherR featherT featherB gamma power
     blackLevel_ gammaR_ gammaG_ gammaB_ : float32)
| OpStartTransitionWithCrop (toInput : Z) (type : OutputTransitionType)
    (durationFrames cropX cropY cropW cropH : float32)
| OpStartTransitionWithCropAndBlend (toInput : Z) (type : OutputTransitionType)
    (durationFrames cropX cropY cropW cropH featherL featherR featherT featherB
     blendGamma_ blendPower_ blackLevel_ gammaR_ gammaG_ gammaB_ : float32)
| OpAdvanceTransitionWithCrop.

Definition apply (o : op) (s : OutputSink) : OutputSink :=
  match o with
  | OpSetStatusCallback cb => setStatusCallback cb s
  | OpSetOutputId id => setOutputId id s
  | OpSetOutputMode m => setOutputMode m s
  | OpSetSourceType t => setSourceType t s
  | OpSetScreenIndex i => setScreenIndex i s
  | OpSetDirectInputIndex i => setDirectInputIndex i s
  | OpSetLegacyBusMode => setLegacyBusMode s
  | OpDisableSource => disableSource s
  | OpSetCurrentInput i => setCurrentInput i s
  | OpSetPendingInput i => setPendingInput i s
  | OpSetTransitionDuration f => setTransitionDuration f s
  | OpSetTransitionType t => setTransitionType t s
  | OpStartTransition i t d => startTransition i t d s
  | OpAdvanceTransition => fst (advanceTransition s)
  | OpCancelTransition => cancelTransition s
  | OpSetTransitionProgress p => fst (setTransitionProgress p s)
  | OpStartTBarTransition i t => startTBarTransition i t s
  | OpStartTBarTransitionWithCropAndBlend i t cx cy cw ch fl fr ft fb g p bl gr gg gb =>
      startTBarTransitionWithCropAndBlend i t cx cy cw ch fl fr ft fb g p bl gr gg gb s
  | OpSetIntensity i => setIntensity i s
  | OpSetCrop cx cy cw ch => setCrop cx cy cw ch s
  | OpSetPendingCrop cx cy cw ch => setPendingCrop cx cy cw ch s
  | OpSetEdgeBlend a1 a2 a3 a4 a5 a6 a7 a8 a9 a10 a11 a12 a13 a14 a15 a16
      a17 a18 a19 a20 a21 a22 a23 a24 a25 a26 a27 a28 a29 a30 a31 a32 =>
      setEdgeBlend a1 a2 a3 a4 a5 a6 a7 a8 a9 a10 a11 a12 a13 a14 a15 a16
      a17 a18 a19 a20 a21 a22 a23 a24 a25 a26 a27 a28 a29 a30 a31 a32 s
  | OpSetPendingEdgeBlend fl fr ft fb g p bl gr gg gb =>
      setPendingEdgeBlend fl fr ft fb g p bl gr gg gb s
  | OpStartTransitionWithCrop i t d cx cy cw ch =>
      startTransitionWithCrop i t d cx cy cw ch s
  | OpStartTransitionWithCropAndBlend i t d cx cy cw ch fl fr ft fb g p bl gr gg gb =>
      startTransitionWithCropAndBlend i t d cx cy cw ch fl fr ft fb g p bl gr gg gb s
  | OpAdvanceTransitionWithCrop => fst (advanceTransitionWithCrop s)
  end.

Definition apply_all (os : list op) (s : OutputSink) : OutputSink :=
  fold_left (fun s o => apply o s) os s.

(** The operations of the transition machine. *)
Definition is_transition_op (o : op) : bool :=
  match o with
  | OpStartTransition _ _ _ | OpAdvanceTransition | OpCancelTransition
  | OpSetTransitionProgress _ | OpStartTBarTransition _ _
  | OpStartTBarTransitionWithCropAndBlend _ _ _ _ _ _ _ _ _ _ _ _ _ _ _ _
  | OpStartTransitionWithCrop _ _ _ _ _ _ _
  | OpStartTransitionWithCropAndBlend _ _ _ _ _ _ _ _ _ _ _ _ _ _ _ _ _
  | OpAdvanceTransitionWithCrop => true
  | _ => false
  end.

(** While Idle the progress is zero. *)
Definition idle_progress_zero (s : OutputSink) : Prop :=
  transition_in_progress_ s = false -> transition_progress_ s = F32.zero.

(** The operations that assign the source directly. *)
Definition is_source_setter (o : op) : bool :=
  match o with
  | OpSetSourceType _ | OpSetScreenIndex _ | OpSetDirectInputIndex _
  | OpSetLegacyBusMode | OpDisableSource | OpSetCurrentInput _ => true
  | _ => false
  end.

(** The operation runs a commit block (an instant cut, or a transition
    reaching its end). *)
Definition op_commits (o : op) (s : OutputSink) : bool :=
  match o with
  | OpStartTransition _ t d
  | OpStartTransitionWithCrop _ t d _ _ _ _
  | OpStartTransitionWithCropAndBlend _ t d _ _ _ _ _ _ _ _ _ _ _ _ _ _ =>
      is_Cut t || F32.leb d F32.zero
  | OpAdvanceTransition | OpAdvanceTransitionWithCrop => reaches_one Advance s
  | OpSetTransitionProgress p => reaches_one (SetProgress p) s
  | _ => false
  end.

End Sink.

(* ===================================================================== *)
(** * switcher_frame.h: frames, the frame ring buffer, the texture pool *)
(* ===================================================================== *)

(** A call whose behaviour the language leaves undefined (an index past the
    end of a [std::vector], a remainder by zero) has no result. *)
Inductive outcome (A : Type) : Type :=
| Undefined : outcome A
| Ret : A -> outcome A.
Arguments Undefined {A}.
Arguments Ret {A} _.

Definition obind {A B : Type} (o : outcome A) (k : A -> outcome B) : outcome B :=
  match o with
  | Undefined => Undefined
  | Ret a => k a
  end.

(** [size_t] is 64 bits wide: sums are reduced modulo [2^64]. *)
Definition size_t_modulus : Z := 2 ^ 64.
Definition wrap_size_t (z : Z) : Z := z mod size_t_modulus.

Module Frame.

(** An [id<MTLTexture>]: the object's identity with its immutable
    dimensions; [nil] is [None]. *)
Record MTLTexture := mkTexture {
  tex_id : Z;
  tex_width : Z;
  tex_height : Z
}.

Record SwitcherFrame := mkFrame {
  texture : option MTLTexture;
  timestamp_ns : Z;
  frame_number : Z;
  width : Z;
  height : Z;
  frame_rate : float32;
  valid : bool;
  interlaced : bool;
  top_field_first : bool
}.

(** The default constructor, which is also what [reset()] assigns. *)
Definition SwitcherFrame_default : SwitcherFrame :=
  mkFrame None 0 0 0 0 F32.zero false false true.

Definition reset (f : SwitcherFrame) : SwitcherFrame := SwitcherFrame_default.

End Frame.

Module Ring.
Import Frame.

Record FrameRingBuffer := mkRing {
  capacity_ : Z;
  frames_ : list SwitcherFrame;
  write_idx_ : Z;
  read_idx_ : Z;
  count_ : Z
}.

Definition FrameRingBuffer_new (capacity : Z) : FrameRingBuffer :=
  mkRing capacity (replicate (Z.to_nat capacity) SwitcherFrame_default) 0 0 0.

(** [v[i]] on a vector: defined inside the bounds only. *)
Definition in_bounds (i : Z) (v : list SwitcherFrame) : bool :=
  (0 <=? i) && (i <? Z.of_nat (length v)).

(** [a % b] on [size_t]: undefined for [b = 0]. *)
Definition size_t_rem (a b : Z) : outcome Z :=
  if b =? 0 then Undefined else Ret (a mod b).

Definition push (frame : SwitcherFrame) (rb : FrameRingBuffer)
    : outcome (FrameRingBuffer * bool) :=
  if negb (in_bounds (write_idx_ rb) (frames_ rb)) then Undefined
  else
    let frames := <[Z.to_nat (write_idx_ rb) := frame]> (frames_ rb) in
    obind (size_t_rem (wrap_size_t (write_idx_ rb + 1)) (capacity_ rb)) (fun write_idx =>
    if count_ rb <? capacity_ rb then
      Ret (mkRing (capacity_ rb) frames write_idx (read_idx_ rb)
             (wrap_size_t (count_ rb + 1)), true)
    else
      obind (size_t_rem (wrap_size_t (read_idx_ rb + 1)) (capacity_ rb)) (fun read_idx =>
      Ret (mkRing (capacity_ rb) frames write_idx read_idx (count_ rb), true))).

(** [peekLatest(out)]: [None] stands for the result [false] ([out] is left
    alone), [Some f] for [true] with [out = f]. *)
Definition peekLatest (rb : FrameRingBuffer) : outcome (option SwitcherFrame) :=
  if count_ rb =? 0 then Ret None
  else
    obind (size_t_rem (wrap_size_t (wrap_size_t (write_idx_ rb + capacity_ rb) - 1))
                      (capacity_ rb)) (fun latest =>
    match frames_ rb !! Z.to_nat latest with
    | Some f => Ret (Some f)
    | None => Undefined
    end).

Definition pop (rb : FrameRingBuffer) : outcome (FrameRingBuffer * option SwitcherFrame) :=
  if count_ rb =? 0 then Ret (rb, None)
  else
    match frames_ rb !! Z.to_nat (read_idx_ rb) with
    | None => Undefined
    | Some out =>
        obind (size_t_rem (wrap_size_t (read_idx_ rb + 1)) (capacity_ rb)) (fun read_idx =>
        Ret (mkRing (capacity_ rb) (frames_ rb) (write_idx_ rb) read_idx
               (wrap_size_t (count_ rb - 1)), Some out))
    end.

Definition size (rb : FrameRingBuffer) : Z := count_ rb.

Definition empty (rb : FrameRingBuffer) : bool := size rb =? 0.

Definition clear (rb : FrameRingBuffer) : FrameRingBuffer :=
  mkRing (capacity_ rb) (map reset (frames_ rb)) 0 0 0.

(** [std::vector::resize] keeps a prefix or appends default frames. *)
Definition vector_resize (n : nat) (v : list SwitcherFrame) : list SwitcherFrame :=
  take n v ++ replicate (n - length v) SwitcherFrame_default.

Definition resize (capacity : Z) (rb : FrameRingBuffer) : FrameRingBuffer :=
  mkRing capacity (map reset (vector_resize (Z.to_nat capacity) (frames_ rb))) 0 0 0.

(** Pushing a list of frames in order; the run is undefined as soon as one
    push is. *)
Fixpoint push_all (fs : list SwitcherFrame) (rb : FrameRingBuffer)
    : outcome FrameRingBuffer :=
  match fs with
  | [] => Ret rb
  | f :: fs' => obind (push f rb) (fun r => push_all fs' (fst r))
  end.

(** [n] successive [pop()] calls: the frames they hand out (a failed pop
    hands out nothing) and the buffer afterwards. *)
Fixpoint pop_n (n : nat) (rb : FrameRingBuffer)
    : outcome (list (option SwitcherFrame) * FrameRingBuffer) :=
  match n with
  | O => Ret ([], rb)
  | S n' =>
      obind (pop rb) (fun r =>
      obind (pop_n n' (fst r)) (fun r' =>
      Ret (snd r :: fst r', snd r')))
  end.

(** The frame a source numbers [i]. *)
Definition numbered (i : Z) : SwitcherFrame :=
  mkFrame None 0 i 0 0 F32.zero true false true.

(** Frames numbered [a, a+1, ..., a+n-1]. *)
Definition numbered_from (a : Z) (n : nat) : list SwitcherFrame :=
  map (fun k => numbered (a + Z.of_nat k)) (seq 0 n).

(** Buffer operations, for runs that mix them. *)
Inductive ring_op :=
| RPush (f : SwitcherFrame)
| RPop
| RPeekLatest
| RClear.

Definition ring_step (o : ring_op) (rb : FrameRingBuffer) : outcome FrameRingBuffer :=
  match o with
  | RPush f => obind (push f rb) (fun r => Ret (fst r))
  | RPop => obind (pop rb) (fun r => Ret (fst r))
  | RPeekLatest => obind (peekLatest rb) (fun _ => Ret rb)
  | RClear => Ret (clear rb)
  end.

Fixpoint ring_run (os : list ring_op) (rb : FrameRingBuffer) : outcome FrameRingBuffer :=
  match os with
  | [] => Ret rb
  | o :: os' => obind (ring_step o rb) (ring_run os')
  end.

(** The last [n] elements of a list. *)
Definition keep_last {A : Type} (n : nat) (l : list A) : list A :=
  drop (length l - n) l.

(** The buffer of capacity [C] holds the frames [q], oldest first: [q]
    sits in the slots from [read_idx_] on, cyclically, and [write_idx_] is
    the slot after it. *)
Definition holds (C : Z) (q : list SwitcherFrame) (rb : FrameRingBuffer) : Prop :=
  capacity_ rb = C
  /\ length (frames_ rb) = Z.to_nat C
  /\ 0 <= read_idx_ rb < C
  /\ count_ rb = Z.of_nat (length q)
  /\ count_ rb <= C
  /\ write_idx_ rb = (read_idx_ rb + count_ rb) mod C
  /\ forall i : nat, (i < length q)%nat ->
       frames_ rb !! Z.to_nat ((read_idx_ rb + Z.of_nat i) mod C) = q !! i.

End Ring.

Module Pool.
Import Frame.

Record TexturePool := mkPool {
  width_ : Z;
  height_ : Z;
  available_ : list MTLTexture
}.

Section Device.

(** The Metal device is outside the program: [newTextureWithDescriptor]
    takes the requested width and height and the device's state, and hands
    back a texture or [nil] and the device's next state. *)
Variable DevState : Type.
Variable newTextureWithDescriptor : Z -> Z -> DevState -> option MTLTexture * DevState.

(** The constructor's pre-allocation loop. *)
Fixpoint preallocate (poolSize : nat) (w h : Z) (avail : list MTLTexture) (d : DevState)
    : list MTLTexture * DevState :=
  match poolSize with
  | O => (avail, d)
  | S n =>
      let '(tex, d') := newTextureWithDescriptor w h d in
      match tex with
      | Some t => preallocate n w h (avail ++ [t]) d'
      | None => preallocate n w h avail d'
      end
  end.

Definition TexturePool_new (w h : Z) (poolSize : nat) (d : DevState)
    : TexturePool * DevState :=
  let '(avail, d') := preallocate poolSize w h [] d in
  (mkPool w h avail, d').

(** [acquire()]: the texture returned ([None] is [nil]), the pool and the
    device afterwards. *)
Definition acquire (p : TexturePool) (d : DevState)
    : option MTLTexture * TexturePool * DevState :=
  match last (available_ p) with
  | Some tex => (Some tex, mkPool (width_ p) (height_ p) (removelast (available_ p)), d)
  | None =>
      let '(tex, d') := newTextureWithDescriptor (width_ p) (height_ p) d in
      (tex, p, d')
  end.

Definition release (texture : option MTLTexture) (p : TexturePool) : TexturePool :=
  match texture with
  | None => p
  | Some t =>
      if (tex_width t =? width_ p) && (tex_height t =? height_ p) then
        mkPool (width_ p) (height_ p) (available_ p ++ [t])
      else p
  end.

Definition resize (w h : Z) (p : TexturePool) : TexturePool :=
  if (w =? width_ p) && (h =? height_ p) then p
  else mkPool w h [].

(** Calls on a pool, threading the device. *)
Inductive pool_op :=
| PAcquire
| PRelease (texture : option MTLTexture)
| PResize (w h : Z).

Definition pool_step (st : TexturePool * DevState) (o : pool_op)
    : TexturePool * DevState :=
  match o with
  | PAcquire => let '(_, p, d) := acquire (fst st) (snd st) in (p, d)
  | PRelease t => (release t (fst st), snd st)
  | PResize w h => (resize w h (fst st), snd st)
  end.

Definition pool_run (os : list pool_op) (st : TexturePool * DevState)
    : TexturePool * DevState :=
  fold_left pool_step os st.

End Device.

(** The texture has the pool's configured dimensions. *)
Definition matches (t : MTLTexture) (p : TexturePool) : Prop :=
  tex_width t = width_ p /\ tex_height t = height_ p.

(** Every texture of the free set has the configured dimensions. *)
Definition pool_ok (p : TexturePool) : Prop :=
  Forall (fun t => matches t p) (available_ p).

(** A device that numbers its textures and never fails, and one that is out
    of memory. *)
Definition counting_device (w h : Z) (d : Z) : option MTLTexture * Z :=
  (Some (mkTexture d w h), d + 1).

Definition exhausted_device (w h : Z) (d : Z) : option MTLTexture * Z :=
  (None, d).

End Pool.

(* ===================================================================== *)
(** * output_ndi.h: the NDI sender's bounded queue *)
(* ===================================================================== *)

Module NDI.

(** [struct NDIOutputConfig] with its default member initialisers. *)
Record NDIOutputConfig := mkConfig {
  source_name : string;
  groups : string;
  network_interface : string;
  clock_video : bool;
  clock_audio : bool;
  async_queue_size : Z;
  legacy_mode : bool
}.

Definition NDIOutputConfig_default : NDIOutputConfig :=
  mkConfig "RocKontrol Switcher" "" "" true false 5 false.

(** [struct PixelFrame]: one rendered BGRA image waiting to be sent. *)
Record PixelFrame := mkPixelFrame {
  data : list Z;
  width : Z;
  height : Z;
  timestamp_ns : Z;
  frame_rate : float32;
  valid : bool
}.

(** Modelled from the spec: the state of the target frame-rate throttle of
    section 4.5, which is no member of the class declared in
    [output_ndi.h] (its setter is declared on the bridge class in
    [OutputEngineWrapper.h]): the target rate, [0] for unlimited, and the
    clock reading at which the last frame was sent, if any was. *)
Record Throttle := mkThrottle {
  target_frame_rate : float32;
  last_sent_time : option Z
}.

(** The members of [NDIOutput] behind the queue and its statistics, with the
    throttle's state. *)
Record NDIOutput := mkNDI {
  config_ : NDIOutputConfig;
  running_ : bool;
  legacy_mode_ : bool;
  pixel_queue_ : list PixelFrame;
  frames_sent_ : Z;
  frames_dropped_ : Z;
  throttle_ : Throttle
}.

Definition isRunning (o : NDIOutput) : bool := running_ o.
Definition framesSent (o : NDIOutput) : Z := frames_sent_ o.
Definition framesDropped (o : NDIOutput) : Z := frames_dropped_ o.
Definition isLegacyMode (o : NDIOutput) : bool := legacy_mode_ o.

(** Modelled from the spec: the member functions of [NDIOutput] are declared
    in [output_ndi.h] but their bodies are not among the sources.  A sink
    that was configured, and started or not, has an empty queue, both
    counters at zero, the sending mode of its configuration and no frame
    sent yet. *)
Definition NDIOutput_init (config : NDIOutputConfig) (running : bool)
    (target_fps : float32) : NDIOutput :=
  mkNDI config running (legacy_mode config) [] 0 0 (mkThrottle target_fps None).

Definition NDIOutput_started (config : NDIOutputConfig) : NDIOutput :=
  NDIOutput_init config true F32.zero.

(** Modelled from the spec: [NDIOutput::setLegacyMode] is missing from the
    sources; it switches between queued and synchronous sending
    (section 4.5). *)
Definition setLegacyMode (enabled : bool) (o : NDIOutput) : NDIOutput :=
  mkNDI (config_ o) (running_ o) enabled (pixel_queue_ o)
    (frames_sent_ o) (frames_dropped_ o) (throttle_ o).

(** Modelled from the spec: the target frame rate of section 4.5 is set
    through the bridge; [0] means unlimited. *)
Definition setTargetFrameRate (fps : float32) (o : NDIOutput) : NDIOutput :=
  mkNDI (config_ o) (running_ o) (legacy_mode_ o) (pixel_queue_ o)
    (frames_sent_ o) (frames_dropped_ o)
    (mkThrottle fps (last_sent_time (throttle_ o))).

(** One more frame in the dropped counter. *)
Definition count_dropped (o : NDIOutput) : NDIOutput :=
  mkNDI (config_ o) (running_ o) (legacy_mode_ o) (pixel_queue_ o)
    (frames_sent_ o) (frames_dropped_ o + 1) (throttle_ o).

(** One more frame in the sent counter, sent at clock reading [now]. *)
Definition count_sent (now : Z) (o : NDIOutput) : NDIOutput :=
  mkNDI (config_ o) (running_ o) (legacy_mode_ o) (pixel_queue_ o)
    (frames_sent_ o + 1) (frames_dropped_ o)
    (mkThrottle (target_frame_rate (throttle_ o)) (Some now)).

(** The frames a sink accounts for: sent, dropped, or waiting. *)
Definition accounted (o : NDIOutput) : Z :=
  framesSent o + framesDropped o + Z.of_nat (length (pixel_queue_ o)).

Section Environment.

(** The GPU pass that applies the sink's crop and edge blend to a frame and
    reads the pixels back is outside the program. *)
Variable render : Frame.SwitcherFrame -> PixelFrame.

(** Whether an elapsed time is below the reciprocal period of a target
    rate: real-time arithmetic, outside the model. *)
Variable below_period : float32 -> Z -> bool.

(** What the specification leaves to the implementation: whether a frame
    turned away because the sink is not running or the frame is invalid is
    counted as dropped (section 7: "optionally counted"), and whether a
    frame skipped by the throttle is. *)
Variable count_rejected : bool.
Variable count_skipped : bool.

(** Modelled from the spec: the throttle of section 4.5.  With a non-zero
    target rate a frame is skipped when the time since the last sent frame
    is below the reciprocal period; [0] means unlimited. *)
Definition throttled (now : Z) (o : NDIOutput) : bool :=
  match last_sent_time (throttle_ o) with
  | None => false
  | Some last =>
      negb (F32.is_zero (target_frame_rate (throttle_ o)))
      && below_period (target_frame_rate (throttle_ o)) (now - last)
  end.

(** Modelled from the spec: the body of [NDIOutput::pushPixelData] is
    missing from the sources.  Following sections 4.3, 4.5 and 7: called
    while the sink is not running, or with an invalid frame, it returns
    [false] and the frame is silently dropped, counted or not; a frame the
    throttle skips goes no further; in legacy mode the queue is bypassed and
    the frame is sent at once on the caller's thread; otherwise the frame
    is offered to the bounded queue of depth [async_queue_size], and a push
    when the queue is full is rejected: the new frame is dropped and
    counted and the queue is left as it is. *)
Definition pushPixelData (f : PixelFrame) (now : Z) (o : NDIOutput)
    : NDIOutput * bool :=
  if negb (running_ o) || negb (valid f) then
    ((if count_rejected then count_dropped o else o), false)
  else if throttled now o then
    ((if count_skipped then count_dropped o else o), false)
  else if legacy_mode_ o then
    (count_sent now o, true)
  else if async_queue_size (config_ o) <=? Z.of_nat (length (pixel_queue_ o)) then
    (count_dropped o, false)
  else
    (mkNDI (config_ o) (running_ o) (legacy_mode_ o) (pixel_queue_ o ++ [f])
       (frames_sent_ o) (frames_dropped_ o) (throttle_ o), true).

(** Modelled from the spec: the body of [NDIOutput::pushFrame] is missing
    from the sources.  Following sections 4.3 and 4.5, it returns [false]
    for a sink that is not running or an invalid frame; otherwise it renders
    the frame into a pixel buffer and enqueues that as [pushPixelData]
    does. *)
Definition pushFrame (frame : Frame.SwitcherFrame) (now : Z) (o : NDIOutput)
    : NDIOutput * bool :=
  if negb (running_ o) || negb (Frame.valid frame) then
    ((if count_rejected then count_dropped o else o), false)
  else pushPixelData (render frame) now o.

(** Modelled from the spec: one turn of the missing [NDIOutput::sendLoop]
    (section 4.5): on a running sink with the queue not empty it pops the
    oldest entry, sends it and increments the sent counter; with the queue
    empty it waits; once the sink is stopped the task has exited. *)
Definition sendLoop_step (now : Z) (o : NDIOutput) : NDIOutput :=
  if negb (running_ o) then o
  else
    match pixel_queue_ o with
    | [] => o
    | _ :: rest =>
        count_sent now
          (mkNDI (config_ o) (running_ o) (legacy_mode_ o) rest
             (frames_sent_ o) (frames_dropped_ o) (throttle_ o))
    end.

(** What happens to a sink: the engine offers a frame through one of the
    two entry points at some clock reading, the send task takes a turn, or
    the controller switches the sending mode or the target rate.  A stalled
    sender takes no turns. *)
Inductive event :=
| PushFrame (frame : Frame.SwitcherFrame) (now : Z)
| PushPixelData (f : PixelFrame) (now : Z)
| SendTurn (now : Z)
| SetLegacyMode (enabled : bool)
| SetTargetFrameRate (fps : float32).

Definition step (o : NDIOutput) (e : event) : NDIOutput :=
  match e with
  | PushFrame frame now => fst (pushFrame frame now o)
  | PushPixelData f now => fst (pushPixelData f now o)
  | SendTurn now => sendLoop_step now o
  | SetLegacyMode enabled => setLegacyMode enabled o
  | SetTargetFrameRate fps => setTargetFrameRate fps o
  end.

Definition run (o : NDIOutput) (es : list event) : NDIOutput := fold_left step es o.

(** The pixel frames offered in a history, in order. *)
Fixpoint frames_offered (es : list event) : list PixelFrame :=
  match es with
  | [] => []
  | PushFrame frame _ :: es' => render frame :: frames_offered es'
  | PushPixelData f _ :: es' => f :: frames_offered es'
  | _ :: es' => frames_offered es'
  end.

(** The number of frames offered in a history. *)
Definition offered (es : list event) : Z := Z.of_nat (length (frames_offered es)).

(** The event offers a frame, through either entry point. *)
Definition is_push (e : event) : bool :=
  match e with
  | PushFrame _ _ | PushPixelData _ _ => true
  | _ => false
  end.

(** The push is turned away because the sink is not running or the frame is
    invalid; the push is skipped by the throttle. *)
Definition rejected (e : event) (o : NDIOutput) : bool :=
  match e with
  | PushFrame frame _ =>
      negb (running_ o) || negb (Frame.valid frame) || negb (valid (render frame))
  | PushPixelData f _ => negb (running_ o) || negb (valid f)
  | _ => false
  end.

Definition skipped (e : event) (o : NDIOutput) : bool :=
  match e with
  | PushFrame _ now | PushPixelData _ now => negb (rejected e o) && throttled now o
  | _ => false
  end.

(** The event is a push that is turned away or skipped without being
    counted as dropped. *)
Definition uncounted_here (e : event) (o : NDIOutput) : bool :=
  (rejected e o && negb count_rejected) || (skipped e o && negb count_skipped).

(** How many frames of a history, played from [o], are turned away or
    skipped without being counted. *)
Fixpoint uncounted (es : list event) (o : NDIOutput) : Z :=
  match es with
  | [] => 0
  | e :: es' => (if uncounted_here e o then 1 else 0) + uncounted es' (step o e)
  end.

(** The event offers a valid frame. *)
Definition offers_valid (e : event) : bool :=
  match e with
  | PushFrame frame _ => Frame.valid frame && valid (render frame)
  | PushPixelData f _ => valid f
  | _ => false
  end.

End Environment.

(** A render pass for examples: it keeps the frame's geometry and time. *)
Definition plain_render (frame : Frame.SwitcherFrame) : PixelFrame :=
  mkPixelFrame [] (Frame.width frame) (Frame.height frame)
    (Frame.timestamp_ns frame) (Frame.frame_rate frame) (Frame.valid frame).

(** A period test for examples, with the clock in milliseconds and a
    period of forty of them whatever the rate. *)
Definition below_forty (fps : float32) (elapsed : Z) : bool := elapsed <? 40.

End NDI.

(* ===================================================================== *)
(** * The rest of the two headers: names, call traces, reference models *)
(* ===================================================================== *)

Module OutputTypes.

(** [enum class OutputType] of [output_sink.h]. *)
Inductive OutputType :=
| Display | DeckLink | NDI | Recording | Stream | Preview | Unknown.

Definition outputTypeToString (type : OutputType) : string :=
  match type with
  | Display => "Display"
  | DeckLink => "DeckLink"
  | NDI => "NDI"
  | Recording => "Recording"
  | Stream => "Stream"
  | Preview => "Preview"
  | Unknown => "Unknown"
  end.

End OutputTypes.

Module SourceTypes.

(** [enum class SourceType] of [switcher_frame.h]. *)
Inductive SourceType :=
| NDI | File | Image | Pattern | Syphon | DeckLink | ScreenCapture | Unknown.

Definition sourceTypeToString (type : SourceType) : string :=
  match type with
  | NDI => "NDI"
  | File => "File"
  | Image => "Image"
  | Pattern => "Pattern"
  | Syphon => "Syphon"
  | DeckLink => "DeckLink"
  | ScreenCapture => "ScreenCapture"
  | Unknown => "Unknown"
  end.

End SourceTypes.

Module SinkGeometry.
Import Sink.

(** The warp grid, the curvature and the lens coefficients are zero, the
    lens centre is the middle and no corner is marked: the values of the
    default member initialisers. *)
Definition has_default_geometry (b : EdgeBlendParams) : Prop :=
  warpTopLeftX b = F32.zero
  /\ warpTopLeftY b = F32.zero
  /\ warpTopMiddleX b = F32.zero
  /\ warpTopMiddleY b = F32.zero
  /\ warpTopRightX b = F32.zero
  /\ warpTopRightY b = F32.zero
  /\ warpMiddleLeftX b = F32.zero
  /\ warpMiddleLeftY b = F32.zero
  /\ warpMiddleRightX b = F32.zero
  /\ warpMiddleRightY b = F32.zero
  /\ warpBottomLeftX b = F32.zero
  /\ warpBottomLeftY b = F32.zero
  /\ warpBottomMiddleX b = F32.zero
  /\ warpBottomMiddleY b = F32.zero
  /\ warpBottomRightX b = F32.zero
  /\ warpBottomRightY b = F32.zero
  /\ warpCurvature b = F32.zero
  /\ lensK1 b = F32.zero
  /\ lensK2 b = F32.zero
  /\ lensCenterX b = F32.half
  /\ lensCenterY b = F32.half
  /\ activeCorner b = 0.

End SinkGeometry.

Module RingCalls.
Import Frame Ring.

(** Every public member function of [FrameRingBuffer], as a call. *)
Inductive buffer_call :=
| CPush (frame : SwitcherFrame)
| CPeekLatest
| CPop
| CSize
| CEmpty
| CClear
| CResize (capacity : Z).

(** What the caller gets back: a [bool], a frame through the [out]
    parameter ([None] when the call returns [false]), a size, or nothing. *)
Inductive observed :=
| SawBool (b : bool)
| SawFrame (r : option SwitcherFrame)
| SawSize (n : Z)
| SawNothing.

Definition buffer_step (c : buffer_call) (rb : FrameRingBuffer)
    : outcome (FrameRingBuffer * observed) :=
  match c with
  | CPush f => obind (push f rb) (fun r => Ret (fst r, SawBool (snd r)))
  | CPeekLatest => obind (peekLatest rb) (fun r => Ret (rb, SawFrame r))
  | CPop => obind (pop rb) (fun r => Ret (fst r, SawFrame (snd r)))
  | CSize => Ret (rb, SawSize (size rb))
  | CEmpty => Ret (rb, SawBool (empty rb))
  | CClear => Ret (clear rb, SawNothing)
  | CResize capacity => Ret (resize capacity rb, SawNothing)
  end.

(** A run of calls: what each call handed back, and the buffer at the
    end. *)
Fixpoint buffer_trace (cs : list buffer_call) (rb : FrameRingBuffer)
    : outcome (list observed * FrameRingBuffer) :=
  match cs with
  | [] => Ret ([], rb)
  | c :: cs' =>
      obind (buffer_step c rb) (fun r =>
      obind (buffer_trace cs' (fst r)) (fun r' =>
      Ret (snd r :: fst r', snd r')))
  end.

(** The reference: a queue of at most [C] frames, oldest first, that lets
    go of its oldest frame when a frame arrives at a full queue. *)
Definition queue_step (c : buffer_call) (st : Z * list SwitcherFrame)
    : (Z * list SwitcherFrame) * observed :=
  match c with
  | CPush f => ((fst st, keep_last (Z.to_nat (fst st)) (snd st ++ [f])), SawBool true)
  | CPeekLatest => (st, SawFrame (last (snd st)))
  | CPop => ((fst st, tail (snd st)), SawFrame (head (snd st)))
  | CSize => (st, SawSize (Z.of_nat (length (snd st))))
  | CEmpty => (st, SawBool (match snd st with [] => true | _ => false end))
  | CClear => ((fst st, []), SawNothing)
  | CResize capacity => ((capacity, []), SawNothing)
  end.

Fixpoint queue_trace (cs : list buffer_call) (st : Z * list SwitcherFrame)
    : list observed * (Z * list SwitcherFrame) :=
  match cs with
  | [] => ([], st)
  | c :: cs' =>
      let r := queue_step c st in
      let r' := queue_trace cs' (fst r) in
      (snd r :: fst r', snd r')
  end.

(** A capacity with at least one slot that a vector can hold. *)
Definition capacity_ok (capacity : Z) : bool :=
  (0 <? capacity) && (capacity <? 2 ^ 63).

Definition resize_ok (c : buffer_call) : bool :=
  match c with
  | CResize capacity => capacity_ok capacity
  | _ => true
  end.

End RingCalls.

Module PoolRuns.
Import Frame Pool.

(** Releasing textures one after the other. *)
Definition release_all (ts : list MTLTexture) (p : TexturePool) : TexturePool :=
  fold_left (fun p t => release (Some t) p) ts p.

Section Device.

Variable DevState : Type.
Variable newTextureWithDescriptor : Z -> Z -> DevState -> option MTLTexture * DevState.

(** [n] successive [acquire()] calls: the textures handed out, the pool and
    the device afterwards. *)
Fixpoint acquire_n (n : nat) (p : TexturePool) (d : DevState)
    : list (option MTLTexture) * TexturePool * DevState :=
  match n with
  | O => ([], p, d)
  | S n' =>
      let '(t, p', d') := acquire DevState newTextureWithDescriptor p d in
      let '(ts, p'', d'') := acquire_n n' p' d' in
      (t :: ts, p'', d'')
  end.

(** The device never fails to create a texture. *)
Definition never_fails : Prop :=
  forall w h d, fst (newTextureWithDescriptor w h d) <> None.

End Device.

End PoolRuns.

(* ===================================================================== *)
(** * Properties of binary32 comparison and clamping *)
(* ===================================================================== *)

Lemma SFcompare_swap (a b : spec_float) :
  SFcompare b a =
  match SFcompare a b with Some c => Some (CompOpp c) | None => None end.
Proof.
  destruct a as [sa|sa| |sa ma ea], b as [sb|sb| |sb mb eb]; simpl;
    try reflexivity;
    repeat match goal with b : bool |- _ => destruct b end; simpl; try reflexivity.
  all: rewrite (Z.compare_antisym ea eb);
    destruct (ea ?= eb); simpl; try reflexivity;
    f_equal; rewrite ?CompOpp_involutive;
    first [ apply (Pos.compare_cont_antisym mb ma Eq)
          | symmetry; apply (Pos.compare_cont_antisym ma mb Eq) ].
Qed.

Lemma ltb_leb (a b : float32) : F32.ltb a b = true -> F32.leb a b = true.
Proof.
  unfold F32.ltb, F32.leb, SFltb, SFleb.
  destruct (SFcompare a b) as [[ | | ]|]; congruence.
Qed.

Lemma ltb_not_geb (a b : float32) : F32.ltb a b = true -> F32.geb a b = false.
Proof.
  unfold F32.ltb, F32.geb, SFltb, SFleb. rewrite (SFcompare_swap a b).
  destruct (SFcompare a b) as [[ | | ]|]; simpl; congruence.
Qed.

(** The clamp yields its argument strictly inside the interval, [0.0f] at
    or below zero, and [1.0f] for everything that is not below one, NaN
    included. *)
Lemma clamp01_cases (p : float32) :
  (F32.ltb F32.zero p = true /\ F32.ltb p F32.one = true /\ F32.clamp01 p = p)
  \/ (F32.ltb p F32.one = true /\ F32.ltb F32.zero p = false
      /\ F32.clamp01 p = F32.zero)
  \/ (F32.ltb p F32.one = false /\ F32.clamp01 p = F32.one).
Proof.
  unfold F32.clamp01, F32.std_max, F32.std_min.
  destruct (F32.ltb p F32.one) eqn:H1.
  - destruct (F32.ltb F32.zero p) eqn:H0; [left | right; left]; auto.
  - right; right. split; [reflexivity|].
    replace (F32.ltb F32.zero F32.one) with true by reflexivity. reflexivity.
Qed.

Lemma clamp01_bounds (p : float32) :
  F32.leb F32.zero (F32.clamp01 p) = true /\ F32.leb (F32.clamp01 p) F32.one = true.
Proof.
  destruct (clamp01_cases p) as [(H0 & H1 & ->)|[(H1 & H0 & ->)|(H1 & ->)]].
  - split; apply ltb_leb; assumption.
  - split; reflexivity.
  - split; reflexivity.
Qed.

Lemma clamp01_geb_one (p : float32) :
  F32.geb (F32.clamp01 p) F32.one = negb (F32.ltb p F32.one).
Proof.
  destruct (clamp01_cases p) as [(H0 & H1 & ->)|[(H1 & H0 & ->)|(H1 & ->)]];
    rewrite H1; simpl.
  - apply ltb_not_geb; assumption.
  - reflexivity.
  - reflexivity.
Qed.

(** At one or more, the clamp stores exactly [1.0f]. *)
Lemma clamp01_reaches_one (p : float32) :
  F32.geb (F32.clamp01 p) F32.one = true -> F32.clamp01 p = F32.one.
Proof.
  rewrite clamp01_geb_one.
  destruct (clamp01_cases p) as [(H0 & H1 & _)|[(H1 & H0 & _)|(H1 & E)]];
    rewrite H1; simpl; congruence.
Qed.

Lemma div_one_zero : F32.div F32.one F32.zero = F32.pinf.
Proof. reflexivity. Qed.

(** Adding [+inf] to anything but NaN and [-inf] gives [+inf]. *)
Lemma add_pinf (a : float32) :
  a <> S754_nan -> a <> S754_infinity true -> F32.add a F32.pinf = F32.pinf.
Proof.
  intros Hn Hi. destruct a as [sa|[|]| |sa ma ea]; try reflexivity; congruence.
Qed.

(* ===================================================================== *)
(** * Properties of the output sink's transition machine *)
(* ===================================================================== *)

Section SinkFacts.
Import Sink.

#[local] Arguments F32.add : simpl never.
#[local] Arguments F32.div : simpl never.
#[local] Arguments F32.geb : simpl never.
#[local] Arguments F32.leb : simpl never.
#[local] Arguments F32.ltb : simpl never.
#[local] Arguments F32.std_min : simpl never.
#[local] Arguments F32.std_max : simpl never.

(** ** One call of [advanceTransition] or [setTransitionProgress] *)

(** While Idle both calls return [false] and leave the object as it is. *)
Lemma call_idle (c : progress_call) (s : OutputSink) :
  transition_in_progress_ s = false ->
  call c s = (s, false) /\ reaches_one c s = false.
Proof.
  intros H. destruct c; unfold call, advanceTransition, setTransitionProgress,
    reaches_one, tested_progress; rewrite H; simpl; auto.
Qed.

(** A call that does not find the progress at one writes
    [transition_progress_] and nothing else. *)
Lemma call_stay (c : progress_call) (s : OutputSink) :
  transition_in_progress_ s = true ->
  reaches_one c s = false ->
  exists v, tested_progress c s = Some v
            /\ fst (call c s) = set_transition_progress_ v s.
Proof.
  intros H R. unfold reaches_one, tested_progress in *. rewrite H in *. simpl in *.
  eexists; split; [reflexivity|].
  destruct c; unfold call, advanceTransition, setTransitionProgress;
    rewrite H; simpl; rewrite R; reflexivity.
Qed.

(** A call that finds the progress at one runs the commit block: the whole
    current triple becomes the staged one, the source follows the staged
    input, and the machine is Idle again. *)
Lemma call_commit (c : progress_call) (s : OutputSink) :
  transition_in_progress_ s = true ->
  reaches_one c s = true ->
  fst (call c s) =
    mkSink (output_id_ s) (output_mode_ s) (status_callback_ s)
      DirectInput (screen_index_ s) (pending_input_ s)
      (pending_input_ s) (-1) false F32.zero
      (transition_duration_frames_ s) (transition_type_ s)
      (pending_crop_ s) (pending_crop_ s)
      (pending_edge_blend_ s) (pending_edge_blend_ s) (intensity_ s).
Proof.
  intros H R. unfold reaches_one, tested_progress in *. rewrite H in *. simpl in *.
  destruct c; unfold call, advanceTransition, setTransitionProgress;
    rewrite H; simpl; rewrite R; reflexivity.
Qed.

Lemma call_result (c : progress_call) (s : OutputSink) :
  snd (call c s) =
  match c with
  | Advance => reaches_one c s
  | SetProgress _ => transition_in_progress_ s
  end.
Proof.
  unfold reaches_one, tested_progress.
  destruct c; unfold call, advanceTransition, setTransitionProgress;
    destruct (transition_in_progress_ s); simpl; try reflexivity.
  destruct (F32.geb _ _); reflexivity.
Qed.


(** ** Runs of calls *)

Lemma run_app (cs1 cs2 : list progress_call) (s : OutputSink) :
  run (cs1 ++ cs2) s = run cs2 (run cs1 s).
Proof. revert s. induction cs1 as [|c cs1 IH]; intros s; simpl; auto. Qed.

(** From Idle a run of the two calls does nothing at all. *)
Lemma run_from_idle (cs : list progress_call) (s : OutputSink) :
  transition_in_progress_ s = false ->
  run cs s = s
  /\ Forall (fun s' => s' = s) (trace cs s)
  /\ reach_count cs s = O
  /\ change_count cs s = O.
Proof.
  intros H. induction cs as [|c cs IH]; simpl.
  - repeat split; constructor.
  - destruct (call_idle c s H) as [E R]. rewrite E, R. simpl.
    destruct IH as (IH1 & IH2 & IH3 & IH4).
    repeat split; auto.
    rewrite IH4. destruct (decide _); [reflexivity | congruence].
Qed.

Lemma stay_triples (v : float32) (s : OutputSink) :
  current_triple (set_transition_progress_ v s) = current_triple s
  /\ pending_triple (set_transition_progress_ v s) = pending_triple s
  /\ transition_in_progress_ (set_transition_progress_ v s)
     = transition_in_progress_ s.
Proof. repeat split. Qed.

(** C1. Take a sink in state Transitioning and any sequence of
    [advanceTransition] and [setTransitionProgress] calls in which the
    progress is found at one or more exactly once.  Then the sequence splits
    around that one call: no call before it touches the triple (current
    input, current crop, current edge blend); that call replaces all three
    components together by the staged input, crop and edge blend; no call
    after it touches the triple again.  Counting by value, at most one call
    of the whole sequence leaves a different triple behind, and exactly one
    does when the staged triple differs from the current one. *)
Theorem C1_triple_replaced_once (cs : list progress_call) (s : OutputSink) :
  transition_in_progress_ s = true ->
  reach_count cs s = 1%nat ->
  exists pre c post,
    cs = pre ++ c :: post
    /\ Forall (fun s' => current_triple s' = current_triple s) (trace pre s)
    /\ transition_in_progress_ (run pre s) = true
    /\ reaches_one c (run pre s) = true
    /\ current_input_ (fst (call c (run pre s))) = pending_input_ s
    /\ current_crop_ (fst (call c (run pre s))) = pending_crop_ s
    /\ current_edge_blend_ (fst (call c (run pre s))) = pending_edge_blend_ s
    /\ transition_in_progress_ (fst (call c (run pre s))) = false
    /\ Forall (fun s' => current_triple s' = pending_triple s)
         (trace post (fst (call c (run pre s))))
    /\ (change_count cs s <= 1)%nat
    /\ (current_triple s <> pending_triple s -> change_count cs s = 1%nat).
Proof.
  revert s. induction cs as [|c cs IH]; intros s H R; simpl in R.
  - discriminate.
  - destruct (reaches_one c s) eqn:Rc.
    + (* the first call is the one *)
      pose proof (call_commit c s H Rc) as E.
      assert (Hidle : transition_in_progress_ (fst (call c s)) = false)
        by (rewrite E; reflexivity).
      destruct (run_from_idle cs _ Hidle) as (_ & Htr & _ & Hch).
      exists [], c, cs. simpl.
      assert (Ht : current_triple (fst (call c s)) = pending_triple s)
        by (rewrite E; reflexivity).
      repeat split; auto; try (rewrite E; reflexivity).
      * eapply Forall_impl; [exact Htr|]. simpl. intros s' ->. exact Ht.
      * rewrite Hch. destruct (decide _); simpl; lia.
      * intros Hne. rewrite Hch.
        destruct (decide _) as [Heq|]; [|reflexivity].
        exfalso. apply Hne. rewrite <- Heq. exact Ht.
    + (* the first call only moves the progress *)
      destruct (call_stay c s H Rc) as (v & _ & E).
      destruct (stay_triples v s) as (Tc & Tp & Ti).
      simpl in R.
      assert (H' : transition_in_progress_ (fst (call c s)) = true)
        by (rewrite E, Ti; exact H).
      destruct (IH (fst (call c s)) H' R)
        as (pre & c0 & post & -> & Hpre & Hin & Hr & Hci & Hcc & Hcb & Hid
            & Hpost & Hle & Hex).
      assert (Tc' : current_triple (fst (call c s)) = current_triple s)
        by (rewrite E; exact Tc).
      assert (Tp' : pending_triple (fst (call c s)) = pending_triple s)
        by (rewrite E; exact Tp).
      exists (c :: pre), c0, post. simpl.
      assert (Pi : pending_input_ (fst (call c s)) = pending_input_ s)
        by (rewrite E; reflexivity).
      assert (Pc : pending_crop_ (fst (call c s)) = pending_crop_ s)
        by (rewrite E; reflexivity).
      assert (Pb : pending_edge_blend_ (fst (call c s)) = pending_edge_blend_ s)
        by (rewrite E; reflexivity).
      repeat split; auto; try congruence.
      * constructor; [exact Tc'|].
        eapply Forall_impl; [exact Hpre|]. simpl. intros s' ->. exact Tc'.
      * eapply Forall_impl; [exact Hpost|]. simpl. intros s' ->. exact Tp'.
      * destruct (decide _); [simpl; exact Hle | contradiction].
      * intros Hne. destruct (decide _); [simpl | contradiction].
        apply Hex. rewrite Tc', Tp'. exact Hne.
Qed.


Lemma C1_triple_replaced_once_witness :
  let s := startTransition 2 Dissolve (F32.of_Z 2) OutputSink_default in
  let cs := [Advance; Advance; SetProgress F32.half] in
  transition_in_progress_ s = true
  /\ reach_count cs s = 1%nat
  /\ exists pre c post,
       cs = pre ++ c :: post
       /\ Forall (fun s' => current_triple s' = current_triple s) (trace pre s)
       /\ transition_in_progress_ (run pre s) = true
       /\ reaches_one c (run pre s) = true
       /\ current_input_ (fst (call c (run pre s))) = pending_input_ s
       /\ current_crop_ (fst (call c (run pre s))) = pending_crop_ s
       /\ current_edge_blend_ (fst (call c (run pre s))) = pending_edge_blend_ s
       /\ transition_in_progress_ (fst (call c (run pre s))) = false
       /\ Forall (fun s' => current_triple s' = pending_triple s)
            (trace post (fst (call c (run pre s))))
       /\ (change_count cs s <= 1)%nat
       /\ (current_triple s <> pending_triple s -> change_count cs s = 1%nat).
Proof.
  split; [reflexivity|]. split; [vm_compute; reflexivity|].
  apply (C1_triple_replaced_once
           [Advance; Advance; SetProgress F32.half]
           (startTransition 2 Dissolve (F32.of_Z 2) OutputSink_default));
    vm_compute; reflexivity.
Defined.

(** ** Instant cuts *)

(** A pending crop staged with [setPendingCrop] is not applied by a plain
    [startTransition] cut: the input is committed, the crop stays. *)
Lemma C2_counterexample :
  let s0 := setPendingCrop F32.half F32.zero F32.half F32.one OutputSink_default in
  let s1 := startTransition 2 Cut F32.thirty s0 in
  transition_in_progress_ s1 = false
  /\ current_input_ s1 = 2
  /\ pending_crop_ s0 = mkCrop F32.half F32.zero F32.half F32.one
  /\ current_crop_ s1 = CropRegion_default
  /\ current_crop_ s1 <> pending_crop_ s0.
Proof. repeat split. vm_compute. discriminate. Qed.

(** C2 (amended). With type Cut, or with a duration that compares [<= 0],
    every start function commits within the call: the current input becomes
    the target, the pending input is cleared, and the sink is Idle at
    progress zero.  What else is committed depends on the function:
    [startTransition] leaves the current crop and edge blend as they were;
    [startTransitionWithCrop] also replaces the current crop by the crop it
    was given; [startTransitionWithCropAndBlend] replaces the current crop
    and the current edge blend by the pending values it has just staged
    from its arguments. *)
Theorem C2_cut_commits_within_call
    (s : OutputSink) (toInput : Z) (type : OutputTransitionType)
    (durationFrames cropX cropY cropW cropH featherL featherR featherT featherB
     gamma power black gR gG gB : float32) :
  type = Cut \/ F32.leb durationFrames F32.zero = true ->
  let s1 := startTransition toInput type durationFrames s in
  let s2 := startTransitionWithCrop toInput type durationFrames
              cropX cropY cropW cropH s in
  let s3 := startTransitionWithCropAndBlend toInput type durationFrames
              cropX cropY cropW cropH featherL featherR featherT featherB
              gamma power black gR gG gB s in
  (current_input_ s1 = toInput /\ pending_input_ s1 = -1
   /\ transition_in_progress_ s1 = false /\ transition_progress_ s1 = F32.zero
   /\ current_crop_ s1 = current_crop_ s
   /\ current_edge_blend_ s1 = current_edge_blend_ s)
  /\ (current_input_ s2 = toInput /\ pending_input_ s2 = -1
      /\ transition_in_progress_ s2 = false /\ transition_progress_ s2 = F32.zero
      /\ current_crop_ s2 = mkCrop cropX cropY cropW cropH
      /\ current_crop_ s2 = pending_crop_ s2
      /\ current_edge_blend_ s2 = current_edge_blend_ s)
  /\ (current_input_ s3 = toInput /\ pending_input_ s3 = -1
      /\ transition_in_progress_ s3 = false /\ transition_progress_ s3 = F32.zero
      /\ current_crop_ s3 = mkCrop cropX cropY cropW cropH
      /\ current_crop_ s3 = pending_crop_ s3
      /\ current_edge_blend_ s3 =
           EdgeBlendParams_init10 featherL featherR featherT featherB
             gamma power black gR gG gB
      /\ current_edge_blend_ s3 = pending_edge_blend_ s3).
Proof.
  intros Hc.
  assert (E : is_Cut type || F32.leb durationFrames F32.zero = true).
  { destruct Hc as [-> | ->]; [reflexivity | apply orb_true_r]. }
  unfold startTransition, startTransitionWithCrop, startTransitionWithCropAndBlend.
  rewrite E. simpl. repeat split.
Qed.

Lemma C2_cut_commits_within_call_witness :
  let s := setPendingCrop F32.half F32.zero F32.half F32.one OutputSink_default in
  F32.leb (F32.of_Z (-3)) F32.zero = true
  /\ current_input_ (startTransition 2 Dissolve (F32.of_Z (-3)) s) = 2
  /\ transition_in_progress_ (startTransition 2 Dissolve (F32.of_Z (-3)) s) = false
  /\ current_crop_
       (startTransitionWithCropAndBlend 2 Dissolve (F32.of_Z (-3))
          F32.zero F32.zero F32.half F32.half
          F32.one F32.one F32.one F32.one
          F32.lit_2_2 F32.one F32.zero F32.one F32.one F32.one s)
     = mkCrop F32.zero F32.zero F32.half F32.half.
Proof.
  pose proof (C2_cut_commits_within_call
                (setPendingCrop F32.half F32.zero F32.half F32.one OutputSink_default)
                2 Dissolve (F32.of_Z (-3))
                F32.zero F32.zero F32.half F32.half
                F32.one F32.one F32.one F32.one
                F32.lit_2_2 F32.one F32.zero F32.one F32.one F32.one
                (or_intror eq_refl)) as H.
  simpl in H. destruct H as ((H1 & _ & H2 & _) & _ & (_ & _ & _ & _ & H3 & _)).
  split; [reflexivity|]. split; [exact H1|]. split; [exact H2 | exact H3].
Defined.

(** ** Automatic advance of a T-bar transition *)

(** With a duration of [+0.0f] and a progress that is neither NaN nor
    [-inf], the step [1.0f / 0.0f] is [+inf], the sum is [+inf], and the call
    commits. *)
Lemma advance_zero_duration (s : OutputSink) :
  transition_in_progress_ s = true ->
  transition_duration_frames_ s = F32.zero ->
  transition_progress_ s <> S754_nan ->
  transition_progress_ s <> S754_infinity true ->
  advance_divides_by_zero s = true
  /\ snd (advanceTransition s) = true
  /\ current_triple (fst (advanceTransition s)) = pending_triple s
  /\ transition_in_progress_ (fst (advanceTransition s)) = false.
Proof.
  intros H D Hn Hi.
  assert (R : reaches_one Advance s = true).
  { unfold reaches_one, tested_progress. rewrite H, D. simpl.
    rewrite div_one_zero, (add_pinf _ Hn Hi). reflexivity. }
  pose proof (call_commit Advance s H R) as E. simpl in E.
  pose proof (call_result Advance s) as Er. simpl in Er.
  split.
  - unfold advance_divides_by_zero, advance_divisor. rewrite H, D. reflexivity.
  - rewrite Er, R, E. repeat split.
Qed.

(** C3. After [startTBarTransition] the duration is [0.0f] and the sink is
    Transitioning; [advanceTransition] then has no guard and evaluates
    [1.0f / transition_duration_frames_] with a zero divisor.  Under
    IEEE-754 the quotient is [+inf], so the progress becomes [+inf] and the
    call goes on to commit and return [true]. *)
Theorem C3_advance_after_tbar_divides_by_zero :
  let s := startTBarTransition 2 Dissolve OutputSink_default in
  transition_in_progress_ s = true
  /\ transition_duration_frames_ s = F32.zero
  /\ advance_divisor s = Some F32.zero
  /\ advance_divides_by_zero s = true
  /\ F32.div F32.one (transition_duration_frames_ s) = F32.pinf
  /\ tested_progress Advance s = Some F32.pinf
  /\ snd (advanceTransition s) = true
  /\ current_input_ (fst (advanceTransition s)) = 2
  /\ transition_in_progress_ (fst (advanceTransition s)) = false.
Proof. repeat split. Qed.


(** A ten-frame dissolve to input 2: nine advances leave the current input
    alone with the progress just above 0.9, the tenth commits. *)
Example dissolve_ten_frames :
  let s := startTransition 2 Dissolve (F32.of_Z 10) OutputSink_default in
  current_input_ (run (repeat Advance 9) s) = -1
  /\ transition_in_progress_ (run (repeat Advance 9) s) = true
  /\ transition_progress_ (run (repeat Advance 9) s) = S754_finite false 15099496 (-24)
  /\ call Advance (run (repeat Advance 9) s)
     = (setCurrentInput 2 (setTransitionDuration (F32.of_Z 10) OutputSink_default), true).
Proof. vm_compute. repeat split. Qed.

(** A duration of [-0.0f] gives the step [-inf]: the progress never reaches
    one. *)
Example advance_negative_zero_duration :
  let s := setTransitionDuration (S754_zero true)
             (startTBarTransition 2 Dissolve OutputSink_default) in
  tested_progress Advance s = Some (S754_infinity true)
  /\ reaches_one Advance s = false.
Proof. split; reflexivity. Qed.

(** ** Cancelling *)

(** A crop staged for a transition survives [cancelTransition]: the
    accessor still returns it, and the next transition that completes
    applies it although that transition named no crop. *)
Lemma C6_counterexample :
  let staged := mkCrop F32.half F32.zero F32.half F32.one in
  let s0 := startTransitionWithCrop 2 Dissolve F32.thirty
              F32.half F32.zero F32.half F32.one OutputSink_default in
  let s1 := cancelTransition s0 in
  let s2 := fst (advanceTransition (startTransition 3 Dissolve F32.one s1)) in
  transition_in_progress_ s0 = true
  /\ pendingCrop s0 = staged
  /\ pendingCrop s1 = staged
  /\ staged <> currentCrop s0
  /\ currentCrop s2 = staged.
Proof. repeat split. vm_compute. discriminate. Qed.

(** C6 (amended). [cancelTransition] resets the pending input to [-1],
    returns the sink to Idle with progress zero, and leaves the current
    input, crop and edge blend exactly as they were; the pending crop and
    the pending edge blend are not discarded, they stay staged as they
    were.  Nothing else is written. *)
Theorem C6_cancel_keeps_current (s : OutputSink) :
  pending_input_ (cancelTransition s) = -1
  /\ transition_in_progress_ (cancelTransition s) = false
  /\ transition_progress_ (cancelTransition s) = F32.zero
  /\ current_input_ (cancelTransition s) = current_input_ s
  /\ current_crop_ (cancelTransition s) = current_crop_ s
  /\ current_edge_blend_ (cancelTransition s) = current_edge_blend_ s
  /\ pending_crop_ (cancelTransition s) = pending_crop_ s
  /\ pending_edge_blend_ (cancelTransition s) = pending_edge_blend_ s
  /\ cancelTransition s =
       set_transition_progress_ F32.zero
         (set_transition_in_progress_ false (set_pending_input_ (-1) s)).
Proof. repeat split. Qed.

(** ** Source assignment *)

(** An instant cut on a sink in legacy bus mode rewrites the source
    assignment. *)
Lemma C7_counterexample :
  let s := startTransition 2 Cut F32.thirty OutputSink_default in
  sourceType OutputSink_default = LegacyBus
  /\ directInputIndex OutputSink_default = -1
  /\ sourceType s = DirectInput
  /\ directInputIndex s = 2
  /\ source_assignment s <> source_assignment OutputSink_default.
Proof. repeat split. vm_compute. discriminate. Qed.

Lemma advanceTransitionWithCrop_eq (s : OutputSink) :
  advanceTransitionWithCrop s = advanceTransition s.
Proof. reflexivity. Qed.

(** What one progress call does to the source assignment. *)
Lemma call_source (c : progress_call) (s : OutputSink) :
  screen_index_ (fst (call c s)) = screen_index_ s
  /\ (reaches_one c s = false ->
      source_assignment (fst (call c s)) = source_assignment s)
  /\ (reaches_one c s = true ->
      source_type_ (fst (call c s)) = DirectInput
      /\ direct_input_index_ (fst (call c s)) = current_input_ (fst (call c s))).
Proof.
  destruct (transition_in_progress_ s) eqn:H.
  - destruct (reaches_one c s) eqn:R.
    + rewrite (call_commit c s H R). repeat split; discriminate.
    + destruct (call_stay c s H R) as (v & _ & ->). repeat split; discriminate.
  - destruct (call_idle c s H) as [-> ->]. repeat split; discriminate.
Qed.

(** C7 (amended). No operation ever changes the screen index except the
    source setters.  An operation that is neither a source setter
    ([setSourceType], [setScreenIndex], [setDirectInputIndex],
    [setLegacyBusMode], [disableSource], [setCurrentInput]) nor a commit
    leaves the whole source assignment unchanged: starting a timed or T-bar
    transition, an advance or progress update that stays below one, and
    cancelling do not touch it.  Every commit (an instant cut, or progress
    reaching one) sets the source type to DirectInput and the direct input
    index to the input it commits, and leaves the screen index alone. *)
Theorem C7_source_assignment_and_transitions (o : op) (s : OutputSink) :
  (is_source_setter o = false -> screen_index_ (apply o s) = screen_index_ s)
  /\ (is_source_setter o = false -> op_commits o s = false ->
      source_assignment (apply o s) = source_assignment s)
  /\ (op_commits o s = true ->
      is_transition_op o = true
      /\ source_type_ (apply o s) = DirectInput
      /\ direct_input_index_ (apply o s) = current_input_ (apply o s)).
Proof.
  destruct o; simpl;
    try (repeat split; (discriminate || reflexivity || (intros; discriminate)));
    try (unfold startTransition, startTransitionWithCrop,
           startTransitionWithCropAndBlend;
         destruct (is_Cut type || F32.leb durationFrames F32.zero); simpl;
         repeat split; (discriminate || reflexivity || (intros; discriminate))).
  - pose proof (call_source Advance s) as (A & B & C). simpl in *.
    repeat split; auto; apply C; assumption.
  - pose proof (call_source (SetProgress progress) s) as (A & B & C). simpl in *.
    repeat split; auto; apply C; assumption.
  - rewrite advanceTransitionWithCrop_eq.
    pose proof (call_source Advance s) as (A & B & C). simpl in *.
    repeat split; auto; apply C; assumption.
Qed.

Lemma C7_source_assignment_and_transitions_witness :
  let s := startTransition 2 Dissolve F32.thirty OutputSink_default in
  is_source_setter OpCancelTransition = false
  /\ op_commits OpCancelTransition s = false
  /\ source_assignment (apply OpCancelTransition s) = source_assignment s
  /\ op_commits (OpSetTransitionProgress F32.one) s = true
  /\ source_type_ (apply (OpSetTransitionProgress F32.one) s) = DirectInput.
Proof.
  split; [reflexivity|]. split; [reflexivity|]. split.
  - apply (C7_source_assignment_and_transitions OpCancelTransition
             (startTransition 2 Dissolve F32.thirty OutputSink_default));
      reflexivity.
  - split; [reflexivity|].
    apply (C7_source_assignment_and_transitions (OpSetTransitionProgress F32.one)
             (startTransition 2 Dissolve F32.thirty OutputSink_default)).
    reflexivity.
Defined.


(** ** Manual progress *)

(** C8. For every progress value [p], NaN and infinities included:
    the value [setTransitionProgress] stores is the clamp of [p], which lies
    in [[0,1]] and is [p] itself strictly inside the interval.  Called while
    Transitioning, the function returns [true]; below one it writes the
    clamped progress and nothing else; at one it commits: current input,
    crop and edge blend are replaced by the pending ones, the pending input
    is cleared, the sink is Idle at progress zero, and the resulting object
    is the one [advanceTransition] produces when it completes from the same
    state.  Called while Idle, [setTransitionProgress] and
    [advanceTransition] return [false] and leave the object as it is. *)
Theorem C8_set_progress_clamps_and_commits (p : float32) (s : OutputSink) :
  let c := F32.clamp01 p in
  let r := setTransitionProgress p s in
  F32.leb F32.zero c = true /\ F32.leb c F32.one = true
  /\ (F32.ltb F32.zero p = true -> F32.ltb p F32.one = true -> c = p)
  /\ (transition_in_progress_ s = true ->
      snd r = true
      /\ (F32.geb c F32.one = false -> fst r = set_transition_progress_ c s)
      /\ (F32.geb c F32.one = true ->
          c = F32.one
          /\ current_input_ (fst r) = pending_input_ s
          /\ current_crop_ (fst r) = pending_crop_ s
          /\ current_edge_blend_ (fst r) = pending_edge_blend_ s
          /\ pending_input_ (fst r) = -1
          /\ transition_in_progress_ (fst r) = false
          /\ transition_progress_ (fst r) = F32.zero
          /\ (snd (advanceTransition s) = true ->
              fst (advanceTransition s) = fst r)))
  /\ (transition_in_progress_ s = false ->
      r = (s, false) /\ advanceTransition s = (s, false)).
Proof.
  intros c r.
  destruct (clamp01_bounds p) as [B0 B1].
  split; [exact B0|]. split; [exact B1|]. split.
  { intros H0 H1.
    destruct (clamp01_cases p) as [(_ & _ & E)|[(_ & H0' & _)|(H1' & _)]];
      [exact E | congruence | congruence]. }
  split.
  - intros H.
    pose proof (call_result (SetProgress p) s) as Er. simpl in Er.
    split; [subst r; rewrite Er; exact H|].
    split.
    + intros G.
      assert (R : reaches_one (SetProgress p) s = false)
        by (unfold reaches_one, tested_progress; rewrite H; exact G).
      destruct (call_stay (SetProgress p) s H R) as (v & Ev & E).
      unfold tested_progress in Ev. rewrite H in Ev. simpl in Ev.
      injection Ev as <-. exact E.
    + intros G.
      assert (R : reaches_one (SetProgress p) s = true)
        by (unfold reaches_one, tested_progress; rewrite H; exact G).
      pose proof (call_commit (SetProgress p) s H R) as E. simpl in E.
      split; [apply clamp01_reaches_one; exact G|].
      subst r. rewrite E. simpl. repeat split.
      intros Ha.
      pose proof (call_result Advance s) as Ea. simpl in Ea.
      rewrite Ea in Ha.
      exact (call_commit Advance s H Ha).
  - intros H.
    destruct (call_idle (SetProgress p) s H) as [E1 _].
    destruct (call_idle Advance s H) as [E2 _].
    split; assumption.
Qed.

Lemma C8_set_progress_clamps_and_commits_witness :
  let s := startTBarTransition 2 Wipe OutputSink_default in
  transition_in_progress_ s = true
  /\ F32.geb (F32.clamp01 (F32.of_Z 7)) F32.one = true
  /\ current_input_ (fst (setTransitionProgress (F32.of_Z 7) s)) = pending_input_ s
  /\ transition_in_progress_ OutputSink_default = false
  /\ setTransitionProgress F32.half OutputSink_default = (OutputSink_default, false).
Proof.
  pose proof (C8_set_progress_clamps_and_commits (F32.of_Z 7)
                (startTBarTransition 2 Wipe OutputSink_default))
    as (_ & _ & _ & Ht & _).
  pose proof (C8_set_progress_clamps_and_commits F32.half OutputSink_default)
    as (_ & _ & _ & _ & Hi).
  split; [reflexivity|]. split; [reflexivity|]. split.
  - apply Ht; reflexivity.
  - split; [reflexivity|]. apply Hi. reflexivity.
Defined.

(** ** The Idle invariant *)

Lemma idle_progress_zero_apply (o : op) (s : OutputSink) :
  idle_progress_zero s -> idle_progress_zero (apply o s).
Proof.
  unfold idle_progress_zero. intros I.
  assert (Hcall : forall c,
             transition_in_progress_ (fst (call c s)) = false ->
             transition_progress_ (fst (call c s)) = F32.zero).
  { intros c. destruct (transition_in_progress_ s) eqn:H.
    - destruct (reaches_one c s) eqn:R.
      + rewrite (call_commit c s H R). reflexivity.
      + destruct (call_stay c s H R) as (v & _ & ->). simpl. congruence.
    - destruct (call_idle c s H) as [-> _]. simpl. auto. }
  destruct o; simpl; auto;
    try (unfold startTransition, startTransitionWithCrop,
           startTransitionWithCropAndBlend;
         destruct (is_Cut type || F32.leb durationFrames F32.zero); simpl;
         auto; discriminate).
  - exact (Hcall Advance).
  - exact (Hcall (SetProgress progress)).
  - rewrite advanceTransitionWithCrop_eq. exact (Hcall Advance).
Qed.

Lemma idle_progress_zero_apply_all (os : list op) (s : OutputSink) :
  idle_progress_zero s -> idle_progress_zero (apply_all os s).
Proof.
  revert s. induction os as [|o os IH]; intros s I; simpl; [exact I|].
  apply IH, idle_progress_zero_apply, I.
Qed.

(** C10. A freshly constructed sink is Idle with progress zero; every
    public mutator, and in particular every transition operation
    ([startTransition] and its crop and blend variants, the T-bar starts,
    [advanceTransition], [setTransitionProgress], [cancelTransition]),
    preserves "not in progress implies progress [0.0f]"; so in every
    reachable state [transitionProgress()] reports zero whenever
    [isTransitionInProgress()] is false. *)
Theorem C10_idle_implies_progress_zero :
  idle_progress_zero OutputSink_default
  /\ (forall o s, idle_progress_zero s -> idle_progress_zero (apply o s))
  /\ (forall os,
        let s := apply_all os OutputSink_default in
        isTransitionInProgress s = false ->
        transitionProgress s = F32.zero
        /\ F32.eqb (transitionProgress s) F32.zero = true).
Proof.
  split; [intros _; reflexivity|]. split; [exact idle_progress_zero_apply|].
  intros os s H.
  assert (E : transitionProgress s = F32.zero).
  { apply (idle_progress_zero_apply_all os OutputSink_default);
      [intros _; reflexivity | exact H]. }
  split; [exact E | rewrite E; reflexivity].
Qed.

Lemma C10_idle_implies_progress_zero_witness :
  let os := [OpStartTransition 2 Dissolve (F32.of_Z 2); OpAdvanceTransition;
             OpSetTransitionProgress F32.half; OpCancelTransition] in
  isTransitionInProgress (apply_all os OutputSink_default) = false
  /\ transitionProgress (apply_all os OutputSink_default) = F32.zero.
Proof.
  split; [reflexivity|].
  destruct C10_idle_implies_progress_zero as (_ & _ & H).
  apply (H [OpStartTransition 2 Dissolve (F32.of_Z 2); OpAdvanceTransition;
            OpSetTransitionProgress F32.half; OpCancelTransition]).
  reflexivity.
Defined.

End SinkFacts.

(* ===================================================================== *)
(** * Properties of the frame ring buffer *)
(* ===================================================================== *)

Section RingFacts.
Import Frame Ring.

Variable C : Z.
Hypothesis C_pos : 0 < C.
Hypothesis C_fits : C < 2 ^ 63.

(** ** Index arithmetic *)

Lemma wrap_small (z : Z) : 0 <= z < 2 ^ 64 -> wrap_size_t z = z.
Proof. intros H. unfold wrap_size_t, size_t_modulus. apply Z.mod_small, H. Qed.

Lemma slot_range (z : Z) : 0 <= z mod C < C.
Proof. apply Z.mod_pos_bound, C_pos. Qed.

(** Offsets below the capacity land in different slots. *)
Lemma slot_inj (r i j : Z) :
  0 <= i < C -> 0 <= j < C -> (r + i) mod C = (r + j) mod C -> i = j.
Proof.
  intros Hi Hj E.
  pose proof (Z.div_mod (r + i) C ltac:(lia)) as Di.
  pose proof (Z.div_mod (r + j) C ltac:(lia)) as Dj.
  rewrite E in Di.
  set (k := (r + i) / C - (r + j) / C).
  assert (Hk : i - j = C * k) by (unfold k; lia).
  assert (k = 0) by nia.
  subst k. nia.
Qed.

Lemma slot_next (r k : Z) : ((r + k) mod C + 1) mod C = (r + (k + 1)) mod C.
Proof. rewrite Z.add_mod_idemp_l by lia. f_equal. lia. Qed.

(** ** The operations on a buffer that holds [q] *)

Lemma holds_new : holds C [] (FrameRingBuffer_new C).
Proof.
  unfold holds, FrameRingBuffer_new. simpl.
  rewrite length_replicate, Z.add_0_r, Z.mod_0_l by lia.
  repeat split; try lia.
Qed.

Lemma holds_size (q : list SwitcherFrame) (rb : FrameRingBuffer) :
  holds C q rb -> size rb = Z.of_nat (length q) /\ 0 <= size rb <= C.
Proof. intros (_ & _ & _ & Hc & Hle & _). unfold size. lia. Qed.

Lemma holds_push (q : list SwitcherFrame) (rb : FrameRingBuffer) (f : SwitcherFrame) :
  holds C q rb ->
  exists rb', push f rb = Ret (rb', true) /\ holds C (keep_last (Z.to_nat C) (q ++ [f])) rb'.
Proof.
  intros (Hcap & Hlen & Hr & Hc & Hle & Hw & Hq).
  pose proof (slot_range (read_idx_ rb + count_ rb)) as Hwr. rewrite <- Hw in Hwr.
  assert (Hb : in_bounds (write_idx_ rb) (frames_ rb) = true).
  { unfold in_bounds. rewrite Hlen. apply andb_true_intro.
    split; [apply Z.leb_le | apply Z.ltb_lt]; lia. }
  assert (Hnz : (C =? 0) = false) by (apply Z.eqb_neq; lia).
  unfold push, size_t_rem. rewrite Hb, Hcap, Hnz. simpl.
  rewrite (wrap_small (write_idx_ rb + 1)) by lia.
  destruct (count_ rb <? C) eqn:Hfull.
  - (* room left *)
    apply Z.ltb_lt in Hfull.
    eexists; split; [reflexivity|].
    unfold keep_last. rewrite length_app. simpl.
    replace (length q + 1 - Z.to_nat C)%nat with 0%nat by lia. rewrite drop_0.
    unfold holds; simpl. rewrite length_insert, length_app. simpl.
    rewrite (wrap_small (count_ rb + 1)) by lia.
    repeat split; try lia.
    + rewrite Hw. apply slot_next.
    + intros i Hi.
      destruct (decide (i = length q)) as [->|Hne].
      * rewrite <- Hc, <- Hw.
        rewrite list_lookup_insert_eq by lia.
        rewrite lookup_app_r, Nat.sub_diag by lia. reflexivity.
      * rewrite list_lookup_insert_ne.
        -- rewrite lookup_app_l by lia. apply Hq. lia.
        -- rewrite Hw. intros E. apply Z2Nat.inj in E; try apply slot_range.
           apply slot_inj in E; lia.
  - (* full: the oldest frame goes *)
    apply Z.ltb_ge in Hfull.
    assert (Hcnt : count_ rb = C) by lia.
    rewrite (wrap_small (read_idx_ rb + 1)) by lia.
    eexists; split; [reflexivity|].
    assert (Hwread : write_idx_ rb = read_idx_ rb).
    { rewrite Hw, Hcnt. rewrite <- (Z.mul_1_l C) at 1.
      rewrite Z.mod_add by lia. apply Z.mod_small. lia. }
    unfold keep_last. rewrite length_app. simpl.
    replace (length q + 1 - Z.to_nat C)%nat with 1%nat by lia.
    destruct q as [|x q]; [simpl in Hc; lia|]. simpl. rewrite drop_0.
    simpl in Hc.
    unfold holds; simpl. rewrite length_insert, length_app. simpl.
    repeat split; try lia; try apply slot_range.
    + rewrite Hwread, Hcnt.
      rewrite Z.add_mod_idemp_l by lia.
      replace (read_idx_ rb + 1 + C) with (read_idx_ rb + 1 + 1 * C) by lia.
      rewrite Z.mod_add by lia. reflexivity.
    + intros i Hi.
      rewrite Z.add_mod_idemp_l by lia.
      destruct (decide (i = length q)) as [->|Hne].
      * replace ((read_idx_ rb + 1 + Z.of_nat (length q)) mod C) with (write_idx_ rb).
        -- rewrite list_lookup_insert_eq by lia.
           rewrite lookup_app_r, Nat.sub_diag by lia. reflexivity.
        -- rewrite Hw. f_equal. lia.
      * rewrite list_lookup_insert_ne.
        -- rewrite lookup_app_l by lia.
           replace (read_idx_ rb + 1 + Z.of_nat i) with (read_idx_ rb + Z.of_nat (S i)) by lia.
           rewrite (Hq (S i)) by (simpl; lia). reflexivity.
        -- rewrite Hwread. intros E. apply Z2Nat.inj in E; try apply slot_range; try lia.
           rewrite <- (Z.mod_small (read_idx_ rb) C) in E at 1 by lia.
           replace (read_idx_ rb mod C) with ((read_idx_ rb + 0) mod C) in E
             by (f_equal; lia).
           replace (read_idx_ rb + 1 + Z.of_nat i)
             with (read_idx_ rb + (1 + Z.of_nat i)) in E by lia.
           apply slot_inj in E; lia.
Qed.


Lemma holds_pop_empty (rb : FrameRingBuffer) :
  holds C [] rb -> pop rb = Ret (rb, None).
Proof.
  intros (_ & _ & _ & Hc & _). simpl in Hc. unfold pop. rewrite Hc. reflexivity.
Qed.

Lemma holds_pop (x : SwitcherFrame) (q : list SwitcherFrame) (rb : FrameRingBuffer) :
  holds C (x :: q) rb ->
  exists rb', pop rb = Ret (rb', Some x) /\ holds C q rb'.
Proof.
  intros (Hcap & Hlen & Hr & Hc & Hle & Hw & Hq). simpl in Hc.
  assert (Hnz : (C =? 0) = false) by (apply Z.eqb_neq; lia).
  assert (Hcz : (count_ rb =? 0) = false) by (apply Z.eqb_neq; lia).
  pose proof (Hq 0%nat ltac:(simpl; lia)) as H0. simpl in H0.
  rewrite Z.add_0_r, Z.mod_small in H0 by lia.
  unfold pop, size_t_rem. rewrite Hcz, H0, Hcap, Hnz. simpl.
  rewrite (wrap_small (read_idx_ rb + 1)), (wrap_small (count_ rb - 1)) by lia.
  eexists; split; [reflexivity|].
  unfold holds; simpl. repeat split; try lia; try apply slot_range.
  - rewrite Hw, Z.add_mod_idemp_l by lia. f_equal. lia.
  - intros i Hi. rewrite Z.add_mod_idemp_l by lia.
    replace (read_idx_ rb + 1 + Z.of_nat i) with (read_idx_ rb + Z.of_nat (S i)) by lia.
    rewrite (Hq (S i)) by (simpl; lia). reflexivity.
Qed.

Lemma holds_peekLatest (q : list SwitcherFrame) (rb : FrameRingBuffer) :
  holds C q rb -> peekLatest rb = Ret (last q).
Proof.
  intros (Hcap & Hlen & Hr & Hc & Hle & Hw & Hq).
  unfold peekLatest.
  destruct q as [|x q].
  - simpl in Hc. rewrite Hc. reflexivity.
  - assert (Hnz : (C =? 0) = false) by (apply Z.eqb_neq; lia).
    assert (Hcz : (count_ rb =? 0) = false) by (apply Z.eqb_neq; simpl in Hc; lia).
    pose proof (slot_range (read_idx_ rb + count_ rb)) as Hwr. rewrite <- Hw in Hwr.
    unfold size_t_rem. rewrite Hcz, Hcap, Hnz. simpl.
    rewrite (wrap_small (write_idx_ rb + C)) by lia.
    rewrite (wrap_small (write_idx_ rb + C - 1)) by lia.
    replace ((write_idx_ rb + C - 1) mod C)
      with ((read_idx_ rb + Z.of_nat (length q)) mod C).
    + rewrite (Hq (length q)) by (simpl; lia).
      rewrite last_lookup. simpl.
      destruct (_ !! _) eqn:E; [reflexivity|].
      apply lookup_ge_None in E. simpl in E. lia.
    + rewrite Hw, Hc. simpl length.
      replace ((read_idx_ rb + Z.of_nat (S (length q))) mod C + C - 1)
        with ((read_idx_ rb + Z.of_nat (S (length q))) mod C + (C - 1)) by lia.
      rewrite Z.add_mod_idemp_l by lia.
      replace (read_idx_ rb + Z.of_nat (S (length q)) + (C - 1))
        with (read_idx_ rb + Z.of_nat (length q) + 1 * C) by lia.
      rewrite Z.mod_add by lia. reflexivity.
Qed.

Lemma holds_clear (q : list SwitcherFrame) (rb : FrameRingBuffer) :
  holds C q rb -> holds C [] (clear rb).
Proof.
  intros (Hcap & Hlen & _). unfold holds, clear. simpl.
  rewrite length_map, Z.add_0_r, Z.mod_0_l by lia.
  repeat split; try lia.
Qed.

(** ** Lists cut to their last elements *)

Lemma keep_last_length {A : Type} (n : nat) (l : list A) :
  length (keep_last n l) = Nat.min n (length l).
Proof. unfold keep_last. rewrite length_drop. lia. Qed.

Lemma keep_last_all {A : Type} (n : nat) (l : list A) :
  (length l <= n)%nat -> keep_last n l = l.
Proof.
  intros H. unfold keep_last.
  replace (length l - n)%nat with 0%nat by lia. apply drop_0.
Qed.

Lemma keep_last_app {A : Type} (n : nat) (l k : list A) :
  keep_last n (keep_last n l ++ k) = keep_last n (l ++ k).
Proof.
  unfold keep_last. rewrite !length_app, length_drop.
  destruct (decide (length l <= n)%nat) as [Hle|Hgt].
  - replace (length l - n)%nat with 0%nat by lia. rewrite drop_0.
    f_equal. lia.
  - destruct (decide (length k <= n)%nat) as [Hk|Hk].
    + rewrite !drop_app_le by (rewrite ?length_drop; lia).
      rewrite drop_drop. f_equal. f_equal. lia.
    + rewrite !drop_app_ge by (rewrite ?length_drop; lia).
      rewrite length_drop. f_equal. lia.
Qed.

(** ** Runs *)

Lemma holds_push_all (fs q : list SwitcherFrame) (rb : FrameRingBuffer) :
  holds C q rb -> (length q <= Z.to_nat C)%nat ->
  exists rb', push_all fs rb = Ret rb'
              /\ holds C (keep_last (Z.to_nat C) (q ++ fs)) rb'.
Proof.
  revert q rb. induction fs as [|f fs IH]; intros q rb H Hl; simpl.
  - exists rb. split; [reflexivity|].
    rewrite app_nil_r, keep_last_all by lia. exact H.
  - destruct (holds_push q rb f H) as (rb1 & -> & H1). simpl.
    destruct (IH _ rb1 H1) as (rb' & E & H').
    { rewrite keep_last_length. lia. }
    exists rb'. split; [exact E|].
    rewrite keep_last_app, <- app_assoc in H'. exact H'.
Qed.

Lemma holds_pop_n (q : list SwitcherFrame) (rb : FrameRingBuffer) :
  holds C q rb ->
  exists rb', pop_n (length q) rb = Ret (map Some q, rb') /\ holds C [] rb'.
Proof.
  revert rb. induction q as [|x q IH]; intros rb H; simpl.
  - exists rb. split; [reflexivity | exact H].
  - destruct (holds_pop x q rb H) as (rb1 & -> & H1). simpl.
    destruct (IH rb1 H1) as (rb' & -> & H'). simpl.
    exists rb'. split; [reflexivity | exact H'].
Qed.

Lemma holds_ring_step (o : ring_op) (q : list SwitcherFrame) (rb : FrameRingBuffer) :
  holds C q rb ->
  exists q' rb', ring_step o rb = Ret rb' /\ holds C q' rb'.
Proof.
  intros H. destruct o as [f| | |]; simpl.
  - destruct (holds_push q rb f H) as (rb' & -> & H'). simpl. eauto.
  - destruct q as [|x q].
    + rewrite (holds_pop_empty rb H). simpl. eauto.
    + destruct (holds_pop x q rb H) as (rb' & -> & H'). simpl. eauto.
  - rewrite (holds_peekLatest q rb H). simpl. eauto.
  - exists [], (clear rb). split; [reflexivity|]. eapply holds_clear, H.
Qed.

Lemma holds_ring_run (os : list ring_op) (q : list SwitcherFrame) (rb : FrameRingBuffer) :
  holds C q rb ->
  exists q' rb', ring_run os rb = Ret rb' /\ holds C q' rb'.
Proof.
  revert q rb. induction os as [|o os IH]; intros q rb H; simpl.
  - eauto.
  - destruct (holds_ring_step o q rb H) as (q1 & rb1 & -> & H1). simpl.
    exact (IH q1 rb1 H1).
Qed.

(** ** Numbered frames *)

Lemma numbered_from_length (a : Z) (n : nat) : length (numbered_from a n) = n.
Proof. unfold numbered_from. rewrite length_map, length_seq. reflexivity. Qed.

Lemma numbered_from_lookup (a : Z) (n i : nat) :
  (i < n)%nat -> numbered_from a n !! i = Some (numbered (a + Z.of_nat i)).
Proof.
  intros H. unfold numbered_from.
  change (map ?f ?l) with (f <$> l).
  rewrite list_lookup_fmap, lookup_seq_lt by lia. reflexivity.
Qed.

Lemma keep_last_numbered (a : Z) (n m : nat) :
  (m <= n)%nat ->
  keep_last m (numbered_from a n) = numbered_from (a + Z.of_nat (n - m)) m.
Proof.
  intros H. apply list_eq. intros i. unfold keep_last.
  rewrite lookup_drop, numbered_from_length.
  destruct (decide (i < m)%nat) as [Hi|Hi].
  - rewrite !numbered_from_lookup by lia. do 2 f_equal. lia.
  - rewrite !(proj2 (lookup_ge_None _ _)); rewrite ?numbered_from_length; auto; lia.
Qed.


Lemma ring_run_pushes (fs : list SwitcherFrame) (rb : FrameRingBuffer) :
  ring_run (map RPush fs) rb = push_all fs rb.
Proof.
  revert rb. induction fs as [|f fs IH]; intros rb; simpl; [reflexivity|].
  destruct (push f rb) as [|[rb1 b]]; simpl; [reflexivity | apply IH].
Qed.

(** C4 (amended). For a buffer of capacity [C] with [1 <= C < 2^63] (at
    least one slot, and no more than a vector can hold): every run of pushes, pops, peeks and clears from the
    fresh buffer is defined and leaves [0 <= size() <= C], after every
    operation since every prefix of a run is a run; and after pushing the
    frames numbered [1..N] with [N > C], the buffer is full, [peekLatest]
    yields frame [N], [C] successive [pop] calls yield the frames
    [N-C+1, ..., N] in that order, and the buffer is then empty. *)
Theorem C4_ring_buffer_keeps_newest :
  (forall os : list ring_op,
     exists rb, ring_run os (FrameRingBuffer_new C) = Ret rb /\ 0 <= size rb <= C)
  /\ (forall fs : list SwitcherFrame,
        ring_run (map RPush fs) (FrameRingBuffer_new C)
        = push_all fs (FrameRingBuffer_new C))
  /\ (forall N : nat, C < Z.of_nat N ->
      exists rb rb',
        push_all (numbered_from 1 N) (FrameRingBuffer_new C) = Ret rb
        /\ size rb = C
        /\ peekLatest rb = Ret (Some (numbered (Z.of_nat N)))
        /\ pop_n (Z.to_nat C) rb
           = Ret (map Some (numbered_from (Z.of_nat N - C + 1) (Z.to_nat C)), rb')
        /\ size rb' = 0
        /\ pop rb' = Ret (rb', None)).
Proof.
  split; [|split].
  - intros os.
    destruct (holds_ring_run os [] _ holds_new) as (q & rb & E & H).
    exists rb. split; [exact E|]. apply (holds_size q rb H).
  - intros fs. apply ring_run_pushes.
  - intros N HN.
    destruct (holds_push_all (numbered_from 1 N) [] _ holds_new) as (rb & E & H);
      [simpl; lia|].
    simpl in H. rewrite keep_last_numbered in H by lia.
    set (q := numbered_from (1 + Z.of_nat (N - Z.to_nat C)) (Z.to_nat C)) in *.
    assert (Hq : length q = Z.to_nat C) by apply numbered_from_length.
    destruct (holds_pop_n q rb H) as (rb' & Ep & H').
    exists rb, rb'. split; [exact E|].
    split; [destruct (holds_size q rb H) as [-> _]; lia|].
    split.
    { rewrite (holds_peekLatest q rb H), last_lookup, Hq. unfold q.
      rewrite numbered_from_lookup by lia. do 3 f_equal. lia. }
    split.
    { rewrite Hq in Ep. rewrite Ep. do 3 f_equal. unfold q. f_equal. lia. }
    split; [destruct (holds_size [] rb' H') as [-> _]; reflexivity|].
    apply holds_pop_empty, H'.
Qed.

End RingFacts.

(** Capacity 3, frames #1..#5: size 3, the latest is #5, the pops hand out
    #3, #4, #5. *)
Lemma C4_ring_buffer_keeps_newest_witness :
  0 < 3 /\ 3 < 2 ^ 63 /\ 3 < Z.of_nat 5
  /\ exists rb rb',
       Ring.push_all (Ring.numbered_from 1 5) (Ring.FrameRingBuffer_new 3) = Ret rb
       /\ Ring.size rb = 3
       /\ Ring.peekLatest rb = Ret (Some (Ring.numbered 5))
       /\ Ring.pop_n 3 rb
          = Ret ([Some (Ring.numbered 3); Some (Ring.numbered 4);
                  Some (Ring.numbered 5)], rb')
       /\ Ring.size rb' = 0
       /\ Ring.pop rb' = Ret (rb', None).
Proof.
  split; [lia|]. split; [lia|]. split; [lia|].
  destruct (C4_ring_buffer_keeps_newest 3 ltac:(lia) ltac:(lia)) as (_ & _ & H).
  exact (H 5%nat ltac:(lia)).
Defined.

(** The constructor accepts a capacity of zero unchecked, and there the
    claim fails for the one frame [#1]: the push indexes an empty vector and
    takes a remainder by zero, so the run of pushes has no defined result,
    and no buffer comes out of it whose latest frame could be [#1]. *)
Lemma C4_counterexample :
  let C := 0 in
  let N := 1%nat in
  C < Z.of_nat N
  /\ Ring.size (Ring.FrameRingBuffer_new C) = 0
  /\ Ring.push (Ring.numbered 1) (Ring.FrameRingBuffer_new C) = Undefined
  /\ Ring.push_all (Ring.numbered_from 1 N) (Ring.FrameRingBuffer_new C) = Undefined
  /\ Ring.ring_run (map Ring.RPush (Ring.numbered_from 1 N)) (Ring.FrameRingBuffer_new C)
     = Undefined
  /\ ~ (exists rb,
          Ring.push_all (Ring.numbered_from 1 N) (Ring.FrameRingBuffer_new C) = Ret rb
          /\ Ring.size rb <= C
          /\ Ring.peekLatest rb = Ret (Some (Ring.numbered (Z.of_nat N)))).
Proof.
  cbv zeta. split; [lia|]. do 4 (split; [reflexivity|]).
  intros (rb & E & _). vm_compute in E. discriminate.
Qed.

(** The same scenario by evaluation. *)
Example ring_capacity_3_frames_5 :
  obind (Ring.push_all (Ring.numbered_from 1 5) (Ring.FrameRingBuffer_new 3))
    (fun rb => obind (Ring.peekLatest rb) (fun latest =>
               obind (Ring.pop_n 4 rb) (fun r =>
               Ret (Ring.size rb, latest, fst r))))
  = Ret (3, Some (Ring.numbered 5),
         [Some (Ring.numbered 3); Some (Ring.numbered 4);
          Some (Ring.numbered 5); None]).
Proof. vm_compute. reflexivity. Qed.

(** A buffer of capacity zero has no slot to write: the first push indexes
    an empty vector. *)
Example ring_capacity_0_push :
  Ring.push (Ring.numbered 1) (Ring.FrameRingBuffer_new 0) = Undefined.
Proof. reflexivity. Qed.

(* ===================================================================== *)
(** * Properties of the texture pool *)
(* ===================================================================== *)

Section PoolFacts.
Import Frame Pool.

Variable DevState : Type.
Variable newTextureWithDescriptor : Z -> Z -> DevState -> option MTLTexture * DevState.

(** A texture the device creates has the dimensions of its descriptor. *)
Hypothesis device_dims : forall w h d t d',
  newTextureWithDescriptor w h d = (Some t, d') ->
  tex_width t = w /\ tex_height t = h.

#[local] Abbreviation acquire := (acquire DevState newTextureWithDescriptor).
#[local] Abbreviation pool_run := (pool_run DevState newTextureWithDescriptor).
#[local] Abbreviation pool_step := (pool_step DevState newTextureWithDescriptor).
#[local] Abbreviation TexturePool_new := (TexturePool_new DevState newTextureWithDescriptor).
#[local] Abbreviation preallocate := (preallocate DevState newTextureWithDescriptor).

Lemma matches_dec_eq (t : MTLTexture) (p : TexturePool) :
  (tex_width t =? width_ p) && (tex_height t =? height_ p) = true <-> matches t p.
Proof.
  unfold matches. rewrite andb_true_iff, !Z.eqb_eq. reflexivity.
Qed.

(** ** The free set only holds matching textures *)

Lemma preallocate_ok (n : nat) (w h : Z) (avail : list MTLTexture) (d : DevState) :
  Forall (fun t => tex_width t = w /\ tex_height t = h) avail ->
  Forall (fun t => tex_width t = w /\ tex_height t = h)
    (fst (preallocate n w h avail d)).
Proof.
  revert avail d. induction n as [|n IH]; intros avail d H; simpl; [exact H|].
  destruct (newTextureWithDescriptor w h d) as [[t|] d'] eqn:E.
  - apply IH. apply Forall_app. split; [exact H|].
    constructor; [|constructor]. exact (device_dims _ _ _ _ _ E).
  - apply IH, H.
Qed.

Lemma pool_ok_new (w h : Z) (n : nat) (d : DevState) :
  pool_ok (fst (TexturePool_new w h n d))
  /\ width_ (fst (TexturePool_new w h n d)) = w
  /\ height_ (fst (TexturePool_new w h n d)) = h.
Proof.
  unfold Pool.TexturePool_new.
  pose proof (preallocate_ok n w h [] d (Forall_nil_2 _)) as H.
  destruct (preallocate n w h [] d) as [avail d']. simpl in *.
  repeat split. exact H.
Qed.

Lemma pool_ok_release (t : option MTLTexture) (p : TexturePool) :
  pool_ok p -> pool_ok (release t p).
Proof.
  intros H. unfold release. destruct t as [t|]; [|exact H].
  destruct (_ && _) eqn:E; [|exact H].
  apply matches_dec_eq in E. unfold pool_ok in *. simpl.
  apply Forall_app. split; [exact H|]. constructor; [exact E | constructor].
Qed.

Lemma pool_ok_resize (w h : Z) (p : TexturePool) :
  pool_ok p -> pool_ok (resize w h p).
Proof.
  intros H. unfold resize. destruct (_ && _); [exact H | constructor].
Qed.

Lemma last_removelast {A : Type} (l : list A) (x : A) :
  last l = Some x -> l = removelast l ++ [x].
Proof.
  intros H. apply last_Some in H as [l' ->].
  rewrite removelast_last. reflexivity.
Qed.

Lemma pool_ok_acquire (p : TexturePool) (d : DevState) :
  pool_ok p -> pool_ok (snd (fst (acquire p d))).
Proof.
  intros H. unfold Pool.acquire.
  destruct (last (available_ p)) as [t|] eqn:E.
  - simpl. unfold pool_ok in *. simpl.
    rewrite (last_removelast _ _ E) in H. apply Forall_app in H as [H _].
    exact H.
  - destruct (newTextureWithDescriptor _ _ d) as [tex d']. exact H.
Qed.

Lemma pool_ok_step (o : pool_op) (st : TexturePool * DevState) :
  pool_ok (fst st) -> pool_ok (fst (pool_step st o)).
Proof.
  intros H. destruct o as [|t|w h]; simpl.
  - pose proof (pool_ok_acquire (fst st) (snd st) H) as H'.
    destruct (acquire (fst st) (snd st)) as [[tex p'] d']. exact H'.
  - apply pool_ok_release, H.
  - apply pool_ok_resize, H.
Qed.

Lemma pool_ok_run (os : list pool_op) (st : TexturePool * DevState) :
  pool_ok (fst st) -> pool_ok (fst (pool_run os st)).
Proof.
  revert st. induction os as [|o os IH]; intros st H; simpl; [exact H|].
  apply IH, pool_ok_step, H.
Qed.


(** ** Acquire and release *)

Lemma acquire_nonempty (p : TexturePool) (d : DevState) (t : MTLTexture) :
  last (available_ p) = Some t ->
  acquire p d = (Some t, mkPool (width_ p) (height_ p) (removelast (available_ p)), d).
Proof. intros E. unfold Pool.acquire. rewrite E. reflexivity. Qed.

Lemma acquire_empty (p : TexturePool) (d : DevState) :
  available_ p = [] ->
  acquire p d = (fst (newTextureWithDescriptor (width_ p) (height_ p) d), p,
                 snd (newTextureWithDescriptor (width_ p) (height_ p) d)).
Proof.
  intros E. unfold Pool.acquire. rewrite E. simpl.
  destruct (newTextureWithDescriptor _ _ d); reflexivity.
Qed.

Lemma release_then_acquire (p : TexturePool) (d : DevState) (t : MTLTexture) :
  matches t p ->
  available_ (release (Some t) p) = available_ p ++ [t]
  /\ acquire (release (Some t) p) d = (Some t, p, d).
Proof.
  intros M. apply matches_dec_eq in M. unfold release. rewrite M. simpl.
  split; [reflexivity|].
  unfold Pool.acquire. simpl. rewrite last_snoc, removelast_last.
  destruct p; reflexivity.
Qed.

Lemma release_mismatch (p : TexturePool) (t : MTLTexture) :
  ~ matches t p -> release (Some t) p = p.
Proof.
  intros M. unfold release.
  destruct (_ && _) eqn:E; [|reflexivity].
  apply matches_dec_eq in E. contradiction.
Qed.

(** C9. Take any pool reached from its constructor by acquires, releases
    and resizes, over a device whose textures have the dimensions that were
    asked for.  Every texture [acquire()] returns, from the free set or
    newly created, has the pool's configured width and height, and
    [acquire()] returns [nil] only when the free set is empty and the device
    fails to create a texture.  With a free set that is not empty, the
    texture comes from it and the device is not asked.  Releasing a texture
    of the configured dimensions appends it to the free set, and the
    [acquire()] that follows hands back that very texture, without
    allocating, leaving the pool as it was before the release.  Releasing a
    texture of other dimensions, or [nil], leaves the pool as it is, and
    such a texture is not in the free set. *)
Theorem C9_pool_acquire_release
    (w h : Z) (poolSize : nat) (d0 : DevState) (os : list pool_op) :
  let p := fst (pool_run os (TexturePool_new w h poolSize d0)) in
  let d := snd (pool_run os (TexturePool_new w h poolSize d0)) in
  (forall t, fst (fst (acquire p d)) = Some t -> matches t p)
  /\ (fst (fst (acquire p d)) = None <->
      available_ p = []
      /\ fst (newTextureWithDescriptor (width_ p) (height_ p) d) = None)
  /\ (forall t, last (available_ p) = Some t ->
      acquire p d
      = (Some t, mkPool (width_ p) (height_ p) (removelast (available_ p)), d))
  /\ (forall t d1, matches t p ->
      available_ (release (Some t) p) = available_ p ++ [t]
      /\ acquire (release (Some t) p) d1 = (Some t, p, d1))
  /\ (forall t, ~ matches t p ->
      release (Some t) p = p /\ t ∉ available_ p)
  /\ release None p = p.
Proof.
  intros p d.
  assert (Hok : pool_ok p).
  { apply pool_ok_run. apply pool_ok_new. }
  split; [|split; [|split; [|split; [|split]]]].
  - intros t Ht.
    destruct (last (available_ p)) as [t'|] eqn:E.
    + rewrite (acquire_nonempty p d t' E) in Ht. simpl in Ht.
      injection Ht as ->.
      unfold pool_ok in Hok. rewrite (last_removelast _ _ E) in Hok.
      apply Forall_app in Hok as [_ Hok]. inversion Hok; assumption.
    + apply last_None in E.
      rewrite (acquire_empty p d E) in Ht. simpl in Ht.
      destruct (newTextureWithDescriptor (width_ p) (height_ p) d) as [tex d'] eqn:En.
      simpl in Ht. subst tex. exact (device_dims _ _ _ _ _ En).
  - destruct (last (available_ p)) as [t'|] eqn:E.
    + rewrite (acquire_nonempty p d t' E). simpl. split; [discriminate|].
      intros [Ha _]. rewrite Ha in E. discriminate.
    + apply last_None in E. rewrite (acquire_empty p d E). simpl.
      split; [intros Hn; split; assumption | intros [_ Hn]; exact Hn].
  - intros t. apply acquire_nonempty.
  - intros t d1. apply release_then_acquire.
  - intros t M. split; [apply release_mismatch, M|].
    intros Hin. apply M.
    unfold pool_ok in Hok. rewrite Forall_forall in Hok. exact (Hok t Hin).
  - reflexivity.
Qed.

End PoolFacts.

Lemma counting_device_dims (w h d : Z) (t : Frame.MTLTexture) (d' : Z) :
  Pool.counting_device w h d = (Some t, d') ->
  Frame.tex_width t = w /\ Frame.tex_height t = h.
Proof. unfold Pool.counting_device. intros [= <- _]. split; reflexivity. Qed.

(** A pool of two 1920x1080 textures: after an acquire, releasing the
    acquired texture and acquiring again hands the same texture back and
    the device has still allocated only the first two. *)
Lemma C9_pool_acquire_release_witness :
  let st := Pool.pool_run Z Pool.counting_device [Pool.PAcquire]
              (Pool.TexturePool_new Z Pool.counting_device 1920 1080 2 0) in
  let t := Frame.mkTexture 1 1920 1080 in
  (forall w h d t d', Pool.counting_device w h d = (Some t, d') ->
                      Frame.tex_width t = w /\ Frame.tex_height t = h)
  /\ Pool.matches t (fst st)
  /\ Pool.acquire Z Pool.counting_device (Pool.release (Some t) (fst st)) (snd st)
     = (Some t, fst st, 2).
Proof.
  split; [exact counting_device_dims|]. split; [split; reflexivity|].
  destruct (C9_pool_acquire_release Z Pool.counting_device counting_device_dims
              1920 1080 2 0 [Pool.PAcquire]) as (_ & _ & _ & H & _).
  apply (H (Frame.mkTexture 1 1920 1080) 2). split; reflexivity.
Defined.

(** With the free set empty and the device out of memory, [acquire()]
    returns [nil]. *)
Example acquire_exhausted_device :
  fst (fst (Pool.acquire Z Pool.exhausted_device
              (fst (Pool.TexturePool_new Z Pool.exhausted_device 1920 1080 2 0)) 0))
  = None.
Proof. reflexivity. Qed.

(** After a resize a texture of the old dimensions is turned away. *)
Example release_after_resize :
  let p := fst (Pool.TexturePool_new Z Pool.counting_device 1920 1080 1 0) in
  let t := Frame.mkTexture 0 1920 1080 in
  fst (fst (Pool.acquire Z Pool.counting_device p 1)) = Some t
  /\ Pool.release (Some t) (Pool.resize 1280 720 p) = Pool.mkPool 1280 720 [].
Proof. split; reflexivity. Qed.

(* ===================================================================== *)
(** * Properties of the NDI sender's queue *)
(* ===================================================================== *)

Section NDIFacts.
Import NDI.

Variable render : Frame.SwitcherFrame -> PixelFrame.
Variable below_period : float32 -> Z -> bool.
Variable count_rejected : bool.
Variable count_skipped : bool.

#[local] Abbreviation pushPixelData :=
  (pushPixelData below_period count_rejected count_skipped).
#[local] Abbreviation pushFrame :=
  (pushFrame render below_period count_rejected count_skipped).
#[local] Abbreviation step := (step render below_period count_rejected count_skipped).
#[local] Abbreviation run := (run render below_period count_rejected count_skipped).
#[local] Abbreviation offered := (offered render).
#[local] Abbreviation frames_offered := (frames_offered render).
#[local] Abbreviation uncounted :=
  (uncounted render below_period count_rejected count_skipped).
#[local] Abbreviation uncounted_here :=
  (uncounted_here render below_period count_rejected count_skipped).
#[local] Abbreviation throttled := (throttled below_period).
#[local] Abbreviation offers_valid := (offers_valid render).

Lemma offered_cons (e : event) (es : list event) :
  offered (e :: es) = (if is_push e then 1 else 0) + offered es.
Proof.
  unfold NDI.offered. destruct e; simpl length; simpl is_push; lia.
Qed.

Lemma frames_offered_app (es1 es2 : list event) :
  frames_offered (es1 ++ es2) = frames_offered es1 ++ frames_offered es2.
Proof.
  induction es1 as [|[frame now|f now|now|b|fps] es1 IH]; simpl; congruence.
Qed.

Lemma run_snoc (o : NDIOutput) (es : list event) (e : event) :
  run o (es ++ [e]) = step (run o es) e.
Proof. unfold NDI.run. rewrite fold_left_app. reflexivity. Qed.

(** What one push of a pixel frame does to the accounts. *)
Lemma pushPixelData_accounts (f : PixelFrame) (now : Z) (o : NDIOutput) :
  let rej := negb (running_ o) || negb (valid f) in
  let skip := negb rej && throttled now o in
  config_ (fst (pushPixelData f now o)) = config_ o
  /\ accounted (fst (pushPixelData f now o))
     + (if (rej && negb count_rejected) || (skip && negb count_skipped)
        then 1 else 0)
     = accounted o + 1
  /\ (Z.of_nat (length (pixel_queue_ o)) <= async_queue_size (config_ o) ->
      Z.of_nat (length (pixel_queue_ (fst (pushPixelData f now o))))
      <= async_queue_size (config_ o)).
Proof.
  unfold NDI.pushPixelData, NDI.accounted, framesSent, framesDropped.
  destruct (negb (running_ o) || negb (valid f)); cbn [negb andb orb].
  - destruct count_rejected; cbn [negb fst]; simpl; repeat split; lia.
  - destruct (throttled now o); cbn [negb andb orb].
    + destruct count_skipped; cbn [negb fst]; simpl; repeat split; lia.
    + destruct (legacy_mode_ o); simpl; [repeat split; lia|].
      destruct (_ <=? _) eqn:E; simpl; [repeat split; lia|].
      apply Z.leb_gt in E. rewrite length_app. simpl length. repeat split; lia.
Qed.

(** What one event does to the accounts. *)
Lemma step_accounts (e : event) (o : NDIOutput) :
  config_ (step o e) = config_ o
  /\ accounted (step o e) + (if uncounted_here e o then 1 else 0)
     = accounted o + (if is_push e then 1 else 0)
  /\ (Z.of_nat (length (pixel_queue_ o)) <= async_queue_size (config_ o) ->
      Z.of_nat (length (pixel_queue_ (step o e))) <= async_queue_size (config_ o)).
Proof.
  destruct e as [frame now|f now|now|b|fps]; cbn [NDI.step is_push].
  - unfold NDI.uncounted_here, NDI.skipped, NDI.rejected, NDI.pushFrame.
    destruct (negb (running_ o) || negb (Frame.valid frame)) eqn:R;
      cbn [negb andb orb].
    + unfold NDI.accounted, framesSent, framesDropped.
      destruct count_rejected; simpl; repeat split; lia.
    + apply orb_false_iff in R as [R1 R2].
      pose proof (pushPixelData_accounts (render frame) now o) as P.
      cbn zeta in P. rewrite R1 in P. cbn [orb] in P. exact P.
  - unfold NDI.uncounted_here, NDI.skipped, NDI.rejected.
    exact (pushPixelData_accounts f now o).
  - unfold NDI.sendLoop_step, NDI.accounted, framesSent, framesDropped.
    destruct (running_ o); cbn [negb]; [|repeat split; lia].
    destruct (pixel_queue_ o) as [|x rest] eqn:Eq; simpl;
      rewrite ?Eq; simpl length; repeat split; lia.
  - unfold NDI.accounted, framesSent, framesDropped. simpl. repeat split; lia.
  - unfold NDI.accounted, framesSent, framesDropped. simpl. repeat split; lia.
Qed.

(** The accounting that holds at all times. *)
Lemma run_accounts (es : list event) (o : NDIOutput) :
  Z.of_nat (length (pixel_queue_ o)) <= async_queue_size (config_ o) ->
  config_ (run o es) = config_ o
  /\ accounted (run o es) + uncounted es o = accounted o + offered es
  /\ Z.of_nat (length (pixel_queue_ (run o es))) <= async_queue_size (config_ o).
Proof.
  revert o. induction es as [|e es IH]; intros o Hq.
  - unfold NDI.offered. simpl. repeat split; lia.
  - rewrite offered_cons. cbn [NDI.run fold_left NDI.uncounted].
    destruct (step_accounts e o) as (Sc & Sa & Sq).
    destruct (IH (step o e)) as (Ic & Ia & Iq); [rewrite Sc; auto|].
    rewrite Sc in Ic, Iq.
    change (fold_left step es (step o e)) with (run (step o e) es).
    repeat split; [exact Ic | lia | exact Iq].
Qed.

(** With the sender stalled, queued sending and valid frames, the queue is
    the first [Q] frames offered and nothing is turned away. *)
Lemma run_stalled (cfg : NDIOutputConfig) (fps : float32) (es : list event) :
  0 <= async_queue_size cfg ->
  legacy_mode cfg = false ->
  forallb offers_valid es = true ->
  let o := run (NDIOutput_init cfg true fps) es in
  config_ o = cfg
  /\ running_ o = true
  /\ legacy_mode_ o = false
  /\ last_sent_time (throttle_ o) = None
  /\ pixel_queue_ o = take (Z.to_nat (async_queue_size cfg)) (frames_offered es)
  /\ framesSent o = 0
  /\ framesDropped o = Z.max 0 (offered es - async_queue_size cfg).
Proof.
  intros HQ HL. induction es as [|e es IH] using rev_ind; intros Hs.
  - unfold NDI.offered. simpl. rewrite take_nil.
    repeat split; try assumption; try reflexivity; lia.
  - rewrite forallb_app in Hs. apply andb_true_iff in Hs as [Hs He].
    cbn [forallb] in He. rewrite andb_true_r in He.
    destruct (IH Hs) as (Hc & Hr & Hm & Ht & Hq & Hsent & Hd).
    rewrite run_snoc.
    set (o := run (NDIOutput_init cfg true fps) es) in *.
    assert (Hpush : forall f now,
      valid f = true ->
      let o' := fst (pushPixelData f now o) in
      config_ o' = cfg /\ running_ o' = true /\ legacy_mode_ o' = false
      /\ last_sent_time (throttle_ o') = None
      /\ pixel_queue_ o'
         = take (Z.to_nat (async_queue_size cfg)) (frames_offered es ++ [f])
      /\ framesSent o' = 0
      /\ framesDropped o'
         = Z.max 0 (Z.of_nat (length (frames_offered es ++ [f]))
                    - async_queue_size cfg)).
    { intros f now Hv. unfold framesSent, framesDropped, NDI.offered in *.
      cbn zeta. unfold NDI.pushPixelData, NDI.throttled.
      rewrite Hr, Hv, Ht, Hm, Hc, Hq, length_take, length_app. cbn [negb orb].
      simpl length.
      destruct (async_queue_size cfg <=? _) eqn:E; simpl.
      - apply Z.leb_le in E.
        rewrite take_app_le by lia. repeat split; auto; lia.
      - apply Z.leb_gt in E.
        rewrite !take_ge by (rewrite ?length_app; simpl; lia).
        repeat split; auto; lia. }
    unfold NDI.offered. rewrite frames_offered_app.
    destruct e as [frame now|f now|now|b|fps']; try discriminate.
    + cbn [NDI.offers_valid] in He. apply andb_true_iff in He as [Hf Hv].
      cbn [NDI.step NDI.frames_offered]. unfold NDI.pushFrame.
      rewrite Hr, Hf. cbn [negb orb].
      exact (Hpush (render frame) now Hv).
    + cbn [NDI.offers_valid] in He.
      cbn [NDI.step NDI.frames_offered].
      exact (Hpush f now He).
Qed.

(** C5 (amended). For a sink with queue depth [Q >= 0], running or not,
    and any history of pushes through [pushFrame] and [pushPixelData],
    sender turns and switches of mode and target rate: the queue never
    holds more than [Q] frames; at all times sent + dropped + queued, plus
    the frames turned away without being counted (offered to a sink that is
    not running, invalid, or skipped by the throttle, where the
    implementation does not count those), equals the number of frames
    offered, so sent + dropped equals the number offered whenever the queue
    is drained and no frame was turned away uncounted.  On a running sink
    in queued mode, a push of a valid frame that the throttle lets through
    onto a full queue returns [false], counts the new frame as dropped and
    leaves the queue and the sent counter as they are; no push ever removes
    or reorders a queued entry.  With a running
    sink in queued mode, a stalled sender and valid frames, the queue is
    the first [Q] frames offered, nothing is sent, and the dropped count is
    the number offered beyond [Q]. *)
Theorem C5_queue_accounting
    (cfg : NDIOutputConfig) (running : bool) (fps : float32) (es : list event) :
  0 <= async_queue_size cfg ->
  let o := run (NDIOutput_init cfg running fps) es in
  Z.of_nat (length (pixel_queue_ o)) <= async_queue_size cfg
  /\ framesSent o + framesDropped o + Z.of_nat (length (pixel_queue_ o))
     + uncounted es (NDIOutput_init cfg running fps)
     = offered es
  /\ (pixel_queue_ o = [] ->
      uncounted es (NDIOutput_init cfg running fps) = 0 ->
      framesSent o + framesDropped o = offered es)
  /\ (forall f now,
      isRunning o = true -> isLegacyMode o = false ->
      valid f = true -> throttled now o = false ->
      async_queue_size cfg <= Z.of_nat (length (pixel_queue_ o)) ->
      snd (pushPixelData f now o) = false
      /\ pixel_queue_ (fst (pushPixelData f now o)) = pixel_queue_ o
      /\ framesDropped (fst (pushPixelData f now o)) = framesDropped o + 1
      /\ framesSent (fst (pushPixelData f now o)) = framesSent o)
  /\ (forall f now,
      pixel_queue_ (fst (pushPixelData f now o)) = pixel_queue_ o
      \/ pixel_queue_ (fst (pushPixelData f now o)) = pixel_queue_ o ++ [f])
  /\ (running = true -> legacy_mode cfg = false ->
      forallb offers_valid es = true ->
      pixel_queue_ o = take (Z.to_nat (async_queue_size cfg)) (frames_offered es)
      /\ framesSent o = 0
      /\ framesDropped o = Z.max 0 (offered es - async_queue_size cfg)).
Proof.
  intros HQ o.
  destruct (run_accounts es (NDIOutput_init cfg running fps)) as (Hc & Hs & Hl);
    [simpl; lia|].
  fold o in Hc, Hs, Hl. simpl in Hc, Hl.
  unfold NDI.accounted in Hs. simpl in Hs.
  split; [exact Hl|]. split; [lia|]. split; [|split; [|split]].
  - intros E U. rewrite E, U in Hs. simpl in Hs. lia.
  - intros f now Hr HL Hv Ht Hfull.
    unfold isRunning, isLegacyMode in *.
    unfold NDI.pushPixelData. rewrite Hr, Hv, Ht, HL, Hc. cbn [negb orb].
    apply Z.leb_le in Hfull. rewrite Hfull. simpl. repeat split.
  - intros f now. unfold NDI.pushPixelData.
    destruct (negb (running_ o) || negb (valid f));
      [destruct count_rejected; left; reflexivity|].
    destruct (throttled now o); [destruct count_skipped; left; reflexivity|].
    destruct (legacy_mode_ o); [left; reflexivity|].
    destruct (_ <=? _); [left|right]; reflexivity.
  - intros -> HL Hst.
    destruct (run_stalled cfg fps es HQ HL Hst) as (_ & _ & _ & _ & H1 & H2 & H3).
    repeat split; assumption.
Qed.

End NDIFacts.

(** A frame waiting in the queue is in neither counter: with one valid
    frame offered to a running sink with no target rate, and the sender yet
    to take a turn, none is sent and none is dropped. *)
Lemma C5_counterexample :
  let f := NDI.mkPixelFrame [] 0 0 0 F32.zero true in
  let es := [NDI.PushPixelData f 0] in
  let o := NDI.run NDI.plain_render NDI.below_forty true true
             (NDI.NDIOutput_started NDI.NDIOutputConfig_default) es in
  NDI.offered NDI.plain_render es = 1
  /\ NDI.framesSent o + NDI.framesDropped o = 0
  /\ NDI.pixel_queue_ o = [f]
  /\ NDI.framesSent o + NDI.framesDropped o <> NDI.offered NDI.plain_render es.
Proof. repeat split. vm_compute. discriminate. Qed.

(** Depth 5, sender stalled, 8 valid frames offered: 3 dropped, the first
    5 kept; once the sender has taken 5 turns, 5 sent and 3 dropped. *)
Lemma C5_queue_accounting_witness :
  let f := fun i => NDI.mkPixelFrame [] 0 0 i F32.zero true in
  let offers := map (fun i => NDI.PushPixelData (f (Z.of_nat i)) 0) (seq 1 8) in
  let run := NDI.run NDI.plain_render NDI.below_forty false false in
  let o := run (NDI.NDIOutput_init NDI.NDIOutputConfig_default true F32.thirty)
             offers in
  let o' := run o (repeat (NDI.SendTurn 0) 5) in
  0 <= NDI.async_queue_size NDI.NDIOutputConfig_default
  /\ forallb (NDI.offers_valid NDI.plain_render) offers = true
  /\ NDI.framesDropped o = 3
  /\ NDI.pixel_queue_ o = [f 1; f 2; f 3; f 4; f 5]
  /\ NDI.framesSent o' + NDI.framesDropped o' = NDI.offered NDI.plain_render offers.
Proof.
  split; [vm_compute; discriminate|]. split; [reflexivity|].
  pose proof (C5_queue_accounting NDI.plain_render NDI.below_forty false false
    NDI.NDIOutputConfig_default true F32.thirty
    (map (fun i => NDI.PushPixelData
                     (NDI.mkPixelFrame [] 0 0 (Z.of_nat i) F32.zero true) 0)
         (seq 1 8))
    ltac:(vm_compute; discriminate)) as (_ & _ & _ & _ & _ & H).
  destruct (H eq_refl eq_refl eq_refl) as (Hq & _ & Hd).
  split; [exact Hd|]. split; [exact Hq|]. reflexivity.
Defined.

(** A stopped sink turns every frame away, an invalid frame goes no further
    on a running one, and the throttle skips a frame that comes too soon
    after a send; none of them is sent or queued, and each is counted as
    dropped only where the implementation counts it. *)
Example turned_away_frames :
  let good := NDI.mkPixelFrame [] 0 0 0 F32.zero true in
  let bad := NDI.mkPixelFrame [] 0 0 0 F32.zero false in
  let run := NDI.run NDI.plain_render NDI.below_forty false true in
  let stopped := run (NDI.NDIOutput_init NDI.NDIOutputConfig_default false F32.zero)
                   [NDI.PushPixelData good 0] in
  let o := run (NDI.NDIOutput_init NDI.NDIOutputConfig_default true F32.thirty)
             [NDI.PushPixelData bad 0; NDI.PushPixelData good 0; NDI.SendTurn 10;
              NDI.PushPixelData good 20; NDI.PushPixelData good 60] in
  (NDI.framesSent stopped, NDI.framesDropped stopped, NDI.pixel_queue_ stopped)
  = (0, 0, [])
  /\ (NDI.framesSent o, NDI.framesDropped o, NDI.pixel_queue_ o) = (1, 1, [good]).
Proof. split; reflexivity. Qed.

(* ===================================================================== *)
(** * Further properties of the output sink *)
(* ===================================================================== *)

Section SinkMore.
Import Sink SinkGeometry.

#[local] Arguments F32.add : simpl never.
#[local] Arguments F32.div : simpl never.
#[local] Arguments F32.geb : simpl never.
#[local] Arguments F32.leb : simpl never.
#[local] Arguments F32.ltb : simpl never.
#[local] Arguments F32.std_min : simpl never.
#[local] Arguments F32.std_max : simpl never.

(** The three things a progress call can do to the object. *)
Lemma call_shape (c : progress_call) (s : OutputSink) :
  (reaches_one c s = false /\ fst (call c s) = s)
  \/ (transition_in_progress_ s = true /\ reaches_one c s = false
      /\ exists v, tested_progress c s = Some v
                   /\ F32.geb v F32.one = false
                   /\ fst (call c s) = set_transition_progress_ v s)
  \/ (transition_in_progress_ s = true /\ reaches_one c s = true
      /\ fst (call c s) =
           mkSink (output_id_ s) (output_mode_ s) (status_callback_ s)
             DirectInput (screen_index_ s) (pending_input_ s)
             (pending_input_ s) (-1) false F32.zero
             (transition_duration_frames_ s) (transition_type_ s)
             (pending_crop_ s) (pending_crop_ s)
             (pending_edge_blend_ s) (pending_edge_blend_ s) (intensity_ s)).
Proof.
  destruct (transition_in_progress_ s) eqn:H.
  - destruct (reaches_one c s) eqn:R.
    + right; right. repeat split. exact (call_commit c s H R).
    + right; left. repeat split.
      destruct (call_stay c s H R) as (v & Ev & E).
      exists v. repeat split; auto.
      unfold reaches_one in R. rewrite Ev in R. exact R.
  - left. destruct (call_idle c s H) as [E R]. rewrite E. auto.
Qed.

(** ** Values the accessors can report *)

Lemma intensity_apply (o : op) (s : OutputSink) :
  F32.leb F32.zero (intensity_ s) = true /\ F32.leb (intensity_ s) F32.one = true ->
  F32.leb F32.zero (intensity_ (apply o s)) = true
  /\ F32.leb (intensity_ (apply o s)) F32.one = true.
Proof.
  intros I.
  assert (Hcall : forall c, intensity_ (fst (call c s)) = intensity_ s).
  { intros c.
    destruct (call_shape c s) as [(_ & ->)|[(_ & _ & v & _ & _ & ->)|(_ & _ & ->)]];
      reflexivity. }
  pose proof (Hcall Advance : intensity_ (fst (advanceTransition s)) = _) as Ha.
  destruct o; cbn [apply];
    try (simpl; exact I);
    try (unfold startTransition, startTransitionWithCrop,
           startTransitionWithCropAndBlend;
         destruct (is_Cut type || F32.leb durationFrames F32.zero); simpl; exact I).
  - rewrite Ha. exact I.
  - rewrite (Hcall (SetProgress progress)
             : intensity_ (fst (setTransitionProgress progress s)) = _). exact I.
  - apply clamp01_bounds.
  - rewrite advanceTransitionWithCrop_eq, Ha. exact I.
Qed.

(** X1. Whatever is called on the sink, [intensity()] reports a value in
    [[0,1]], and [setIntensity] stores exactly the clamp
    [std::max(0.0f, std::min(1.0f, i))] of its argument: a value that
    compares strictly between 0 and 1 is stored as it is; a value below 1
    that does not compare above 0 (negative numbers, minus infinity, either
    zero) is stored as [0.0f]; and every value that does not compare below
    1 is stored as [1.0f]: the numbers from 1 up, plus infinity, and NaN,
    for which every comparison is false. *)
Theorem intensity_stays_in_unit_interval (os : list op) (i : float32) :
  let s := apply_all os OutputSink_default in
  (F32.leb F32.zero (intensity s) = true /\ F32.leb (intensity s) F32.one = true)
  /\ intensity (setIntensity S754_nan s) = F32.one
  /\ intensity (setIntensity F32.pinf s) = F32.one
  /\ (F32.ltb F32.zero i = true -> F32.ltb i F32.one = true ->
      intensity (setIntensity i s) = i)
  /\ (F32.ltb i F32.one = true -> F32.ltb F32.zero i = false ->
      intensity (setIntensity i s) = F32.zero)
  /\ (F32.ltb i F32.one = false -> intensity (setIntensity i s) = F32.one).
Proof.
  cbv zeta. split.
  - unfold intensity, apply_all.
    assert (G : forall s,
               F32.leb F32.zero (intensity_ s) = true
               /\ F32.leb (intensity_ s) F32.one = true ->
               F32.leb F32.zero (intensity_ (fold_left (fun s o => apply o s) os s))
               = true
               /\ F32.leb (intensity_ (fold_left (fun s o => apply o s) os s)) F32.one
                  = true).
    { induction os as [|o os IH]; intros s I; simpl; [exact I|].
      apply IH, intensity_apply, I. }
    apply G. split; reflexivity.
  - generalize (apply_all os OutputSink_default). intros s.
    assert (E : forall v, intensity (setIntensity v s) = F32.clamp01 v)
      by reflexivity.
    rewrite !E. split; [reflexivity|]. split; [reflexivity|].
    destruct (clamp01_cases i) as [(H0 & H1 & ->)|[(H1 & H0 & ->)|(H1 & ->)]];
      repeat split; intros; congruence.
Qed.

(** Set to NaN the intensity reads [1.0f]; set to a half it reads a half. *)
Lemma intensity_stays_in_unit_interval_witness :
  let s := apply_all [OpSetIntensity S754_nan] OutputSink_default in
  intensity s = F32.one
  /\ F32.ltb F32.zero F32.half = true
  /\ F32.ltb F32.half F32.one = true
  /\ intensity (setIntensity F32.half s) = F32.half.
Proof.
  do 3 (split; [reflexivity|]).
  destruct (intensity_stays_in_unit_interval [OpSetIntensity S754_nan] F32.half)
    as (_ & _ & _ & H & _).
  apply H; reflexivity.
Defined.




(** ** Runs that stay below one *)

(** A run in which no call finds the progress at one leaves the sink
    Transitioning and writes [transition_progress_] only. *)
Lemma run_below_one (cs : list progress_call) (s : OutputSink) :
  transition_in_progress_ s = true ->
  reach_count cs s = O ->
  transition_in_progress_ (run cs s) = true
  /\ current_triple (run cs s) = current_triple s
  /\ pending_triple (run cs s) = pending_triple s
  /\ source_assignment (run cs s) = source_assignment s
  /\ Forall (fun s' => current_triple s' = current_triple s) (trace cs s).
Proof.
  revert s. induction cs as [|c cs IH]; intros s H R; simpl in *.
  - repeat split; auto.
  - destruct (reaches_one c s) eqn:Rc; [discriminate|]. simpl in R.
    destruct (call_stay c s H Rc) as (v & _ & E).
    assert (H' : transition_in_progress_ (fst (call c s)) = true)
      by (rewrite E; exact H).
    destruct (IH _ H' R) as (I1 & I2 & I3 & I4 & I5).
    rewrite E in *.
    split; [exact I1|]. split; [exact I2|]. split; [exact I3|].
    split; [exact I4|].
    constructor; [reflexivity | exact I5].
Qed.

(** The commit that ends such a run installs the triple that was staged
    when the run began. *)
Lemma commit_after_quiet_run (cs : list progress_call) (c : progress_call)
    (s : OutputSink) :
  transition_in_progress_ s = true ->
  reach_count cs s = O ->
  reaches_one c (run cs s) = true ->
  current_triple (fst (call c (run cs s))) = pending_triple s
  /\ pending_crop_ (fst (call c (run cs s))) = pending_crop_ s
  /\ pending_edge_blend_ (fst (call c (run cs s))) = pending_edge_blend_ s
  /\ transition_in_progress_ (fst (call c (run cs s))) = false
  /\ Forall (fun s' => current_triple s' = current_triple s) (trace cs s).
Proof.
  intros H R Rc.
  destruct (run_below_one cs s H R) as (I1 & I2 & I3 & I4 & I5).
  rewrite (call_commit c _ I1 Rc). unfold pending_triple in I3.
  injection I3 as E1 E2 E3.
  unfold current_triple, pending_triple. simpl. rewrite E1, E2, E3.
  repeat split. exact I5.
Qed.

Lemma timed_start_quiet_commit
    (s : OutputSink) (toInput : Z) (type : OutputTransitionType)
    (durationFrames : float32) (cs : list progress_call) (c : progress_call) :
  is_Cut type = false ->
  F32.leb durationFrames F32.zero = false ->
  reach_count cs (startTransition toInput type durationFrames s) = O ->
  reaches_one c (run cs (startTransition toInput type durationFrames s)) = true ->
  current_triple (startTransition toInput type durationFrames s) = current_triple s
  /\ Forall (fun s' => current_triple s' = current_triple s)
       (trace cs (startTransition toInput type durationFrames s))
  /\ current_triple
       (fst (call c (run cs (startTransition toInput type durationFrames s))))
     = (toInput, pending_crop_ s, pending_edge_blend_ s)
  /\ pending_crop_
       (fst (call c (run cs (startTransition toInput type durationFrames s))))
     = pending_crop_ s
  /\ pending_edge_blend_
       (fst (call c (run cs (startTransition toInput type durationFrames s))))
     = pending_edge_blend_ s
  /\ transition_in_progress_
       (fst (call c (run cs (startTransition toInput type durationFrames s))))
     = false.
Proof.
  intros Ht Hd.
  assert (E : startTransition toInput type durationFrames s
              = set_transition_progress_ F32.zero
                  (set_transition_in_progress_ true
                     (set_transition_duration_frames_ durationFrames
                        (set_transition_type_ type
                           (set_pending_input_ toInput s))))).
  { unfold startTransition. rewrite Ht, Hd. reflexivity. }
  set (s0 := startTransition toInput type durationFrames s) in *.
  intros R Rc.
  assert (H0 : transition_in_progress_ s0 = true) by (rewrite E; reflexivity).
  destruct (commit_after_quiet_run cs c s0 H0 R Rc) as (T & P1 & P2 & Hi & Htr).
  assert (Tc : current_triple s0 = current_triple s) by (rewrite E; reflexivity).
  assert (Tp : pending_triple s0 = (toInput, pending_crop_ s, pending_edge_blend_ s))
    by (rewrite E; reflexivity).
  rewrite Tp in T. rewrite Tc in Htr.
  assert (Pc : pending_crop_ s0 = pending_crop_ s) by (rewrite E; reflexivity).
  assert (Pb : pending_edge_blend_ s0 = pending_edge_blend_ s)
    by (rewrite E; reflexivity).
  rewrite Pc in P1. rewrite Pb in P2.
  repeat split; assumption.
Qed.

(** X3. A timed [startTransition] (type not Cut, duration not [<= 0]) takes
    no crop or blend, yet the transition it starts ends, after any calls
    that stay below one, by installing the target input together with
    whatever pending crop and pending edge blend the sink held before the
    start; until then the render path sees the old triple.  The same start
    as a cut would have left crop and blend alone. *)
Theorem timed_start_commits_stale_pending
    (s : OutputSink) (toInput : Z) (type : OutputTransitionType)
    (durationFrames : float32) (cs : list progress_call) (c : progress_call) :
  is_Cut type = false ->
  F32.leb durationFrames F32.zero = false ->
  let s0 := startTransition toInput type durationFrames s in
  reach_count cs s0 = O ->
  reaches_one c (run cs s0) = true ->
  current_triple s0 = current_triple s
  /\ Forall (fun s' => current_triple s' = current_triple s) (trace cs s0)
  /\ current_input_ (fst (call c (run cs s0))) = toInput
  /\ current_crop_ (fst (call c (run cs s0))) = pending_crop_ s
  /\ current_edge_blend_ (fst (call c (run cs s0))) = pending_edge_blend_ s
  /\ transition_in_progress_ (fst (call c (run cs s0))) = false.
Proof.
  intros Ht Hd s0 R Rc.
  destruct (timed_start_quiet_commit s toInput type durationFrames cs c Ht Hd R Rc)
    as (A & B & T & _ & _ & D).
  injection T as T1 T2 T3. repeat split; assumption.
Qed.

Lemma timed_start_commits_stale_pending_witness :
  let s := setPendingCrop F32.half F32.zero F32.half F32.one OutputSink_default in
  let s0 := startTransition 2 Wipe (F32.of_Z 2) s in
  is_Cut Wipe = false
  /\ F32.leb (F32.of_Z 2) F32.zero = false
  /\ reach_count [Advance] s0 = O
  /\ reaches_one Advance (run [Advance] s0) = true
  /\ current_crop_ (fst (call Advance (run [Advance] s0)))
     = mkCrop F32.half F32.zero F32.half F32.one.
Proof.
  split; [reflexivity|]. split; [reflexivity|].
  split; [reflexivity|]. split; [reflexivity|].
  apply (timed_start_commits_stale_pending
           (setPendingCrop F32.half F32.zero F32.half F32.one OutputSink_default)
           2 Wipe (F32.of_Z 2) [Advance] Advance); reflexivity.
Defined.


(** ** Transitions that cannot complete *)

Lemma add_nan_r (a : float32) : F32.add a S754_nan = S754_nan.
Proof. destruct a as [sa|sa| |sa ma ea]; reflexivity. Qed.

Lemma nan_advance (s : OutputSink) :
  transition_in_progress_ s = true ->
  transition_duration_frames_ s = S754_nan \/ transition_progress_ s = S754_nan ->
  reaches_one Advance s = false
  /\ fst (call Advance s) = set_transition_progress_ S754_nan s.
Proof.
  intros H K.
  assert (T : tested_progress Advance s = Some S754_nan).
  { unfold tested_progress. rewrite H. simpl. f_equal.
    destruct K as [-> | ->]; [apply add_nan_r | reflexivity]. }
  assert (R : reaches_one Advance s = false)
    by (unfold reaches_one; rewrite T; reflexivity).
  split; [exact R|].
  destruct (call_stay Advance s H R) as (v & Ev & E).
  rewrite T in Ev. injection Ev as <-. exact E.
Qed.

(** X4. A transition whose duration or progress is NaN ([startTransition]
    accepts a NaN duration, since [NaN <= 0] is false) is never completed
    by [advanceTransition]: however often it is called, it returns [false],
    the sink stays Transitioning and the current triple stays as it was. *)
Theorem nan_transition_never_completes (s : OutputSink) (n : nat) :
  transition_in_progress_ s = true ->
  transition_duration_frames_ s = S754_nan \/ transition_progress_ s = S754_nan ->
  reach_count (repeat Advance n) s = O
  /\ transition_in_progress_ (run (repeat Advance n) s) = true
  /\ current_triple (run (repeat Advance n) s) = current_triple s
  /\ snd (advanceTransition (run (repeat Advance n) s)) = false.
Proof.
  revert s. induction n as [|n IH]; intros s H K.
  - cbn [repeat run reach_count].
    split; [reflexivity|]. split; [exact H|]. split; [reflexivity|].
    destruct (nan_advance s H K) as [R _].
    rewrite (call_result Advance s : snd (advanceTransition s) = _). exact R.
  - cbn [repeat run reach_count call].
    destruct (nan_advance s H K) as [R E]. rewrite R.
    rewrite (E : fst (advanceTransition s) = _).
    destruct (IH (set_transition_progress_ S754_nan s)) as (I1 & I2 & I3 & I4);
      [exact H | right; reflexivity |].
    split; [rewrite I1; reflexivity|]. split; [exact I2|].
    split; [exact I3 | exact I4].
Qed.

Lemma nan_transition_never_completes_witness :
  let s := startTransition 2 Dissolve S754_nan OutputSink_default in
  transition_in_progress_ s = true
  /\ transition_duration_frames_ s = S754_nan
  /\ transition_in_progress_ (run (repeat Advance 100) s) = true
  /\ current_input_ (run (repeat Advance 100) s) = -1.
Proof.
  split; [reflexivity|]. split; [reflexivity|].
  destruct (nan_transition_never_completes
              (startTransition 2 Dissolve S754_nan OutputSink_default) 100
              eq_refl (or_introl eq_refl)) as (_ & H1 & H2 & _).
  split; [exact H1|].
  exact (f_equal (fun t => fst (fst t)) H2).
Defined.

(** ** Manual control *)

Lemma set_progress_below_one (p : float32) (s : OutputSink) :
  transition_in_progress_ s = true ->
  F32.ltb p F32.one = true ->
  reaches_one (SetProgress p) s = false
  /\ fst (call (SetProgress p) s) = set_transition_progress_ (F32.clamp01 p) s.
Proof.
  intros H L.
  assert (T : tested_progress (SetProgress p) s = Some (F32.clamp01 p))
    by (unfold tested_progress; rewrite H; reflexivity).
  assert (R : reaches_one (SetProgress p) s = false).
  { unfold reaches_one. rewrite T, clamp01_geb_one, L. reflexivity. }
  split; [exact R|].
  destruct (call_stay (SetProgress p) s H R) as (v & Ev & E).
  rewrite T in Ev. injection Ev as <-. exact E.
Qed.

(** X5. While a transition is in progress, any sequence of
    [setTransitionProgress] calls with values below one leaves the sink
    Transitioning with the current and the pending triple untouched, and
    the progress it ends with is the clamp of the last value alone: earlier
    values and earlier automatic advances leave no trace. *)
Theorem manual_progress_last_value_wins (s : OutputSink) (ps : list float32) :
  transition_in_progress_ s = true ->
  forallb (fun p => F32.ltb p F32.one) ps = true ->
  transition_in_progress_ (run (map SetProgress ps) s) = true
  /\ current_triple (run (map SetProgress ps) s) = current_triple s
  /\ pending_triple (run (map SetProgress ps) s) = pending_triple s
  /\ transition_progress_ (run (map SetProgress ps) s)
     = match last ps with
       | Some p => F32.clamp01 p
       | None => transition_progress_ s
       end.
Proof.
  revert s. induction ps as [|p ps IH]; intros s H A; simpl in *.
  - repeat split; auto.
  - apply andb_true_iff in A as [L A].
    destruct (set_progress_below_one p s H L) as [_ E].
    assert (E' : fst (setTransitionProgress p s)
                 = set_transition_progress_ (F32.clamp01 p) s) by exact E.
    rewrite E'.
    destruct (IH (set_transition_progress_ (F32.clamp01 p) s) H A)
      as (I1 & I2 & I3 & I4).
    repeat split; auto.
    rewrite I4. destruct ps as [|q ps]; [reflexivity|].
    rewrite last_cons_cons.
    destruct (last (q :: ps)) eqn:El; [reflexivity|].
    apply last_None in El. discriminate.
Qed.

Lemma manual_progress_last_value_wins_witness :
  let s := startTBarTransition 2 Dissolve OutputSink_default in
  let ps := [F32.half; F32.of_Z (-4); F32.of_frac 1 4] in
  transition_in_progress_ s = true
  /\ forallb (fun p => F32.ltb p F32.one) ps = true
  /\ transition_progress_ (run (map SetProgress ps) s) = F32.of_frac 1 4
  /\ current_input_ (run (map SetProgress ps) s) = -1.
Proof.
  split; [reflexivity|]. split; [vm_compute; reflexivity|].
  destruct (manual_progress_last_value_wins
              (startTBarTransition 2 Dissolve OutputSink_default)
              [F32.half; F32.of_Z (-4); F32.of_frac 1 4] eq_refl
              ltac:(vm_compute; reflexivity))
    as (_ & H2 & _ & H4).
  split; [rewrite H4; vm_compute; reflexivity|].
  exact (f_equal (fun t => fst (fst t)) H2).
Defined.


(** ** Edge blends staged for a transition *)

Lemma init10_default_geometry
    (fl fr ft fb gamma power black gR gG gB : float32) :
  has_default_geometry
    (EdgeBlendParams_init10 fl fr ft fb gamma power black gR gG gB).
Proof. unfold has_default_geometry. repeat split. Qed.

(** X6. The edge blend that [startTBarTransitionWithCropAndBlend] stages is
    built from ten values, so the rest takes the default initialisers: when
    the transition commits, after any calls that stay below one, the
    current edge blend has a zero warp grid, curvature and lens
    coefficients, a centred lens and no marked corner, whatever
    [setEdgeBlend] had put there, along with the target input, the given
    crop and the ten given values. *)
Theorem staged_blend_resets_geometry
    (s : OutputSink) (toInput : Z) (type : OutputTransitionType)
    (cropX cropY cropW cropH fl fr ft fb gamma power black gR gG gB : float32)
    (cs : list progress_call) (c : progress_call) :
  let s0 := startTBarTransitionWithCropAndBlend toInput type
              cropX cropY cropW cropH fl fr ft fb gamma power black gR gG gB s in
  reach_count cs s0 = O ->
  reaches_one c (run cs s0) = true ->
  currentInput (fst (call c (run cs s0))) = toInput
  /\ currentCrop (fst (call c (run cs s0))) = mkCrop cropX cropY cropW cropH
  /\ currentEdgeBlend (fst (call c (run cs s0)))
     = EdgeBlendParams_init10 fl fr ft fb gamma power black gR gG gB
  /\ has_default_geometry (currentEdgeBlend (fst (call c (run cs s0)))).
Proof.
  intros s0 R Rc.
  assert (H0 : transition_in_progress_ s0 = true) by reflexivity.
  destruct (commit_after_quiet_run cs c s0 H0 R Rc) as (T & _).
  assert (Tp : pending_triple s0
               = (toInput, mkCrop cropX cropY cropW cropH,
                  EdgeBlendParams_init10 fl fr ft fb gamma power black gR gG gB))
    by reflexivity.
  rewrite Tp in T. injection T as T1 T2 T3.
  unfold currentInput, currentCrop, currentEdgeBlend.
  split; [exact T1|]. split; [exact T2|]. split; [exact T3|].
  rewrite T3. apply init10_default_geometry.
Qed.

Lemma staged_blend_resets_geometry_witness :
  let warped :=
    setEdgeBlend F32.zero F32.zero F32.zero F32.zero F32.lit_2_2 F32.one F32.zero
      F32.one F32.one F32.one
      F32.thirty F32.thirty F32.zero F32.zero F32.zero F32.zero
      F32.zero F32.zero F32.zero F32.zero
      F32.zero F32.zero F32.zero F32.zero F32.zero F32.zero
      F32.half F32.zero F32.zero F32.half F32.half 3 OutputSink_default in
  let s0 := startTBarTransitionWithCropAndBlend 2 Dissolve
              F32.zero F32.zero F32.one F32.one
              F32.thirty F32.zero F32.zero F32.zero
              F32.lit_2_2 F32.one F32.zero F32.one F32.one F32.one warped in
  warpTopLeftX (currentEdgeBlend warped) = F32.thirty
  /\ activeCorner (currentEdgeBlend warped) = 3
  /\ reach_count [SetProgress F32.half] s0 = O
  /\ reaches_one (SetProgress F32.one) (run [SetProgress F32.half] s0) = true
  /\ has_default_geometry
       (currentEdgeBlend
          (fst (call (SetProgress F32.one) (run [SetProgress F32.half] s0)))).
Proof.
  split; [reflexivity|]. split; [reflexivity|].
  split; [reflexivity|]. split; [reflexivity|].
  eapply (staged_blend_resets_geometry _ 2 Dissolve
            F32.zero F32.zero F32.one F32.one
            F32.thirty F32.zero F32.zero F32.zero
            F32.lit_2_2 F32.one F32.zero F32.one F32.one F32.one
            [SetProgress F32.half] (SetProgress F32.one)); reflexivity.
Defined.

(** ** Source setters during a transition *)

(** X7. A commit overwrites what [setSourceType], [setDirectInputIndex] and
    [setCurrentInput] wrote while the transition was running: the call
    that reaches one leaves the object exactly as it would have without
    them, so an input forced with [setCurrentInput] in mid-transition is
    replaced by the transition's target. *)
Theorem commit_overrides_source_setters
    (o : op) (c : progress_call) (s : OutputSink) :
  match o with
  | OpSetSourceType _ | OpSetDirectInputIndex _ | OpSetCurrentInput _ => True
  | _ => False
  end ->
  transition_in_progress_ s = true ->
  reaches_one c s = true ->
  transition_in_progress_ (apply o s) = true
  /\ reaches_one c (apply o s) = true
  /\ fst (call c (apply o s)) = fst (call c s).
Proof.
  intros Ho H R.
  assert (G : transition_in_progress_ (apply o s) = true
              /\ reaches_one c (apply o s) = true
              /\ mkSink (output_id_ (apply o s)) (output_mode_ (apply o s))
                   (status_callback_ (apply o s))
                   DirectInput (screen_index_ (apply o s))
                   (pending_input_ (apply o s))
                   (pending_input_ (apply o s)) (-1) false F32.zero
                   (transition_duration_frames_ (apply o s))
                   (transition_type_ (apply o s))
                   (pending_crop_ (apply o s)) (pending_crop_ (apply o s))
                   (pending_edge_blend_ (apply o s))
                   (pending_edge_blend_ (apply o s)) (intensity_ (apply o s))
                = fst (call c s)).
  { rewrite (call_commit c s H R).
    destruct o; try contradiction; cbn [apply];
      (split; [exact H|]); (split; [|reflexivity]);
      destruct c; exact R. }
  destruct G as (G1 & G2 & G3).
  split; [exact G1|]. split; [exact G2|].
  rewrite (call_commit c _ G1 G2). exact G3.
Qed.

Lemma commit_overrides_source_setters_witness :
  let s := startTBarTransition 2 Dissolve OutputSink_default in
  transition_in_progress_ s = true
  /\ reaches_one (SetProgress F32.one) s = true
  /\ currentInput (setCurrentInput 7 s) = 7
  /\ currentInput (fst (call (SetProgress F32.one) (apply (OpSetCurrentInput 7) s)))
     = 2.
Proof.
  split; [reflexivity|]. split; [reflexivity|]. split; [reflexivity|].
  destruct (commit_overrides_source_setters (OpSetCurrentInput 7)
              (SetProgress F32.one)
              (startTBarTransition 2 Dissolve OutputSink_default)
              I eq_refl eq_refl) as (_ & _ & E).
  rewrite E. reflexivity.
Defined.

(** ** Cancelling and restarting *)

(** X8. After [cancelTransition] no sequence of [advanceTransition] and
    [setTransitionProgress] calls changes anything or returns [true], so the
    cancelled target can no longer be committed; and cancelling again
    changes nothing. *)
Theorem cancel_is_final (s : OutputSink) (cs : list progress_call) (c : progress_call) :
  run cs (cancelTransition s) = cancelTransition s
  /\ call c (cancelTransition s) = (cancelTransition s, false)
  /\ Forall (fun s' => s' = cancelTransition s) (trace cs (cancelTransition s))
  /\ cancelTransition (cancelTransition s) = cancelTransition s.
Proof.
  assert (H : transition_in_progress_ (cancelTransition s) = false) by reflexivity.
  destruct (run_from_idle cs _ H) as (R1 & R2 & _).
  destruct (call_idle c _ H) as [E _].
  repeat split; assumption.
Qed.

(** X9. Once a transition has committed a crop and an edge blend, a later
    timed transition started with the plain [startTransition] commits the
    same crop and edge blend again: the pending values are not cleared by a
    commit, so only the input changes. *)
Theorem committed_crop_survives_plain_transition
    (s : OutputSink) (c1 : progress_call)
    (toInput : Z) (type : OutputTransitionType) (durationFrames : float32)
    (cs : list progress_call) (c2 : progress_call) :
  transition_in_progress_ s = true ->
  reaches_one c1 s = true ->
  is_Cut type = false ->
  F32.leb durationFrames F32.zero = false ->
  let s1 := fst (call c1 s) in
  let s2 := startTransition toInput type durationFrames s1 in
  reach_count cs s2 = O ->
  reaches_one c2 (run cs s2) = true ->
  currentInput (fst (call c2 (run cs s2))) = toInput
  /\ currentCrop (fst (call c2 (run cs s2))) = currentCrop s1
  /\ currentEdgeBlend (fst (call c2 (run cs s2))) = currentEdgeBlend s1.
Proof.
  intros H R1 Ht Hd s1 s2 R Rc.
  destruct (timed_start_quiet_commit s1 toInput type durationFrames cs c2 Ht Hd R Rc)
    as (_ & _ & T & _).
  injection T as T1 T2 T3.
  unfold currentInput, currentCrop, currentEdgeBlend.
  subst s2. rewrite T1, T2, T3.
  subst s1. rewrite (call_commit c1 s H R1). repeat split.
Qed.

Lemma committed_crop_survives_plain_transition_witness :
  let s := startTransitionWithCrop 2 Dissolve F32.one
             F32.half F32.zero F32.half F32.one OutputSink_default in
  let s1 := fst (call Advance s) in
  let s2 := startTransition 3 Wipe F32.one s1 in
  transition_in_progress_ s = true
  /\ reaches_one Advance s = true
  /\ reach_count [] s2 = O
  /\ reaches_one Advance (run [] s2) = true
  /\ currentInput (fst (call Advance (run [] s2))) = 3
  /\ currentCrop (fst (call Advance (run [] s2)))
     = mkCrop F32.half F32.zero F32.half F32.one.
Proof.
  split; [reflexivity|]. split; [reflexivity|].
  split; [reflexivity|]. split; [reflexivity|].
  destruct (committed_crop_survives_plain_transition
              (startTransitionWithCrop 2 Dissolve F32.one
                 F32.half F32.zero F32.half F32.one OutputSink_default)
              Advance 3 Wipe F32.one [] Advance
              eq_refl eq_refl eq_refl eq_refl eq_refl eq_refl) as (A & B & _).
  split; [exact A|]. rewrite B. reflexivity.
Defined.


(** ** Full-frame crops *)

Lemma eqb_zero_iff (a : float32) :
  F32.eqb a F32.zero = true <-> F32.is_zero a = true.
Proof.
  unfold F32.eqb, SFeqb, F32.is_zero, F32.zero.
  destruct a as [sa|[|]| |[|] ma ea]; simpl; split; congruence.
Qed.

Lemma eqb_one_iff (a : float32) : F32.eqb a F32.one = true <-> a = F32.one.
Proof.
  split; [|intros ->; reflexivity].
  destruct a as [sa|[|]| |[|] ma ea]; try discriminate.
  unfold F32.eqb, SFeqb, F32.one, SFcompare.
  destruct (ea ?= -23) eqn:Ee; try discriminate.
  apply Z.compare_eq in Ee. subst ea.
  destruct (Pos.compare_cont Eq ma 8388608) eqn:Em; try discriminate.
  apply Pos.compare_eq in Em. subst ma. reflexivity.
Qed.

(** X10. [isFullFrame()] holds exactly for the crops whose [x] and [y] are
    a zero of either sign and whose [w] and [h] are [1.0f]; a crop with a
    NaN member is never the full frame. *)
Theorem isFullFrame_iff (c : CropRegion) :
  isFullFrame c = true
  <-> F32.is_zero (x c) = true /\ F32.is_zero (y c) = true
      /\ w c = F32.one /\ h c = F32.one.
Proof.
  unfold isFullFrame. rewrite !andb_true_iff, !eqb_zero_iff, !eqb_one_iff.
  tauto.
Qed.

Lemma isFullFrame_iff_witness :
  isFullFrame (mkCrop (S754_zero true) F32.zero F32.one F32.one) = true
  /\ isFullFrame (mkCrop S754_nan F32.zero F32.one F32.one) = false.
Proof.
  split.
  - apply (proj2 (isFullFrame_iff (mkCrop (S754_zero true) F32.zero F32.one F32.one))).
    repeat split.
  - reflexivity.
Defined.

End SinkMore.

(* ===================================================================== *)
(** * Further properties of the frame ring buffer *)
(* ===================================================================== *)

Section RingMore.
Import Frame Ring RingCalls.

Lemma map_reset (v : list SwitcherFrame) :
  map reset v = replicate (length v) SwitcherFrame_default.
Proof. induction v as [|f v IH]; simpl; [reflexivity | rewrite IH; reflexivity]. Qed.

Lemma vector_resize_length (n : nat) (v : list SwitcherFrame) :
  length (vector_resize n v) = n.
Proof.
  unfold vector_resize. rewrite length_app, length_take, length_replicate. lia.
Qed.

Lemma resize_fresh (capacity : Z) (rb : FrameRingBuffer) :
  resize capacity rb = FrameRingBuffer_new capacity.
Proof.
  unfold resize, FrameRingBuffer_new.
  rewrite map_reset, vector_resize_length. reflexivity.
Qed.

(** X11. [resize(capacity)] throws away everything the buffer held,
    whatever its state and its old capacity: the result is the buffer the
    constructor builds for that capacity, every slot a default frame, both
    indices and the count at zero. *)
Theorem resize_gives_fresh_buffer (capacity : Z) (rb : FrameRingBuffer) :
  resize capacity rb = FrameRingBuffer_new capacity
  /\ size (resize capacity rb) = 0
  /\ length (frames_ (resize capacity rb)) = Z.to_nat capacity
  /\ Forall (fun f => f = SwitcherFrame_default) (frames_ (resize capacity rb)).
Proof.
  rewrite resize_fresh. unfold FrameRingBuffer_new. simpl.
  rewrite length_replicate. repeat split.
  apply Forall_replicate. reflexivity.
Qed.

Lemma clear_fresh (C : Z) (q : list SwitcherFrame) (rb : FrameRingBuffer) :
  holds C q rb -> clear rb = FrameRingBuffer_new C.
Proof.
  intros (Hcap & Hlen & _). unfold clear, FrameRingBuffer_new.
  rewrite map_reset, Hcap, Hlen. reflexivity.
Qed.

Lemma capacity_ok_range (C : Z) : capacity_ok C = true -> 0 < C /\ C < 2 ^ 63.
Proof.
  unfold capacity_ok. intros H. apply andb_true_iff in H as [H1 H2].
  apply Z.ltb_lt in H1. apply Z.ltb_lt in H2. split; assumption.
Qed.

(** One call on a buffer that holds [q] does what the queue does. *)
Lemma buffer_step_queue (c : buffer_call) (C : Z) (q : list SwitcherFrame)
    (rb : FrameRingBuffer) :
  capacity_ok C = true ->
  resize_ok c = true ->
  holds C q rb ->
  exists rb',
    buffer_step c rb = Ret (rb', snd (queue_step c (C, q)))
    /\ capacity_ok (fst (fst (queue_step c (C, q)))) = true
    /\ holds (fst (fst (queue_step c (C, q)))) (snd (fst (queue_step c (C, q)))) rb'.
Proof.
  intros HC Hc H. destruct (capacity_ok_range C HC) as [Cp Cf].
  destruct c as [f| | | | | |capacity]; simpl.
  - destruct (holds_push C Cp Cf q rb f H) as (rb' & -> & H'). simpl. eauto.
  - rewrite (holds_peekLatest C Cp Cf q rb H). simpl. eauto.
  - destruct q as [|x q].
    + rewrite (holds_pop_empty C rb H). simpl. eauto.
    + destruct (holds_pop C Cp Cf x q rb H) as (rb' & -> & H'). simpl. eauto.
  - destruct (holds_size C q rb H) as [-> _]. eauto.
  - exists rb. split; [|split; assumption].
    unfold empty. destruct (holds_size C q rb H) as [-> _].
    destruct q; reflexivity.
  - exists (clear rb). split; [reflexivity|]. split; [exact HC|].
    exact (holds_clear C Cp q rb H).
  - exists (resize capacity rb). split; [reflexivity|]. split; [exact Hc|].
    rewrite resize_fresh.
    apply holds_new. apply (capacity_ok_range capacity Hc).
Qed.

Lemma buffer_trace_queue (cs : list buffer_call) (C : Z) (q : list SwitcherFrame)
    (rb : FrameRingBuffer) :
  capacity_ok C = true ->
  forallb resize_ok cs = true ->
  holds C q rb ->
  exists rb',
    buffer_trace cs rb = Ret (fst (queue_trace cs (C, q)), rb')
    /\ holds (fst (snd (queue_trace cs (C, q)))) (snd (snd (queue_trace cs (C, q)))) rb'.
Proof.
  revert C q rb. induction cs as [|c cs IH]; intros C q rb HC Hcs H.
  - exists rb. split; [reflexivity | exact H].
  - simpl in Hcs. apply andb_true_iff in Hcs as [Hc Hcs].
    destruct (buffer_step_queue c C q rb HC Hc H) as (rb1 & E1 & HC1 & H1).
    cbn [buffer_trace queue_trace]. rewrite E1. cbn [obind fst snd].
    destruct (queue_step c (C, q)) as [[C1 q1] o1] eqn:Eq. cbn [fst snd] in *.
    destruct (IH C1 q1 rb1 HC1 Hcs H1) as (rb' & E' & H').
    rewrite E'. cbn [obind fst snd]. exists rb'. split; [reflexivity | exact H'].
Qed.

(** X12. Over any run of [push], [peekLatest], [pop], [size], [empty],
    [clear] and [resize] calls, in any order, on a buffer built with a
    capacity of at least one slot (resizes likewise), every call is defined
    and hands back exactly what a queue of at most [capacity] frames hands
    back: the queue lets go of its oldest frame when a frame arrives while
    it is full, [pop] takes the oldest frame or fails when there is none,
    [peekLatest] shows the newest, and [clear] and [resize] empty it. *)
Theorem ring_buffer_behaves_as_bounded_queue (C : Z) (cs : list buffer_call) :
  capacity_ok C = true ->
  forallb resize_ok cs = true ->
  exists rb,
    buffer_trace cs (FrameRingBuffer_new C) = Ret (fst (queue_trace cs (C, [])), rb)
    /\ size rb = Z.of_nat (length (snd (snd (queue_trace cs (C, [])))))
    /\ 0 <= size rb <= capacity_ rb.
Proof.
  intros HC Hcs.
  destruct (buffer_trace_queue cs C [] (FrameRingBuffer_new C) HC Hcs)
    as (rb & E & H).
  { apply holds_new. apply (capacity_ok_range C HC). }
  exists rb. split; [exact E|].
  destruct (holds_size _ _ rb H) as [Hs Hr]. split; [exact Hs|].
  destruct H as (Hcap & _). rewrite Hcap. exact Hr.
Qed.

Lemma ring_buffer_behaves_as_bounded_queue_witness :
  let f := numbered in
  let cs := [CPush (f 1); CPush (f 2); CPop; CPush (f 3); CPush (f 4); CSize;
             CPeekLatest; CResize 1; CEmpty; CPush (f 5); CPush (f 6); CPop; CPop] in
  capacity_ok 2 = true
  /\ forallb resize_ok cs = true
  /\ exists rb,
       buffer_trace cs (FrameRingBuffer_new 2)
       = Ret ([SawBool true; SawBool true; SawFrame (Some (f 1)); SawBool true;
               SawBool true; SawSize 2; SawFrame (Some (f 4)); SawNothing;
               SawBool true; SawBool true; SawBool true; SawFrame (Some (f 6));
               SawFrame None], rb).
Proof.
  split; [reflexivity|]. split; [reflexivity|].
  destruct (ring_buffer_behaves_as_bounded_queue 2
              [CPush (numbered 1); CPush (numbered 2); CPop; CPush (numbered 3);
               CPush (numbered 4); CSize; CPeekLatest; CResize 1; CEmpty;
               CPush (numbered 5); CPush (numbered 6); CPop; CPop]
              eq_refl eq_refl) as (rb & E & _).
  exists rb. exact E.
Defined.

(** X13. On a buffer in use, [clear()] gives back the buffer the
    constructor builds for its capacity, and the buffer then serves again
    like a new one. *)
Theorem clear_gives_fresh_buffer (C : Z) (cs : list buffer_call) :
  capacity_ok C = true ->
  forallb resize_ok cs = true ->
  exists rb,
    buffer_trace cs (FrameRingBuffer_new C) = Ret (fst (queue_trace cs (C, [])), rb)
    /\ clear rb = FrameRingBuffer_new (capacity_ rb)
    /\ capacity_ rb = fst (snd (queue_trace cs (C, []))).
Proof.
  intros HC Hcs.
  destruct (buffer_trace_queue cs C [] (FrameRingBuffer_new C) HC Hcs)
    as (rb & E & H).
  { apply holds_new. apply (capacity_ok_range C HC). }
  exists rb. split; [exact E|].
  rewrite (clear_fresh _ _ rb H).
  destruct H as (Hcap & _). rewrite Hcap. split; reflexivity.
Qed.

Lemma clear_gives_fresh_buffer_witness :
  capacity_ok 3 = true
  /\ exists rb,
       buffer_trace [CPush (numbered 1); CPush (numbered 2); CPop]
         (FrameRingBuffer_new 3)
       = Ret ([SawBool true; SawBool true; SawFrame (Some (numbered 1))], rb)
       /\ clear rb = FrameRingBuffer_new 3.
Proof.
  split; [reflexivity|].
  destruct (clear_gives_fresh_buffer 3
              [CPush (numbered 1); CPush (numbered 2); CPop] eq_refl eq_refl)
    as (rb & E & Hc & Hcap).
  exists rb. split; [exact E|]. rewrite Hc, Hcap. reflexivity.
Defined.

(** X14. A buffer of capacity zero, constructed so or resized to it, has
    no slot: every [push] indexes past the end of an empty vector and takes
    a remainder by zero, so it has no defined result, whereas [pop] and
    [peekLatest] see the count at zero and return [false]. *)
Theorem zero_capacity_buffer (f : SwitcherFrame) (rb : FrameRingBuffer) :
  push f (resize 0 rb) = Undefined
  /\ push f (FrameRingBuffer_new 0) = Undefined
  /\ pop (resize 0 rb) = Ret (resize 0 rb, None)
  /\ peekLatest (resize 0 rb) = Ret None
  /\ size (resize 0 rb) = 0.
Proof.
  rewrite resize_fresh. repeat split.
Qed.

End RingMore.

(* ===================================================================== *)
(** * Further properties of the texture pool *)
(* ===================================================================== *)

Section PoolMore.
Import Frame Pool PoolRuns.

Variable DevState : Type.
Variable newTextureWithDescriptor : Z -> Z -> DevState -> option MTLTexture * DevState.

#[local] Abbreviation acquire := (acquire DevState newTextureWithDescriptor).
#[local] Abbreviation acquire_n := (acquire_n DevState newTextureWithDescriptor).
#[local] Abbreviation TexturePool_new := (TexturePool_new DevState newTextureWithDescriptor).
#[local] Abbreviation preallocate := (preallocate DevState newTextureWithDescriptor).

Lemma release_matching (t : MTLTexture) (p : TexturePool) :
  matches t p ->
  release (Some t) p = mkPool (width_ p) (height_ p) (available_ p ++ [t]).
Proof.
  intros [Hw Hh]. unfold release.
  rewrite Hw, Hh, !Z.eqb_refl. reflexivity.
Qed.

Lemma release_all_matching (ts : list MTLTexture) (p : TexturePool) :
  Forall (fun t => matches t p) ts ->
  release_all ts p = mkPool (width_ p) (height_ p) (available_ p ++ ts).
Proof.
  destruct p as [w h avail]. unfold matches. simpl.
  revert avail. induction ts as [|t ts IH]; intros avail H.
  - rewrite app_nil_r. reflexivity.
  - apply Forall_cons in H as [[Hw Hh] Hts].
    unfold release_all in *. cbn [fold_left].
    unfold release at 2. cbn [width_ height_ available_].
    rewrite Hw, Hh, !Z.eqb_refl. cbn [andb].
    rewrite (IH (avail ++ [t]) Hts), <- app_assoc. reflexivity.
Qed.

Lemma acquire_n_free (p : TexturePool) (ts : list MTLTexture) (d : DevState) :
  acquire_n (length ts) (mkPool (width_ p) (height_ p) (available_ p ++ ts)) d
  = (map Some (rev ts), p, d).
Proof.
  induction ts as [|t ts IH] using rev_ind.
  - simpl. rewrite app_nil_r. destruct p; reflexivity.
  - rewrite length_app, Nat.add_comm. simpl.
    unfold Pool.acquire. simpl.
    rewrite app_assoc, last_snoc, removelast_last.
    change (PoolRuns.acquire_n DevState newTextureWithDescriptor) with acquire_n.
    rewrite IH, rev_unit. reflexivity.
Qed.

(** X15. The free set is a stack: after releasing textures of the
    configured dimensions in some order, as many [acquire()] calls hand
    them back in the reverse order, most recently released first, without
    asking the device for anything and leaving the pool as it was before
    the releases. *)
Theorem pool_reuses_last_released_first
    (p : TexturePool) (ts : list MTLTexture) (d : DevState) :
  Forall (fun t => matches t p) ts ->
  acquire_n (length ts) (release_all ts p) d = (map Some (rev ts), p, d).
Proof.
  intros H. rewrite (release_all_matching ts p H). apply acquire_n_free.
Qed.

(** X16. [resize] to the configured dimensions is the identity; to any
    other dimensions it empties the free set and records the new ones.
    After such a resize a texture of the old dimensions is turned away by
    [release], and the next [acquire()] asks the device for a texture of
    the new dimensions and leaves the free set empty. *)
Theorem resize_discards_and_reconfigures
    (w h : Z) (p : TexturePool) (t : MTLTexture) (d : DevState) :
  resize (width_ p) (height_ p) p = p
  /\ (w <> width_ p \/ h <> height_ p ->
      resize w h p = mkPool w h []
      /\ resize w h (resize w h p) = resize w h p
      /\ (matches t p -> release (Some t) (resize w h p) = resize w h p)
      /\ acquire (resize w h p) d
         = (fst (newTextureWithDescriptor w h d), mkPool w h [],
            snd (newTextureWithDescriptor w h d))).
Proof.
  split.
  - unfold resize. rewrite !Z.eqb_refl. reflexivity.
  - intros Hne.
    assert (E : resize w h p = mkPool w h []).
    { unfold resize. destruct ((w =? width_ p) && (h =? height_ p)) eqn:B;
        [|reflexivity].
      apply andb_true_iff in B as [B1 B2].
      apply Z.eqb_eq in B1. apply Z.eqb_eq in B2. destruct Hne; contradiction. }
    rewrite E. split; [reflexivity|]. split; [|split].
    + unfold resize. simpl. rewrite !Z.eqb_refl. reflexivity.
    + intros [Mw Mh]. unfold release. simpl.
      destruct ((tex_width t =? w) && (tex_height t =? h)) eqn:B; [|reflexivity].
      apply andb_true_iff in B as [B1 B2].
      apply Z.eqb_eq in B1. apply Z.eqb_eq in B2.
      destruct Hne as [Hne|Hne]; exfalso; apply Hne; congruence.
    + unfold Pool.acquire. simpl.
      destruct (newTextureWithDescriptor w h d); reflexivity.
Qed.

Lemma preallocate_length (n : nat) (w h : Z) (avail : list MTLTexture) (d : DevState) :
  (length (fst (preallocate n w h avail d)) <= length avail + n)%nat
  /\ (never_fails DevState newTextureWithDescriptor ->
      length (fst (preallocate n w h avail d)) = (length avail + n)%nat).
Proof.
  revert avail d. induction n as [|n IH]; intros avail d; simpl.
  - split; [lia | intros _; lia].
  - destruct (newTextureWithDescriptor w h d) as [[t|] d'] eqn:E.
    + destruct (IH (avail ++ [t]) d') as [I1 I2].
      rewrite length_app in I1, I2. simpl in I1, I2.
      split; [lia | intros N; rewrite (I2 N); lia].
    + destruct (IH avail d') as [I1 I2]. split; [lia|].
      intros N. exfalso. apply (N w h d). rewrite E. reflexivity.
Qed.

(** X17. The constructor records the dimensions it is given and fills the
    free set with at most [poolSize] textures, dropping the ones the device
    fails to create; with a device that never fails the free set holds
    exactly [poolSize] textures. *)
Theorem constructor_fills_pool (w h : Z) (poolSize : nat) (d : DevState) :
  width_ (fst (TexturePool_new w h poolSize d)) = w
  /\ height_ (fst (TexturePool_new w h poolSize d)) = h
  /\ (length (available_ (fst (TexturePool_new w h poolSize d))) <= poolSize)%nat
  /\ (never_fails DevState newTextureWithDescriptor ->
      length (available_ (fst (TexturePool_new w h poolSize d))) = poolSize).
Proof.
  unfold Pool.TexturePool_new.
  destruct (preallocate_length poolSize w h [] d) as [L1 L2].
  destruct (preallocate poolSize w h [] d) as [avail d']. simpl in *.
  repeat split; [lia | exact L2].
Qed.

End PoolMore.

Lemma counting_device_never_fails : PoolRuns.never_fails Z Pool.counting_device.
Proof. intros w h d. discriminate. Qed.

Lemma pool_reuses_last_released_first_witness :
  let p := fst (Pool.TexturePool_new Z Pool.counting_device 640 480 1 0) in
  let a := Frame.mkTexture 10 640 480 in
  let b := Frame.mkTexture 11 640 480 in
  Forall (fun t => Pool.matches t p) [a; b]
  /\ PoolRuns.acquire_n Z Pool.counting_device 2 (PoolRuns.release_all [a; b] p) 1
     = ([Some b; Some a], p, 1).
Proof.
  assert (H : Forall
                (fun t => Pool.matches t
                   (fst (Pool.TexturePool_new Z Pool.counting_device 640 480 1 0)))
                [Frame.mkTexture 10 640 480; Frame.mkTexture 11 640 480]).
  { repeat constructor. }
  split; [exact H|].
  exact (pool_reuses_last_released_first Z Pool.counting_device _ _ 1 H).
Defined.

Lemma resize_discards_and_reconfigures_witness :
  let p := fst (Pool.TexturePool_new Z Pool.counting_device 640 480 2 0) in
  let t := Frame.mkTexture 0 640 480 in
  (1280 <> Pool.width_ p \/ 720 <> Pool.height_ p)
  /\ Pool.matches t p
  /\ Pool.release (Some t) (Pool.resize 1280 720 p) = Pool.mkPool 1280 720 []
  /\ Pool.acquire Z Pool.counting_device (Pool.resize 1280 720 p) 2
     = (Some (Frame.mkTexture 2 1280 720), Pool.mkPool 1280 720 [], 3).
Proof.
  assert (Hne : 1280 <> 640 \/ 720 <> 480) by (left; discriminate).
  split; [exact Hne|]. split; [split; reflexivity|].
  destruct (resize_discards_and_reconfigures Z Pool.counting_device 1280 720
              (fst (Pool.TexturePool_new Z Pool.counting_device 640 480 2 0))
              (Frame.mkTexture 0 640 480) 2) as (_ & H).
  destruct (H Hne) as (E & _ & Hr & Ha).
  split.
  - rewrite (Hr ltac:(split; reflexivity)). exact E.
  - exact Ha.
Defined.

Lemma constructor_fills_pool_witness :
  PoolRuns.never_fails Z Pool.counting_device
  /\ length (Pool.available_
               (fst (Pool.TexturePool_new Z Pool.counting_device 1920 1080 10 0)))
     = 10%nat.
Proof.
  split; [exact counting_device_never_fails|].
  apply (constructor_fills_pool Z Pool.counting_device 1920 1080 10 0).
  exact counting_device_never_fails.
Defined.

(* ===================================================================== *)
(** * Names of output and source types *)
(* ===================================================================== *)

(** X18. [outputTypeToString] gives every output type a name of its own,
    so the type can be told from the name. *)
Theorem outputTypeToString_injective (a b : OutputTypes.OutputType) :
  OutputTypes.outputTypeToString a = OutputTypes.outputTypeToString b -> a = b.
Proof.
  destruct a, b; intros E; try reflexivity; discriminate E.
Qed.

Lemma outputTypeToString_injective_witness :
  OutputTypes.outputTypeToString OutputTypes.Preview
  = OutputTypes.outputTypeToString OutputTypes.Preview
  /\ OutputTypes.outputTypeToString OutputTypes.Display
     <> OutputTypes.outputTypeToString OutputTypes.DeckLink.
Proof.
  split; [reflexivity|].
  intros E. apply outputTypeToString_injective in E. discriminate E.
Defined.

(** X19. [sourceTypeToString] gives every source type a name of its own. *)
Theorem sourceTypeToString_injective (a b : SourceTypes.SourceType) :
  SourceTypes.sourceTypeToString a = SourceTypes.sourceTypeToString b -> a = b.
Proof.
  destruct a, b; intros E; try reflexivity; discriminate E.
Qed.

Lemma sourceTypeToString_injective_witness :
  SourceTypes.sourceTypeToString SourceTypes.Syphon
  = SourceTypes.sourceTypeToString SourceTypes.Syphon
  /\ SourceTypes.sourceTypeToString SourceTypes.ScreenCapture
     <> SourceTypes.sourceTypeToString SourceTypes.Syphon.
Proof.
  split; [reflexivity|].
  intros E. apply sourceTypeToString_injective in E. discriminate E.
Defined.

(* ===================================================================== *)
(** * Manual transitions and the automatic advance *)
(* ===================================================================== *)

Section SinkManual.
Import Sink.

#[local] Arguments F32.add : simpl never.
#[local] Arguments F32.div : simpl never.
#[local] Arguments F32.geb : simpl never.
#[local] Arguments F32.leb : simpl never.
#[local] Arguments F32.ltb : simpl never.
#[local] Arguments F32.std_min : simpl never.
#[local] Arguments F32.std_max : simpl never.

(** Below one the clamp is a number: not NaN, not [-inf]. *)
Lemma clamp01_below_one_number (p : float32) :
  F32.ltb p F32.one = true ->
  F32.clamp01 p <> S754_nan /\ F32.clamp01 p <> S754_infinity true.
Proof.
  intros L.
  destruct (clamp01_cases p) as [(H0 & _ & ->)|[(_ & _ & ->)|(H1 & _)]].
  - destruct p as [sp|[|]| |sp mp ep]; split; discriminate.
  - split; discriminate.
  - congruence.
Qed.

(** A run of manual settings below one keeps the duration and the staged
    triple, and leaves a number as progress. *)
Lemma manual_run_keeps_duration (ps : list float32) (s : OutputSink) :
  transition_in_progress_ s = true ->
  transition_progress_ s <> S754_nan ->
  transition_progress_ s <> S754_infinity true ->
  forallb (fun p => F32.ltb p F32.one) ps = true ->
  transition_in_progress_ (run (map SetProgress ps) s) = true
  /\ transition_duration_frames_ (run (map SetProgress ps) s)
     = transition_duration_frames_ s
  /\ pending_triple (run (map SetProgress ps) s) = pending_triple s
  /\ transition_progress_ (run (map SetProgress ps) s) <> S754_nan
  /\ transition_progress_ (run (map SetProgress ps) s) <> S754_infinity true.
Proof.
  revert s. induction ps as [|p ps IH]; intros s H Hn Hi A.
  - cbn [map run]. repeat split; assumption.
  - cbn [forallb] in A. apply andb_true_iff in A as [L A].
    cbn [map run call].
    assert (R : reaches_one (SetProgress p) s = false).
    { unfold reaches_one, tested_progress. rewrite H. cbn [negb].
      change (F32.std_max F32.zero (F32.std_min F32.one p)) with (F32.clamp01 p).
      rewrite clamp01_geb_one, L. reflexivity. }
    destruct (call_stay (SetProgress p) s H R) as (v & Ev & E).
    unfold tested_progress in Ev. rewrite H in Ev. cbn [negb] in Ev.
    injection Ev as <-.
    rewrite (E : fst (setTransitionProgress p s) = _).
    destruct (clamp01_below_one_number p L) as [Cn Ci].
    apply (IH (set_transition_progress_
                 (F32.std_max F32.zero (F32.std_min F32.one p)) s));
      [exact H | exact Cn | exact Ci | exact A].
Qed.

(** X20. A T-bar transition does not survive the engine's tick: after
    [startTBarTransition] and any manual settings below one, the first
    [advanceTransition] divides by the zero duration, finds the progress at
    [+inf], commits the target with the pending crop and edge blend, and
    returns [true]. *)
Theorem first_advance_ends_tbar_transition
    (s : OutputSink) (toInput : Z) (type : OutputTransitionType)
    (ps : list float32) :
  forallb (fun p => F32.ltb p F32.one) ps = true ->
  let s0 := run (map SetProgress ps) (startTBarTransition toInput type s) in
  transition_in_progress_ s0 = true
  /\ snd (advanceTransition s0) = true
  /\ currentInput (fst (advanceTransition s0)) = toInput
  /\ currentCrop (fst (advanceTransition s0)) = pendingCrop s
  /\ currentEdgeBlend (fst (advanceTransition s0)) = pendingEdgeBlend s
  /\ transition_in_progress_ (fst (advanceTransition s0)) = false.
Proof.
  intros A s0.
  destruct (manual_run_keeps_duration ps (startTBarTransition toInput type s))
    as (H & D & P & Hn & Hi);
    [reflexivity | discriminate | discriminate | exact A |].
  fold s0 in H, D, P, Hn, Hi.
  destruct (advance_zero_duration s0 H D Hn Hi) as (_ & R & T & I).
  rewrite P in T. injection T as T1 T2 T3.
  repeat split; assumption.
Qed.

Lemma first_advance_ends_tbar_transition_witness :
  let s0 := run (map SetProgress [F32.half])
              (startTBarTransition 2 Dissolve OutputSink_default) in
  forallb (fun p => F32.ltb p F32.one) [F32.half] = true
  /\ transition_progress_ s0 = F32.half
  /\ snd (advanceTransition s0) = true
  /\ currentInput (fst (advanceTransition s0)) = 2.
Proof.
  split; [reflexivity|]. split; [reflexivity|].
  destruct (first_advance_ends_tbar_transition OutputSink_default 2 Dissolve
              [F32.half] eq_refl) as (_ & R & C & _).
  split; [exact R | exact C].
Defined.

End SinkManual.
